(** * The Sparkify ETL (etl.py): shallow embedding and verified properties

    [process_song_file] and [process_log_file] read a line-delimited JSON
    file into a pandas frame, derive rows from it and hand them to a database
    cursor.  The frame operations are written out on a small model of
    pandas frames (labelled columns, rows of Python values), the cursor is
    an explicit state threaded through an error monad, and the database
    behind the cursor is a parameter of the development. *)

From Stdlib Require Import ZArith List String Ascii Bool Lia DecimalString.
Import ListNotations.

#[local] Open Scope string_scope.
#[local] Open Scope list_scope.
#[local] Open Scope Z_scope.

(** ** Python values *)

(** The values a frame cell, a statement argument or a fetched column can
    hold.  [VNone] stands for a missing cell ([None]/[NaN]), a float is
    kept as the 64 bits of its IEEE-754 encoding, [VTimestamp] is a pandas
    [Timestamp] in nanoseconds since the epoch ([NaT] when the count is the
    least 64-bit integer) and [VTime] a [datetime.time]. *)
Inductive value : Type :=
| VNone
| VInt (z : Z)
| VFloat (bits : Z)
| VStr (s : string)
| VTimestamp (ns : Z)
| VTime (hour minute second microsecond : Z).

Definition value_eq_dec (a b : value) : {a = b} + {a <> b}.
Proof. decide equality; (apply Z.eq_dec || apply string_dec). Defined.

(** ** Exceptions and results *)

Inductive exn : Type :=
| KeyError (label : string)
| AttributeError (name : string)
| IndexError
| ValueError
| TypeError
| OutOfBoundsDatetime
| OverflowError
| IOError (msg : string)
| DatabaseError (msg : string).

Inductive result (A : Type) : Type :=
| Ok (a : A)
| Err (e : exn).
Arguments Ok {A} a.
Arguments Err {A} e.

Definition rbind {A B : Type} (r : result A) (k : A -> result B) : result B :=
  match r with
  | Ok a => k a
  | Err e => Err e
  end.

Fixpoint rmap {A B : Type} (f : A -> result B) (l : list A) : result (list B) :=
  match l with
  | [] => Ok []
  | x :: l' =>
      rbind (f x) (fun y => rbind (rmap f l') (fun ys => Ok (y :: ys)))
  end.

(** ** Floats *)

(** The 64 bits of a double: a sign, eleven bits of exponent and 52 bits of
    fraction. *)
Definition float_exponent (bits : Z) : Z := (bits / 2 ^ 52) mod 2048.
Definition float_fraction (bits : Z) : Z := bits mod 2 ^ 52.
Definition float_negative (bits : Z) : bool := Z.odd (bits / 2 ^ 63).

Definition float_is_nan (bits : Z) : bool :=
  (float_exponent bits =? 2047) && negb (float_fraction bits =? 0).

(** The integer a double stands for, when it stands for one. *)
Definition float_integer (bits : Z) : option Z :=
  let e := float_exponent bits in
  let f := float_fraction bits in
  let sign := if float_negative bits then -1 else 1 in
  if e =? 2047 then None
  else if e =? 0 then (if f =? 0 then Some 0 else None)
  else
    let m := 2 ^ 52 + f in
    if 1075 <=? e then Some (sign * (m * 2 ^ (e - 1075)))
    else if m mod 2 ^ (1075 - e) =? 0 then Some (sign * (m / 2 ^ (1075 - e)))
    else None.

(** [float(z)]: the double nearest to the integer [z], ties to even. *)
Definition float_of_int (z : Z) : Z :=
  if z =? 0 then 0
  else
    let a := Z.abs z in
    let e := Z.log2 a in
    let m :=
      if e <=? 52 then a * 2 ^ (52 - e)
      else
        let k := e - 52 in
        let q := a / 2 ^ k in
        let r := a mod 2 ^ k in
        if (2 * r <? 2 ^ k) || ((2 * r =? 2 ^ k) && Z.even q) then q
        else q + 1 in
    (if z <? 0 then 2 ^ 63 else 0) + (e + 1023) * 2 ^ 52 + (m - 2 ^ 52).

(** A missing value: [None] or a [NaN]. *)
Definition missing (v : value) : bool :=
  match v with
  | VNone => true
  | VFloat bits => float_is_nan bits
  | _ => false
  end.

(** ** Frames *)

(** The dtypes a column of these frames can have. *)
Inductive dtype : Type :=
| int64
| float64
| datetime64
| object.

Definition dtype_eqb (a b : dtype) : bool :=
  match a, b with
  | int64, int64 | float64, float64 | datetime64, datetime64
  | object, object => true
  | _, _ => false
  end.

(** A row keeps its cells by column label; a label without a cell reads as
    a missing value, as the keys a JSON line lacks do. *)
Definition row : Type := list (string * value).

(** A frame: its column labels, the dtype of each column (as [df.dtypes]
    gives it; a label without an entry is an object column) and its rows. *)
Record DataFrame : Type := mkDataFrame {
  columns : list string;
  dtypes : list (string * dtype);
  rows : list row
}.

Definition dtype_of (df : DataFrame) (c : string) : dtype :=
  match find (fun p => String.eqb (fst p) c) (dtypes df) with
  | Some p => snd p
  | None => object
  end.

Fixpoint cell (r : row) (c : string) : value :=
  match r with
  | [] => VNone
  | (k, v) :: r' => if String.eqb k c then v else cell r' c
  end.

Definition set_cell (c : string) (v : value) (r : row) : row :=
  (c, v) :: r.

Definition has_column (df : DataFrame) (c : string) : bool :=
  existsb (String.eqb c) (columns df).

Definition add_column (c : string) (cols : list string) : list string :=
  if existsb (String.eqb c) cols then cols else cols ++ [c].

(** [df[c]]: the cells of one column, top to bottom. *)
Definition getitem (df : DataFrame) (c : string) : result (list value) :=
  if has_column df c
  then Ok (map (fun r => cell r c) (rows df))
  else Err (KeyError c).

(** [df[[c1, ..., ck]]]: the frame restricted to the listed columns. *)
Definition getitems (df : DataFrame) (cs : list string) : result DataFrame :=
  match find (fun c => negb (has_column df c)) cs with
  | Some c => Err (KeyError c)
  | None =>
      Ok (mkDataFrame cs (dtypes df)
            (map (fun r => map (fun c => (c, cell r c)) cs) (rows df)))
  end.

(** [df[mask]]: the rows whose mask entry is [True], in their order. *)
Fixpoint select_mask {A : Type} (mask : list bool) (rs : list A) : list A :=
  match mask, rs with
  | b :: mask', r :: rs' =>
      if b then r :: select_mask mask' rs' else select_mask mask' rs'
  | _, _ => []
  end.

(** [df[c] = vals], the new column being of dtype [d]: a frame without
    rows takes its length from [vals]; otherwise the lengths have to
    agree. *)
Definition setitem (df : DataFrame) (c : string) (d : dtype)
    (vals : list value) : result DataFrame :=
  match rows df with
  | [] =>
      Ok (mkDataFrame (add_column c (columns df)) ((c, d) :: dtypes df)
            (map (fun v => set_cell c v []) vals))
  | _ :: _ =>
      if Nat.eqb (List.length vals) (List.length (rows df))
      then Ok (mkDataFrame (add_column c (columns df)) ((c, d) :: dtypes df)
                 (map (fun vr => set_cell c (fst vr) (snd vr))
                      (combine vals (rows df))))
      else Err ValueError
  end.

(** The dtype a column gets when a list is assigned to it: int64 for
    integers, float64 for floats and [NaN], datetime64 for timestamps,
    object for anything else. *)
Definition is_int (v : value) : bool :=
  match v with VInt _ => true | _ => false end.

Definition is_float (v : value) : bool :=
  match v with VFloat _ | VNone => true | _ => false end.

Definition is_timestamp (v : value) : bool :=
  match v with VTimestamp _ => true | _ => false end.

Definition infer_dtype (vals : list value) : dtype :=
  match vals with
  | [] => object
  | _ :: _ =>
      if forallb is_int vals then int64
      else if forallb is_float vals then float64
      else if forallb is_timestamp vals then datetime64
      else object
  end.

(** The cells of a row of the frame, in the order of its columns. *)
Definition row_values (cols : list string) (r : row) : list value :=
  map (cell r) cols.

(** The dtype one array takes for columns of the dtypes [ds]: integers
    stay integers, integers and floats together are floats, timestamps stay
    timestamps, and any other mixture is an array of objects. *)
Definition numeric (d : dtype) : bool :=
  match d with
  | int64 | float64 => true
  | _ => false
  end.

Definition common_dtype (ds : list dtype) : dtype :=
  if forallb (dtype_eqb int64) ds then int64
  else if forallb numeric ds then float64
  else if forallb (dtype_eqb datetime64) ds then datetime64
  else object.

(** A cell brought to the dtype of its array: only an integer in an array
    of floats changes. *)
Definition astype (d : dtype) (v : value) : value :=
  match d, v with
  | float64, VInt z => VFloat (float_of_int z)
  | _, _ => v
  end.

(** [df.values]: the rows of the frame as one array. *)
Definition frame_dtype (df : DataFrame) : dtype :=
  common_dtype (map (dtype_of df) (columns df)).

Definition values (df : DataFrame) : list (list value) :=
  map (fun r => map (astype (frame_dtype df)) (row_values (columns df) r))
      (rows df).

(** [df.values[0]]. *)
Definition values0 (df : DataFrame) : result (list value) :=
  match values df with
  | [] => Err IndexError
  | v :: _ => Ok v
  end.

(** [row.name] on a row handed out by [iterrows]. *)
Definition getattr (cols : list string) (r : row) (name : string)
  : result value :=
  if existsb (String.eqb name) cols
  then Ok (cell r name)
  else Err (AttributeError name).

(** [list(row)] on such a row. *)
Definition series_values (r : row) : list value := map snd r.

(** [duplicated()], keeping the first occurrence: an entry is marked when
    the cells of its row, read along the frame's columns, have been met
    before. *)
Definition values_eq_dec : forall a b : list value, {a = b} + {a <> b} :=
  list_eq_dec value_eq_dec.

Definition seen_before (k : list value) (seen : list (list value)) : bool :=
  if in_dec values_eq_dec k seen then true else false.

Fixpoint duplicated (seen : list (list value)) (ks : list (list value))
  : list bool :=
  match ks with
  | [] => []
  | k :: ks' => seen_before k seen :: duplicated (k :: seen) ks'
  end.

(** [df.drop_duplicates()]. *)
Definition drop_duplicates (df : DataFrame) : DataFrame :=
  let keys := map (row_values (columns df)) (rows df) in
  mkDataFrame (columns df) (dtypes df)
    (select_mask (map negb (duplicated [] keys)) (rows df)).

(** ** Timestamps *)

(** A [Timestamp] is a signed 64-bit count of nanoseconds; the least
    64-bit value is [NaT], the timestamp that is missing. *)
Definition Timestamp_max : Z := 9223372036854775807.
Definition Timestamp_min : Z := -9223372036854775807.
Definition NaT : Z := -9223372036854775808.

Definition is_NaT (ns : Z) : bool := ns =? NaT.

Definition ns_per_ms : Z := 1000000.
Definition ns_per_s : Z := 1000000000.
Definition ns_per_day : Z := 86400 * ns_per_s.

(** The whole number of milliseconds a cell holds: an integer, or a float
    without fractional part (the cells of a [ts] column that is read as
    float64 because a line lacks its [ts]). *)
Definition epoch_ms (v : value) : option Z :=
  match v with
  | VInt ms => Some ms
  | VFloat bits => float_integer bits
  | _ => None
  end.

(** [pd.to_datetime(_, unit='ms')] on one cell.  A missing cell gives
    [NaT], and so does the least 64-bit integer, which is [NaT] itself; any
    other whole number of milliseconds gives its instant when that fits a
    timestamp.  Cells of other kinds (a float with a fractional part, a
    string, a timestamp) are not followed: pandas converts some of them, in
    ways that depend on its release, and they end in an error here.  The
    statements that rest on a conversion name the cells they cover. *)
Definition to_datetime_ms (v : value) : result Z :=
  if missing v then Ok NaT
  else
    match epoch_ms v with
    | Some ms =>
        if is_NaT ms then Ok NaT
        else
          let ns := ms * ns_per_ms in
          if (Timestamp_min <=? ns) && (ns <=? Timestamp_max)
          then Ok ns
          else Err OutOfBoundsDatetime
    | None =>
        match v with
        | VStr _ => Err ValueError
        | _ => Err TypeError
        end
    end.

(** [.dt.ceil(freq='s')] on one instant: [NaT] stays [NaT], any other
    instant goes up to the next multiple of a second, unless that leaves
    the 64 bits. *)
Definition dt_ceil_s (ns : Z) : result Z :=
  if is_NaT ns then Ok NaT
  else
    let r := ns + (- ns) mod ns_per_s in
    if r <=? Timestamp_max then Ok r else Err OverflowError.

(** The [.dt] accessor needs a column of timestamps. *)
Definition as_datetime (v : value) : result Z :=
  match v with
  | VTimestamp ns => Ok ns
  | _ => Err (AttributeError "dt")
  end.

(** A row of [df.values] made into the [Series] that [iterrows] hands
    out.  A row of objects that holds timestamps and otherwise only missing
    values becomes a series of timestamps, its missing values [NaT];
    any other row is kept as it is (rows of strings that all read as dates
    are not followed). *)
Definition infer_datetimelike (vs : list value) : list value :=
  if forallb (fun v => is_timestamp v || missing v) vs
     && existsb is_timestamp vs
  then map (fun v => if missing v then VTimestamp NaT else v) vs
  else vs.

Definition row_series (d : dtype) (vs : list value) : list value :=
  match d with
  | object => infer_datetimelike vs
  | _ => vs
  end.

(** [df.iterrows()]: the rows of [df.values], each as a series labelled by
    the columns. *)
Definition iterrows (df : DataFrame) : list row :=
  map (fun vs => combine (columns df) (row_series (frame_dtype df) vs))
      (values df).

(** *** Calendar fields (proleptic Gregorian, UTC) *)

Definition days_of (ns : Z) : Z := ns / ns_per_day.
Definition ns_of_day (ns : Z) : Z := ns mod ns_per_day.

(** Year, month and day of the day [z] days after 1970-01-01. *)
Definition civil_from_days (z : Z) : Z * Z * Z :=
  let z := z + 719468 in
  let era := z / 146097 in
  let doe := z - era * 146097 in
  let yoe := (doe - doe / 1460 + doe / 36524 - doe / 146096) / 365 in
  let y := yoe + era * 400 in
  let doy := doe - (365 * yoe + yoe / 4 - yoe / 100) in
  let mp := (5 * doy + 2) / 153 in
  let d := doy - (153 * mp + 2) / 5 + 1 in
  let m := if mp <? 10 then mp + 3 else mp - 9 in
  (if m <=? 2 then y + 1 else y, m, d).

Definition days_from_civil (y m d : Z) : Z :=
  let y := if m <=? 2 then y - 1 else y in
  let era := y / 400 in
  let yoe := y - era * 400 in
  let doy := (153 * (if 2 <? m then m - 3 else m + 9) + 2) / 5 + d - 1 in
  let doe := yoe * 365 + yoe / 4 - yoe / 100 + doy in
  era * 146097 + doe - 719468.

(** Monday is 0. *)
Definition weekday_index (ns : Z) : Z := (days_of ns + 3) mod 7.

(** The fields of one instant; those of [NaT] are missing, its [time]
    being [NaT] again. *)
Definition dt_time (ns : Z) : value :=
  if is_NaT ns then VTimestamp NaT
  else
    let t := ns_of_day ns in
    VTime (t / (3600 * ns_per_s))
          (t / (60 * ns_per_s) mod 60)
          (t / ns_per_s mod 60)
          (t / 1000 mod 1000000).

Definition dt_hour (ns : Z) : value :=
  if is_NaT ns then VNone else VInt (ns_of_day ns / (3600 * ns_per_s)).

Definition dt_day (ns : Z) : value :=
  if is_NaT ns then VNone
  else let '(_, _, d) := civil_from_days (days_of ns) in VInt d.

Definition dt_month (ns : Z) : value :=
  if is_NaT ns then VNone
  else let '(_, m, _) := civil_from_days (days_of ns) in VInt m.

Definition dt_year (ns : Z) : value :=
  if is_NaT ns then VNone
  else let '(y, _, _) := civil_from_days (days_of ns) in VInt y.

(** ISO 8601 week number: the week of the year that holds the Thursday of
    the day's week. *)
Definition dt_week (ns : Z) : value :=
  if is_NaT ns then VNone
  else
    let thursday := days_of ns - weekday_index ns + 3 in
    let '(y, _, _) := civil_from_days thursday in
    VInt ((thursday - days_from_civil y 1 1) / 7 + 1).

Definition dt_day_name (ns : Z) : value :=
  if is_NaT ns then VNone
  else
    VStr (match weekday_index ns with
          | 0 => "Monday"
          | 1 => "Tuesday"
          | 2 => "Wednesday"
          | 3 => "Thursday"
          | 4 => "Friday"
          | 5 => "Saturday"
          | _ => "Sunday"
          end).

(** An integer field taken over a column: a series of integers, or, when
    the column holds a [NaT], a series of floats with [NaN] in its
    place. *)
Definition dt_int_series (field : Z -> value) (dt : list Z) : list value :=
  let d := if existsb is_NaT dt then float64 else int64 in
  map (fun ns => astype d (field ns)) dt.

(** ** The cursor *)

(** Modelled from the spec: the six statements of [sql_queries], a module
    of the repository that is not among the sources.  Only which statement a
    call names matters to the program; its text is the database's. *)
Inductive query : Type :=
| song_table_insert
| artist_table_insert
| time_table_insert
| user_table_insert
| songplay_table_insert
| song_select.

Definition query_eqb (a b : query) : bool :=
  match a, b with
  | song_table_insert, song_table_insert
  | artist_table_insert, artist_table_insert
  | time_table_insert, time_table_insert
  | user_table_insert, user_table_insert
  | songplay_table_insert, songplay_table_insert
  | song_select, song_select => true
  | _, _ => false
  end.

(** One [cur.execute(q, args)]. *)
Definition call : Type := (query * list value)%type.

(** What the database does with a statement: it raises, or it leaves a
    result set (empty for an insert). *)
Inductive response : Type :=
| Raise (e : exn)
| Rows (rs : list (list value)).

(** The cursor: the calls made on it so far, oldest first, and the rows of
    the last result set that have not been fetched. *)
Record Cursor : Type := mkCursor {
  calls : list call;
  pending : list (list value)
}.

(** The rows handed to statement [q] so far. *)
Definition emitted (q : query) (cs : list call) : list (list value) :=
  map snd (filter (fun c => query_eqb (fst c) q) cs).

(** Computations on a cursor that may raise. *)
Definition M (A : Type) : Type := Cursor -> result A * Cursor.

Definition ret {A : Type} (a : A) : M A := fun cur => (Ok a, cur).

Definition bind {A B : Type} (m : M A) (k : A -> M B) : M B :=
  fun cur =>
    match m cur with
    | (Ok a, cur') => k a cur'
    | (Err e, cur') => (Err e, cur')
    end.

Definition lift {A : Type} (r : result A) : M A := fun cur => (r, cur).

Declare Scope etl_scope.
Delimit Scope etl_scope with etl.
Notation "x <- m ;; k" := (bind m (fun x => k))
  (at level 61, m at next level, right associativity) : etl_scope.
Notation "m ;; k" := (bind m (fun _ => k))
  (at level 61, right associativity) : etl_scope.
#[local] Open Scope etl_scope.

(** [for x in xs: body(x)]. *)
Fixpoint for_each {A : Type} (xs : list A) (body : A -> M unit) : M unit :=
  match xs with
  | [] => ret tt
  | x :: xs' => body x ;; for_each xs' body
  end.

(** [cur.fetchone()]: the next row of the result set, [None] once it is
    used up. *)
Definition fetchone : M (option (list value)) :=
  fun cur =>
    match pending cur with
    | [] => (Ok None, cur)
    | r :: rs => (Ok (Some r), mkCursor (calls cur) rs)
    end.

(** ** The program *)

Definition song_columns : list string :=
  ["song_id"; "title"; "artist_id"; "year"; "duration"].

Definition artist_columns : list string :=
  ["artist_id"; "artist_name"; "artist_location"; "artist_latitude";
   "artist_longitude"].

Definition time_columns : list string :=
  ["start_time"; "hour"; "day"; "week"; "month"; "year"; "weekday"].

Definition user_columns : list string :=
  ["userId"; "firstName"; "lastName"; "gender"; "level"].

(** [col == s], cell by cell. *)
Definition eq_str (s : string) (v : value) : bool :=
  match v with
  | VStr t => String.eqb t s
  | _ => false
  end.

(** [df[df['page'] == 'NextSong']]. *)
Definition filter_next_song (df : DataFrame) : result DataFrame :=
  rbind (getitem df "page") (fun page =>
  Ok (mkDataFrame (columns df) (dtypes df)
        (select_mask (map (eq_str "NextSong") page) (rows df)))).

(** [df['ts'] = pd.to_datetime(df['ts'], unit='ms').dt.ceil(freq='s')]. *)
Definition convert_ts (df : DataFrame) : result DataFrame :=
  rbind (getitem df "ts") (fun ts =>
  rbind (rmap to_datetime_ms ts) (fun datetimes =>
  rbind (rmap dt_ceil_s datetimes) (fun ceiled =>
  setitem df "ts" datetime64 (map VTimestamp ceiled)))).

(** The seven series taken from [df['ts'].dt]. *)
Definition series_list (df : DataFrame) : result (list (list value)) :=
  rbind (getitem df "ts") (fun ts =>
  rbind (rmap as_datetime ts) (fun dt =>
  Ok [map dt_time dt; dt_int_series dt_hour dt; dt_int_series dt_day dt;
      dt_int_series dt_week dt; dt_int_series dt_month dt;
      dt_int_series dt_year dt; map dt_day_name dt])).

(** The loop that fills [time_df], a column per series, [i] counting the
    columns; each column takes the dtype of the list assigned to it. *)
Fixpoint fill_columns (series : list (list value)) (i : nat)
    (time_df : DataFrame) : result DataFrame :=
  match series with
  | [] => Ok time_df
  | serie :: series' =>
      match nth_error (columns time_df) i with
      | None => Err IndexError
      | Some col =>
          rbind (setitem time_df col (infer_dtype serie) serie)
                (fill_columns series' (S i))
      end
  end.

Definition build_time_df (df : DataFrame) : result DataFrame :=
  rbind (series_list df) (fun series =>
  fill_columns series 0%nat (mkDataFrame time_columns [] [])).

Definition build_user_df (df : DataFrame) : result DataFrame :=
  rbind (getitems df user_columns) (fun users => Ok (drop_duplicates users)).

(** [if results: songid, artistid = results  else: songid, artistid = None, None]:
    [None] and the empty tuple are false, and a tuple of another length
    than two does not unpack. *)
Definition unpack_results (results : option (list value))
  : result (value * value) :=
  match results with
  | None => Ok (VNone, VNone)
  | Some [] => Ok (VNone, VNone)
  | Some [songid; artistid] => Ok (songid, artistid)
  | Some _ => Err ValueError
  end.

Section Etl.

(** [pd.read_json(filepath, lines=True)], and the database behind the
    cursor: its answer to a call, given the calls made before. *)
Variable read_json : string -> result DataFrame.
Variable sink : list call -> query -> list value -> response.

(** [cur.execute(q, args)]. *)
Definition execute (q : query) (args : list value) : M unit :=
  fun cur =>
    match sink (calls cur) q args with
    | Raise e => (Err e, mkCursor (calls cur ++ [(q, args)]) [])
    | Rows rs => (Ok tt, mkCursor (calls cur ++ [(q, args)]) rs)
    end.

Definition process_song_file (filepath : string) : M unit :=
  (* open song file *)
  df <- lift (read_json filepath) ;;
  (* insert song record *)
  song_data <- lift (rbind (getitems df song_columns) values0) ;;
  execute song_table_insert song_data ;;
  (* insert artist record *)
  artist_data <- lift (rbind (getitems df artist_columns) values0) ;;
  execute artist_table_insert artist_data.

(** The body of the songplay loop, on one row of [df.iterrows()]. *)
Definition songplay_step (cols : list string) (row : row) : M unit :=
  (* get songid and artistid from song and artist tables *)
  song <- lift (getattr cols row "song") ;;
  artist <- lift (getattr cols row "artist") ;;
  length <- lift (getattr cols row "length") ;;
  execute song_select [song; artist; length] ;;
  results <- fetchone ;;
  ids <- lift (unpack_results results) ;;
  (* insert songplay record *)
  ts <- lift (getattr cols row "ts") ;;
  userId <- lift (getattr cols row "userId") ;;
  level <- lift (getattr cols row "level") ;;
  sessionId <- lift (getattr cols row "sessionId") ;;
  location <- lift (getattr cols row "location") ;;
  userAgent <- lift (getattr cols row "userAgent") ;;
  execute songplay_table_insert
    [ts; userId; level; fst ids; snd ids; sessionId; location; userAgent].

(** Everything [process_log_file] does once the file is read and
    filtered. *)
Definition load_filtered (df : DataFrame) : M unit :=
  (* convert timestamp column to datetime *)
  df <- lift (convert_ts df) ;;
  (* insert time data records *)
  time_df <- lift (build_time_df df) ;;
  for_each (iterrows time_df) (fun row =>
    execute time_table_insert (series_values row)) ;;
  (* load user table *)
  user_df <- lift (build_user_df df) ;;
  (* insert user records *)
  for_each (iterrows user_df) (fun row =>
    execute user_table_insert (series_values row)) ;;
  (* insert songplay records *)
  for_each (iterrows df) (songplay_step (columns df)).

Definition process_log_file (filepath : string) : M unit :=
  (* open log file *)
  df <- lift (read_json filepath) ;;
  (* filter by NextSong action *)
  df <- lift (filter_next_song df) ;;
  load_filtered df.

End Etl.

(** ** Files, the connection and the console *)

(** What [process_data] and [main] do beside the cursor: lines printed,
    commits (with the number of calls made on the cursor by then) and the
    closing of the connection, oldest first. *)
Inductive io_event : Type :=
| Printed (line : string)
| Committed (upto : nat)
| Closed.

Record Session : Type := mkSession {
  cursor : Cursor;
  events : list io_event
}.

Definition Batch (A : Type) : Type := Session -> result A * Session.

Definition batch_bind {A B : Type} (m : Batch A) (k : A -> Batch B) : Batch B :=
  fun s =>
    match m s with
    | (Ok a, s') => k a s'
    | (Err e, s') => (Err e, s')
    end.

Declare Scope batch_scope.
Delimit Scope batch_scope with batch.
Notation "x <- m ;; k" := (batch_bind m (fun x => k))
  (at level 61, m at next level, right associativity) : batch_scope.
Notation "m ;; k" := (batch_bind m (fun _ => k))
  (at level 61, right associativity) : batch_scope.

Fixpoint batch_for_each {A : Type} (xs : list A) (body : A -> Batch unit)
  : Batch unit :=
  match xs with
  | [] => fun s => (Ok tt, s)
  | x :: xs' => batch_bind (body x) (fun _ => batch_for_each xs' body)
  end.

(** A call of one of the two file functions on the cursor of the
    session. *)
Definition on_cursor {A : Type} (m : M A) : Batch A :=
  fun s =>
    let (r, cur) := m (cursor s) in (r, mkSession cur (events s)).

(** [print(line)]. *)
Definition py_print (line : string) : Batch unit :=
  fun s => (Ok tt, mkSession (cursor s) (events s ++ [Printed line])).

(** [conn.close()]. *)
Definition conn_close : Batch unit :=
  fun s => (Ok tt, mkSession (cursor s) (events s ++ [Closed])).

(** [str(n)]. *)
Definition str_nat (n : nat) : string :=
  NilEmpty.string_of_uint (Nat.to_uint n).

(** ['{} files found in {}'.format(num_files, filepath)]. *)
Definition found_message (num_files : nat) (filepath : string) : string :=
  (str_nat num_files ++ " files found in " ++ filepath)%string.

(** ['{}/{} files processed.'.format(i, num_files)]. *)
Definition processed_message (i num_files : nat) : string :=
  (str_nat i ++ "/" ++ str_nat num_files ++ " files processed.")%string.

Definition starts_with_slash (s : string) : bool :=
  match s with
  | String c _ => Ascii.eqb c "/"%char
  | EmptyString => false
  end.

Fixpoint ends_with_slash (s : string) : bool :=
  match s with
  | EmptyString => false
  | String c EmptyString => Ascii.eqb c "/"%char
  | String _ s' => ends_with_slash s'
  end.

(** [os.path.join(a, b)] on a POSIX system. *)
Definition os_path_join (a b : string) : string :=
  if starts_with_slash b then b
  else if orb (String.eqb a "") (ends_with_slash a) then (a ++ b)%string
  else (a ++ "/" ++ b)%string.

(** [enumerate(xs, start)]. *)
Fixpoint enumerate {A : Type} (start : nat) (xs : list A)
  : list (nat * A) :=
  match xs with
  | [] => []
  | x :: xs' => (start, x) :: enumerate (S start) xs'
  end.

Definition dsn : string :=
  "host=127.0.0.1 dbname=sparkifydb user=student password=student".

Section Batch.

(** The file system as [os.walk], [glob.glob] and [os.path.abspath] show
    it, and whether [conn.commit()] raises after the calls made so far. *)
Variable os_walk : string -> list (string * list string * list string).
Variable glob_glob : string -> list string.
Variable os_path_abspath : string -> string.
Variable commit_raises : list call -> option exn.

(** [conn.commit()]. *)
Definition conn_commit : Batch unit :=
  fun s =>
    match commit_raises (calls (cursor s)) with
    | Some e => (Err e, s)
    | None =>
        (Ok tt,
         mkSession (cursor s)
           (events s ++ [Committed (List.length (calls (cursor s)))]))
    end.

(** The two loops that fill [all_files]. *)
Definition gather_files (filepath : string) : list string :=
  flat_map
    (fun entry =>
       let root := fst (fst entry) in
       let files := glob_glob (os_path_join root "*.json") in
       map os_path_abspath files)
    (os_walk filepath).

Definition process_data (filepath : string) (func : string -> M unit)
  : Batch unit :=
  (* get all files matching extension from directory *)
  let all_files := gather_files filepath in
  (* get total number of files found *)
  let num_files := List.length all_files in
  (py_print (found_message num_files filepath) ;;
   (* iterate over files and process *)
   batch_for_each (enumerate 1 all_files) (fun item =>
     on_cursor (func (snd item)) ;;
     conn_commit ;;
     py_print (processed_message (fst item) num_files)))%batch.

Variable connect_raises : string -> option exn.
Variable read_json : string -> result DataFrame.
Variable sink : list call -> query -> list value -> response.

(** [main()]: when [psycopg2.connect] raises there is no session yet. *)
Definition main : result unit * Session :=
  match connect_raises dsn with
  | Some e => (Err e, mkSession (mkCursor [] []) [])
  | None =>
      (process_data "data/song_data" (process_song_file read_json sink) ;;
       process_data "data/log_data" (process_log_file read_json sink) ;;
       conn_close)%batch
        (mkSession (mkCursor [] []) [])
  end.

End Batch.

(** ** Notions used in the statements *)

(** [subsequence l1 l2]: [l1] is [l2] with some entries left out, the
    others in their order. *)
Inductive subsequence {A : Type} : list A -> list A -> Prop :=
| subsequence_nil : subsequence [] []
| subsequence_skip (x : A) (l1 l2 : list A) :
    subsequence l1 l2 -> subsequence l1 (x :: l2)
| subsequence_keep (x : A) (l1 l2 : list A) :
    subsequence l1 l2 -> subsequence (x :: l1) (x :: l2).

(** What [duplicated] leaves of a list of rows once the marked ones are
    taken out. *)
Definition keep_first (seen ks : list (list value)) : list (list value) :=
  select_mask (map negb (duplicated seen ks)) ks.

(** The instant [process_log_file] derives from the [ts] cell of a row:
    line 56 on one cell. *)
Definition start_time (r : row) : result Z :=
  rbind (to_datetime_ms (cell r "ts")) dt_ceil_s.

(** The instant of a whole number of milliseconds, rounded up to the
    second. *)
Definition ceil_ns (ms : Z) : Z :=
  ms * ns_per_ms + (- (ms * ns_per_ms)) mod ns_per_s.

(** The cells of the row of [time_df] that an instant gives. *)
Definition time_data (ns : Z) : list value :=
  [dt_time ns; dt_hour ns; dt_day ns; dt_week ns; dt_month ns; dt_year ns;
   dt_day_name ns].

(** The rows [time_df.iterrows()] hands out for the instants of a file.
    When one of them is [NaT] the integer fields of all rows are floats, and
    the row of a [NaT], which holds nothing but missing values, is a row of
    [NaT]. *)
Definition time_rows (stamps : list Z) : list (list value) :=
  let d := if existsb is_NaT stamps then float64 else int64 in
  map (fun ns => infer_datetimelike (map (astype d) (time_data ns))) stamps.

Definition nat_row : list value := repeat (VTimestamp NaT) 7.

(** A run in which the database raises stops there: whichever call of
    [new] (made after the calls [hist]) the database answers by raising is
    the last one, and what it raised is the outcome. *)
Definition raises_last {A : Type}
    (sink : list call -> query -> list value -> response)
    (hist new : list call) (res : result A) : Prop :=
  forall pre q args post e,
    new = pre ++ (q, args) :: post ->
    sink (hist ++ pre) q args = Raise e ->
    post = [] /\ res = Err e.

Definition propagating {A : Type}
    (sink : list call -> query -> list value -> response) (m : M A) : Prop :=
  forall cur res cur',
    m cur = (res, cur') ->
    exists new,
      calls cur' = calls cur ++ new /\ raises_last sink (calls cur) new res.

(** The columns the songplay loop reads from a row. *)
Definition songplay_attrs : list string :=
  ["song"; "artist"; "length"; "ts"; "userId"; "level"; "sessionId";
   "location"; "userAgent"].

(** What one pass of the songplay loop hands to the database: the lookup,
    and after it at most the fact, which starts with the row's [ts]. *)
Definition songplay_call (r : row) (c : call) : Prop :=
  fst c = song_select \/
  (fst c = songplay_table_insert /\ exists rest, snd c = cell r "ts" :: rest).

(** ** Sample files and databases *)

Definition log_columns : list string :=
  ["artist"; "firstName"; "gender"; "lastName"; "length"; "level";
   "location"; "page"; "sessionId"; "song"; "ts"; "userAgent"; "userId"].

Definition log_dtypes : list (string * dtype) :=
  [("artist", object); ("firstName", object); ("gender", object);
   ("lastName", object); ("length", float64); ("level", object);
   ("location", object); ("page", object); ("sessionId", int64);
   ("song", object); ("ts", int64); ("userAgent", object);
   ("userId", int64)].

(** One line of a log file; 4643450117705464545 encodes 269.58. *)
Definition log_event (page : string) (ts : value) (level song : string)
  : row :=
  [("artist", VStr "Elena"); ("firstName", VStr "Lily"); ("gender", VStr "F");
   ("lastName", VStr "Koch"); ("length", VFloat 4643450117705464545);
   ("level", VStr level); ("location", VStr "Chicago"); ("page", VStr page);
   ("sessionId", VInt 818); ("song", VStr song); ("ts", ts);
   ("userAgent", VStr "Mozilla/5.0"); ("userId", VInt 15)].

Definition log_row (page : string) (ts : Z) (level song : string) : row :=
  log_event page (VInt ts) level song.

Definition sample_log : DataFrame :=
  mkDataFrame log_columns log_dtypes
    [log_row "NextSong" 1541990258000 "free" "Setanta matins";
     log_row "Home" 1541990258100 "free" "";
     log_row "NextSong" 1541990258500 "free" "Intro";
     log_row "NextSong" 1541990258500 "paid" "Intro"].

Definition sample_song_row (song_id title : string) : row :=
  [("artist_id", VStr "AR5KOSW1187FB35FF4"); ("artist_latitude", VNone);
   ("artist_location", VStr "Dubai UAE"); ("artist_longitude", VNone);
   ("artist_name", VStr "Elena"); ("duration", VFloat 4643450117705464545);
   ("num_songs", VInt 1); ("song_id", VStr song_id); ("title", VStr title);
   ("year", VInt 0)].

Definition song_file_columns : list string :=
  ["artist_id"; "artist_latitude"; "artist_location"; "artist_longitude";
   "artist_name"; "duration"; "num_songs"; "song_id"; "title"; "year"].

Definition song_dtypes : list (string * dtype) :=
  [("artist_id", object); ("artist_latitude", float64);
   ("artist_location", object); ("artist_longitude", float64);
   ("artist_name", object); ("duration", float64); ("num_songs", int64);
   ("song_id", object); ("title", object); ("year", int64)].

Definition sample_songs : DataFrame :=
  mkDataFrame song_file_columns song_dtypes
    [sample_song_row "SOZCTXZ12AB0182364" "Setanta matins";
     sample_song_row "SOOTHER12AB0189999" "Intro"].

Definition sample_read_json (filepath : string) : result DataFrame :=
  if String.eqb filepath "data/log_data/events.json" then Ok sample_log
  else if String.eqb filepath "data/song_data/songs.json" then Ok sample_songs
  else if String.eqb filepath "data/song_data/empty.json"
       then Ok (mkDataFrame [] [] [])
  else Err (IOError "No such file").

Definition setanta_lookup : list value :=
  [VStr "Setanta matins"; VStr "Elena"; VFloat 4643450117705464545].

(** A database that knows one song. *)
Definition one_match_sink (_ : list call) (q : query) (args : list value)
  : response :=
  match q with
  | song_select =>
      if values_eq_dec args setanta_lookup
      then Rows [[VStr "SOZCTXZ12AB0182364"; VStr "AR5KOSW1187FB35FF4"]]
      else Rows []
  | _ => Rows []
  end.

(** A database in which two songs answer to the same title, artist name
    and duration. *)
Definition two_match_sink (_ : list call) (q : query) (args : list value)
  : response :=
  match q with
  | song_select =>
      if values_eq_dec args setanta_lookup
      then Rows [[VStr "SOZCTXZ12AB0182364"; VStr "AR5KOSW1187FB35FF4"];
                 [VStr "SOAAAAA12AB0180000"; VStr "AR5KOSW1187FB35FF4"]]
      else Rows []
  | _ => Rows []
  end.

(** A database whose lookup breaks down on every song but one. *)
Definition failing_sink (_ : list call) (q : query) (args : list value)
  : response :=
  match q with
  | song_select =>
      if values_eq_dec args setanta_lookup
      then Rows [[VStr "SOZCTXZ12AB0182364"; VStr "AR5KOSW1187FB35FF4"]]
      else Raise (DatabaseError "connection lost")
  | _ => Rows []
  end.

(** A frame of two timestamps, one on a second and one half a second
    later, and what line 56 makes of it. *)
Definition sample_stamps : DataFrame :=
  mkDataFrame ["ts"] [("ts", int64)]
    [[("ts", VInt 1541990258000)]; [("ts", VInt 1541990258500)]].

Definition sample_stamps_converted : DataFrame :=
  mkDataFrame ["ts"] [("ts", datetime64); ("ts", int64)]
    [[("ts", VTimestamp 1541990258000000000); ("ts", VInt 1541990258000)];
     [("ts", VTimestamp 1541990259000000000); ("ts", VInt 1541990258500)]].

Definition fresh_cursor : Cursor := mkCursor [] [].

(** The cells of a row that make up [song_data] and [artist_data]. *)
Definition song_data (r : row) : list value :=
  [cell r "song_id"; cell r "title"; cell r "artist_id"; cell r "year";
   cell r "duration"].

Definition artist_data (r : row) : list value :=
  [cell r "artist_id"; cell r "artist_name"; cell r "artist_location";
   cell r "artist_latitude"; cell r "artist_longitude"].

(** The five cells [user_df] keeps of a row. *)
Definition user_data (r : row) : list value :=
  [cell r "userId"; cell r "firstName"; cell r "lastName"; cell r "gender";
   cell r "level"].

(** The sample log after the filter, and after the conversion of [ts]. *)
Definition sample_filtered : DataFrame :=
  mkDataFrame log_columns log_dtypes
    [log_row "NextSong" 1541990258000 "free" "Setanta matins";
     log_row "NextSong" 1541990258500 "free" "Intro";
     log_row "NextSong" 1541990258500 "paid" "Intro"].

Definition sample_converted : DataFrame :=
  mkDataFrame log_columns (("ts", datetime64) :: log_dtypes)
    [set_cell "ts" (VTimestamp 1541990258000000000)
       (log_row "NextSong" 1541990258000 "free" "Setanta matins");
     set_cell "ts" (VTimestamp 1541990259000000000)
       (log_row "NextSong" 1541990258500 "free" "Intro");
     set_cell "ts" (VTimestamp 1541990259000000000)
       (log_row "NextSong" 1541990258500 "paid" "Intro")].

(** The sample log loaded into the database that knows one song. *)
Definition sample_run : result unit * Cursor :=
  process_log_file sample_read_json one_match_sink "data/log_data/events.json"
    fresh_cursor.

(** The sample log loaded into the database whose lookup breaks down at
    the second event. *)
Definition failing_run : result unit * Cursor :=
  process_log_file sample_read_json failing_sink "data/log_data/events.json"
    fresh_cursor.

(** A disk with one song file and, a directory further down, one log file;
    [abspath] puts the working directory in front. *)
Definition disk_walk (filepath : string)
  : list (string * list string * list string) :=
  if String.eqb filepath "data/song_data"
  then [("data/song_data", ["A"], []);
        ("data/song_data/A", [], ["songs.json"; "notes.txt"])]
  else if String.eqb filepath "data/log_data"
  then [("data/log_data", [], ["events.json"])]
  else [].

Definition disk_glob (pattern : string) : list string :=
  if String.eqb pattern "data/song_data/A/*.json"
  then ["data/song_data/A/songs.json"]
  else if String.eqb pattern "data/log_data/*.json"
  then ["data/log_data/events.json"]
  else [].

Definition disk_abspath (path : string) : string :=
  ("/home/workspace/" ++ path)%string.

Definition disk_read_json (filepath : string) : result DataFrame :=
  if String.eqb filepath "/home/workspace/data/song_data/A/songs.json"
  then Ok sample_songs
  else if String.eqb filepath "/home/workspace/data/log_data/events.json"
  then Ok sample_log
  else Err (IOError "No such file").

Definition never_raises {A : Type} (_ : A) : option exn := None.

Definition fresh_session : Session := mkSession fresh_cursor [].

(** ** Notions used for the whole program *)

(** Every call a computation adds to the cursor satisfies [P]. *)
Definition makes_only {A : Type} (P : call -> Prop) (m : M A) : Prop :=
  forall cur res cur',
    m cur = (res, cur') ->
    exists new, calls cur' = calls cur ++ new /\ Forall P new.

Definition song_file_call (c : call) : Prop :=
  fst c = song_table_insert \/ fst c = artist_table_insert.

Definition log_file_call (c : call) : Prop :=
  fst c = time_table_insert \/ fst c = user_table_insert \/
  fst c = song_select \/ fst c = songplay_table_insert.

(** The arguments of the lookup for a row, and the fact made of a row and
    two ids. *)
Definition lookup_args (r : row) : list value :=
  [cell r "song"; cell r "artist"; cell r "length"].

Definition songplay_data (r : row) (songid artistid : value) : list value :=
  [cell r "ts"; cell r "userId"; cell r "level"; songid; artistid;
   cell r "sessionId"; cell r "location"; cell r "userAgent"].

(** A database that takes every statement and answers a lookup with rows
    of two columns. *)
Definition accepting
    (sink : list call -> query -> list value -> response) : Prop :=
  forall hist q args,
    exists rs,
      sink hist q args = Rows rs /\
      (q = song_select ->
       Forall (fun r => exists songid artistid, r = [songid; artistid]) rs).

(** The lines printed and the commits made, read off the events. *)
Definition printed (evs : list io_event) : list string :=
  flat_map (fun ev => match ev with Printed line => [line] | _ => [] end) evs.

Definition commits (evs : list io_event) : list nat :=
  flat_map (fun ev => match ev with Committed n => [n] | _ => [] end) evs.

(** A database that takes the song of a file and refuses its artist. *)
Definition artist_refusing_sink (_ : list call) (q : query)
    (_ : list value) : response :=
  match q with
  | artist_table_insert => Raise (DatabaseError "duplicate key")
  | _ => Rows []
  end.

Definition refused_artist_run : result unit * Cursor :=
  process_song_file sample_read_json artist_refusing_sink
    "data/song_data/songs.json" fresh_cursor.

(** A song file without the artist's coordinates, a log file without user
    names, a log file of page views only and a log file with a timestamp
    beyond the year 2262. *)
Definition songs_without_coordinates : DataFrame :=
  mkDataFrame
    ["artist_id"; "artist_location"; "artist_name"; "duration"; "song_id";
     "title"; "year"]
    song_dtypes
    [sample_song_row "SOZCTXZ12AB0182364" "Setanta matins"].

Definition log_without_names : DataFrame :=
  mkDataFrame
    ["artist"; "gender"; "length"; "level"; "location"; "page"; "sessionId";
     "song"; "ts"; "userAgent"; "userId"]
    log_dtypes
    (rows sample_log).

Definition log_of_page_views : DataFrame :=
  mkDataFrame log_columns log_dtypes
    [log_row "Home" 1541990258100 "free" "";
     log_row "Logout" 1541990259100 "free" ""].

Definition log_beyond_range : DataFrame :=
  mkDataFrame log_columns log_dtypes
    [log_row "NextSong" 1541990258000 "free" "Setanta matins";
     log_row "NextSong" 9223372036855 "free" "Intro"].

(** The lookup and the fact of one event, as they follow each other in
    the songplay loop. *)
Definition play_block (p : row * (value * value)) : list call :=
  [(song_select, lookup_args (fst p));
   (songplay_table_insert,
    songplay_data (fst p) (fst (snd p)) (snd (snd p)))].

(** A row as it is after the conversion of [ts] to the instant [ns]. *)
Definition stamped (r : row) (ns : Z) : row :=
  set_cell "ts" (VTimestamp ns) r.

(** The columns [process_log_file] reads, and a [ts] cell it can convert:
    an integer number of milliseconds whose second, rounded up, fits a
    timestamp. *)
Definition log_file_columns : list string :=
  "page" :: user_columns ++ songplay_attrs.

Definition convertible_ts (r : row) : Prop :=
  exists ms,
    cell r "ts" = VInt ms /\
    Timestamp_min <= ms * ns_per_ms /\
    ms * ns_per_ms + 999999999 <= Timestamp_max.

Definition is_next_song (r : row) : bool :=
  eq_str "NextSong" (cell r "page").

(** A log of one event whose lookup returns a row of three columns. *)
Definition three_column_sink (_ : list call) (q : query) (_ : list value)
  : response :=
  match q with
  | song_select => Rows [[VStr "S"; VStr "A"; VInt 1]]
  | _ => Rows []
  end.

(** What [process_data] records for the files it has gone through, the
    [k]-th of [num_files] committed after [count] calls. *)
Definition file_events (num_files : nat) (p : nat * nat) : list io_event :=
  [Committed (snd p); Printed (processed_message (fst p) num_files)].

(** A sample run of [main] on the disk, and one against the database whose
    lookup breaks down. *)
Definition disk_main : result unit * Session :=
  main disk_walk disk_glob disk_abspath never_raises never_raises
    disk_read_json one_match_sink.

Definition failing_disk_main : result unit * Session :=
  main disk_walk disk_glob disk_abspath never_raises never_raises
    disk_read_json failing_sink.

Definition disk_process_data (filepath : string) (func : string -> M unit)
  : Batch unit :=
  process_data disk_walk disk_glob disk_abspath never_raises filepath func.

(** The names [day_name] can give, and the instant a date and a time of
    day stand for. *)
Definition weekday_names : list string :=
  ["Monday"; "Tuesday"; "Wednesday"; "Thursday"; "Friday"; "Saturday";
   "Sunday"].

Definition instant_of (y mo d h mi sec : Z) : Z :=
  (days_from_civil y mo d * 86400 + h * 3600 + mi * 60 + sec) * ns_per_s.

(** ** Cells and records the statements speak of *)

(** The [ts] cells whose conversion is followed: a whole number of
    milliseconds whose second, rounded up, fits a timestamp, and a missing
    one (a missing cell, or the least 64-bit integer).  A float is taken
    while its instant stays within 2^62 nanoseconds of the epoch (the years
    1824 to 2116), where its product with 10^6 is a double and the
    conversion is exact on the second. *)
Definition ts_in_range (v : value) : bool :=
  match epoch_ms v with
  | Some ms =>
      (Timestamp_min <=? ms * ns_per_ms) &&
      (ms * ns_per_ms + 999999999 <=? Timestamp_max) &&
      (is_int v || (Z.abs (ms * ns_per_ms) <? 2 ^ 62))
  | None => false
  end.

Definition ts_missing (v : value) : bool :=
  match v with
  | VInt ms => is_NaT ms
  | _ => missing v
  end.

Definition whole_ms_or_missing (r : row) : bool :=
  ts_in_range (cell r "ts") || ts_missing (cell r "ts").

(** What [iterrows] makes of a row with the cells [vs] in a frame whose
    columns have the common dtype [d]. *)
(** The event names its user: its [userId] is an integer, or its [level]
    is one of the two levels of the service. *)
Definition names_its_user (r : row) : bool :=
  is_int (cell r "userId") ||
  eq_str "free" (cell r "level") || eq_str "paid" (cell r "level").

Definition as_series (d : dtype) (vs : list value) : list value :=
  row_series d (map (astype d) vs).

(** The dtype of the array made of the columns [cs] of a frame, and the
    two records made of a row of a frame: its cells under the labels of the
    record, brought to the dtype of that array. *)
Definition record_dtype (df : DataFrame) (cs : list string) : dtype :=
  common_dtype (map (dtype_of df) cs).

Definition song_record (df : DataFrame) (r : row) : list value :=
  map (astype (record_dtype df song_columns)) (song_data r).

Definition artist_record (df : DataFrame) (r : row) : list value :=
  map (astype (record_dtype df artist_columns)) (artist_data r).

(** A log whose only event has the least 64-bit integer as its [ts], and
    one, read with a float64 [ts] column, whose first event lacks its [ts];
    4789138796364234752 encodes 1541990258000.0. *)
Definition log_with_least_ts : DataFrame :=
  mkDataFrame log_columns log_dtypes
    [log_row "NextSong" (-9223372036854775808) "free" "Setanta matins"].

Definition log_with_missing_ts : DataFrame :=
  mkDataFrame log_columns (("ts", float64) :: log_dtypes)
    [log_event "NextSong" VNone "free" "Setanta matins";
     log_event "NextSong" (VFloat 4789138796364234752) "paid" "Intro"].

(** A song file whose ids and title are numbers: the five columns of the
    song record are numeric, those of the artist record are not. *)
Definition numeric_song_row : row :=
  [("artist_id", VInt 3); ("artist_latitude", VNone);
   ("artist_location", VStr "Dubai UAE"); ("artist_longitude", VNone);
   ("artist_name", VStr "Elena"); ("duration", VFloat 4643450117705464545);
   ("num_songs", VInt 1); ("song_id", VInt 1); ("title", VInt 2);
   ("year", VInt 2000)].

Definition numeric_songs : DataFrame :=
  mkDataFrame song_file_columns
    [("artist_id", int64); ("artist_latitude", float64);
     ("artist_location", object); ("artist_longitude", float64);
     ("artist_name", object); ("duration", float64); ("num_songs", int64);
     ("song_id", int64); ("title", int64); ("year", int64)]
    [numeric_song_row].

(** A log whose five user columns are numeric: the names and the gender
    are missing on every line and the level is a number. *)
Definition numeric_user_event : row :=
  [("artist", VStr "Elena"); ("firstName", VNone); ("gender", VNone);
   ("lastName", VNone); ("length", VFloat 4643450117705464545);
   ("level", VInt 1); ("location", VStr "Chicago"); ("page", VStr "NextSong");
   ("sessionId", VInt 818); ("song", VStr "Setanta matins");
   ("ts", VInt 1541990258000); ("userAgent", VStr "Mozilla/5.0");
   ("userId", VInt 15)].

Definition log_of_numeric_users : DataFrame :=
  mkDataFrame log_columns
    [("artist", object); ("firstName", float64); ("gender", float64);
     ("lastName", float64); ("length", float64); ("level", int64);
     ("location", object); ("page", object); ("sessionId", int64);
     ("song", object); ("ts", int64); ("userAgent", object);
     ("userId", int64)]
    [numeric_user_event].

(** * Properties *)

(** ** Lists, masks and results *)

Create HintDb etl.
#[local] Hint Constructors subsequence : etl.

Lemma subsequence_filter {A : Type} (p : A -> bool) (l : list A) :
  subsequence (filter p l) l.
Proof.
  induction l as [|x l IH]; simpl; [constructor|].
  destruct (p x); auto with etl.
Qed.

Lemma select_mask_map {A : Type} (p : A -> bool) (l : list A) :
  select_mask (map p l) l = filter p l.
Proof.
  induction l as [|x l IH]; simpl; [reflexivity|].
  rewrite IH; reflexivity.
Qed.

Lemma select_mask_map_cell {A B : Type} (g : A -> B) (p : B -> bool)
    (l : list A) :
  select_mask (map p (map g l)) l = filter (fun x => p (g x)) l.
Proof. rewrite map_map; apply select_mask_map. Qed.

Lemma map_select_mask {A B : Type} (f : A -> B) (mask : list bool)
    (l : list A) :
  map f (select_mask mask l) = select_mask mask (map f l).
Proof.
  revert mask; induction l as [|x l IH]; intros [|b mask]; simpl; auto.
  destruct b; simpl; rewrite IH; reflexivity.
Qed.

Lemma rmap_ok {A B : Type} (f : A -> result B) (l : list A) (l' : list B) :
  rmap f l = Ok l' -> Forall2 (fun x y => f x = Ok y) l l'.
Proof.
  revert l'; induction l as [|x l IH]; simpl; intros l' H.
  - injection H as <-; constructor.
  - destruct (f x) as [y|e] eqn:Ex; simpl in H; [|discriminate].
    destruct (rmap f l) as [ys|e] eqn:El; simpl in H; [|discriminate].
    injection H as <-; constructor; auto.
Qed.

Lemma Forall2_length_eq {A B : Type} (R : A -> B -> Prop) l l' :
  Forall2 R l l' -> List.length l = List.length l'.
Proof. induction 1; simpl; congruence. Qed.

(** ** Cells and frames *)

Lemma cell_set_cell_same (c : string) (v : value) (r : row) :
  cell (set_cell c v r) c = v.
Proof. unfold set_cell; simpl; rewrite String.eqb_refl; reflexivity. Qed.

Lemma cell_set_cell_other (c c' : string) (v : value) (r : row) :
  c <> c' -> cell (set_cell c v r) c' = cell r c'.
Proof.
  intros Hc; unfold set_cell; simpl.
  destruct (String.eqb c c') eqn:E; [|reflexivity].
  apply String.eqb_eq in E; contradiction.
Qed.

Lemma add_column_present (c : string) (cols : list string) :
  existsb (String.eqb c) cols = true -> add_column c cols = cols.
Proof. intros H; unfold add_column; rewrite H; reflexivity. Qed.

(** Setting a column to as many values as the frame has rows. *)
Lemma setitem_same_length (df : DataFrame) (c : string) (d : dtype)
    (vals : list value) :
  List.length vals = List.length (rows df) ->
  setitem df c d vals =
    Ok (mkDataFrame (add_column c (columns df)) ((c, d) :: dtypes df)
          (map (fun vr => set_cell c (fst vr) (snd vr))
               (combine vals (rows df)))).
Proof.
  intros Hlen; unfold setitem.
  destruct (rows df) as [|r rs] eqn:Er.
  - destruct vals; [reflexivity|discriminate].
  - rewrite Hlen, Nat.eqb_refl; reflexivity.
Qed.

Lemma combine_map_map {A B C : Type} (f : A -> B) (g : A -> C) (l : list A) :
  combine (map f l) (map g l) = map (fun x => (f x, g x)) l.
Proof. induction l; simpl; congruence. Qed.

(** ** The filter on [page] *)

Lemma eq_str_true (s : string) (v : value) :
  eq_str s v = true <-> v = VStr s.
Proof.
  destruct v; simpl; try (split; [discriminate|intros H; discriminate H]).
  rewrite String.eqb_eq; split; [intros ->; reflexivity|].
  intros H; injection H as ->; reflexivity.
Qed.

Lemma filter_next_song_rows (df df' : DataFrame) :
  filter_next_song df = Ok df' ->
  columns df' = columns df /\
  rows df' = filter (fun r => eq_str "NextSong" (cell r "page")) (rows df).
Proof.
  unfold filter_next_song, getitem.
  destruct (has_column df "page"); simpl; [|discriminate].
  intros H; injection H as <-; simpl.
  split; [reflexivity|apply select_mask_map_cell].
Qed.

Lemma filter_next_song_ok (df : DataFrame) :
  has_column df "page" = true ->
  filter_next_song df =
    Ok (mkDataFrame (columns df) (dtypes df)
          (filter (fun r => eq_str "NextSong" (cell r "page")) (rows df))).
Proof.
  intros H; unfold filter_next_song, getitem; rewrite H; simpl.
  rewrite select_mask_map_cell; reflexivity.
Qed.

(** ** The timestamp column *)

Lemma convert_ts_rows (df df' : DataFrame) :
  convert_ts df = Ok df' ->
  has_column df "ts" = true /\
  columns df' = columns df /\
  Forall2 (fun r r' => exists ns,
             start_time r = Ok ns /\ r' = set_cell "ts" (VTimestamp ns) r)
          (rows df) (rows df').
Proof.
  unfold convert_ts, getitem.
  destruct (has_column df "ts") eqn:Hts; simpl; [|discriminate].
  destruct (rmap to_datetime_ms _) as [dts|] eqn:E1; simpl; [|discriminate].
  destruct (rmap dt_ceil_s dts) as [ceiled|] eqn:E2; simpl; [|discriminate].
  apply rmap_ok in E1, E2.
  assert (Hlen : List.length (map VTimestamp ceiled) = List.length (rows df)).
  { rewrite length_map, <- (Forall2_length_eq _ _ _ E2),
      <- (Forall2_length_eq _ _ _ E1), length_map; reflexivity. }
  rewrite (setitem_same_length _ _ _ _ Hlen).
  intros H; injection H as <-; simpl.
  split; [reflexivity|]. split; [apply add_column_present; exact Hts|].
  clear Hlen Hts. revert dts ceiled E1 E2.
  induction (rows df) as [|r rs IH]; intros dts ceiled E1 E2.
  - inversion E1; subst. inversion E2; subst. constructor.
  - simpl in E1. inversion E1 as [|? d ? ds Hd Hds]; subst.
    inversion E2 as [|? c ? cs Hc Hcs]; subst. simpl.
    constructor; [|eapply IH; eauto].
    exists c; split; [|reflexivity].
    unfold start_time; rewrite Hd; exact Hc.
Qed.

Lemma convert_ts_dtypes (df df' : DataFrame) :
  convert_ts df = Ok df' -> dtypes df' = ("ts", datetime64) :: dtypes df.
Proof.
  unfold convert_ts, getitem.
  destruct (has_column df "ts") eqn:Hts; simpl; [|discriminate].
  destruct (rmap to_datetime_ms _) as [dts|] eqn:E1; simpl; [|discriminate].
  destruct (rmap dt_ceil_s dts) as [ceiled|] eqn:E2; simpl; [|discriminate].
  unfold setitem. destruct (rows df); [|destruct (Nat.eqb _ _)];
    intros H; try discriminate; injection H as <-; reflexivity.
Qed.

Lemma convert_ts_total (df : DataFrame) (stamps : list Z) :
  has_column df "ts" = true ->
  Forall2 (fun r ns => start_time r = Ok ns) (rows df) stamps ->
  convert_ts df =
    Ok (mkDataFrame (columns df) (("ts", datetime64) :: dtypes df)
          (map (fun p => set_cell "ts" (VTimestamp (snd p)) (fst p))
               (combine (rows df) stamps))).
Proof.
  intros Hts Hall. unfold convert_ts, getitem. rewrite Hts; simpl.
  assert (E : exists dts,
             rmap to_datetime_ms (map (fun r => cell r "ts") (rows df)) = Ok dts /\
             rmap dt_ceil_s dts = Ok stamps).
  { clear Hts. induction Hall as [|r ns rs nss Hr _ IH]; simpl.
    - exists []; split; reflexivity.
    - destruct IH as (dts & E1 & E2). unfold start_time in Hr.
      destruct (to_datetime_ms (cell r "ts")) as [d|] eqn:Ed; simpl in Hr;
        [|discriminate].
      exists (d :: dts); simpl. rewrite E1, Hr, E2; split; reflexivity. }
  destruct E as (dts & -> & E2); simpl. rewrite E2; simpl.
  rewrite setitem_same_length, (add_column_present _ _ Hts).
  - do 2 f_equal. clear. revert stamps.
    induction (rows df) as [|r rs IH]; intros [|n ns]; simpl; auto.
    rewrite IH; reflexivity.
  - rewrite length_map. symmetry. eapply Forall2_length_eq; eauto.
Qed.

Lemma start_time_ms (r : row) (ms : Z) :
  missing (cell r "ts") = false ->
  epoch_ms (cell r "ts") = Some ms ->
  Timestamp_min <= ms * ns_per_ms ->
  ceil_ns ms <= Timestamp_max ->
  start_time r = Ok (ceil_ns ms).
Proof.
  intros Hm Hc Hlo Hhi. unfold ceil_ns in *.
  unfold start_time, to_datetime_ms, dt_ceil_s, is_NaT.
  rewrite Hm, Hc.
  assert (0 <= (- (ms * ns_per_ms)) mod ns_per_s).
  { apply Z.mod_pos_bound; reflexivity. }
  replace (ms =? NaT) with false
    by (symmetry; apply Z.eqb_neq; unfold NaT, Timestamp_min, ns_per_ms in *;
        lia).
  replace (Timestamp_min <=? ms * ns_per_ms) with true
    by (symmetry; apply Z.leb_le; lia).
  replace (ms * ns_per_ms <=? Timestamp_max) with true
    by (symmetry; apply Z.leb_le; lia).
  cbn [andb rbind]. cbv zeta.
  replace (ms * ns_per_ms =? NaT) with false
    by (symmetry; apply Z.eqb_neq; unfold NaT, Timestamp_min in *; lia).
  replace (_ <=? Timestamp_max) with true
    by (symmetry; apply Z.leb_le; lia).
  reflexivity.
Qed.

Lemma start_time_int (r : row) (ms : Z) :
  cell r "ts" = VInt ms ->
  Timestamp_min <= ms * ns_per_ms ->
  ms * ns_per_ms + (- (ms * ns_per_ms)) mod ns_per_s <= Timestamp_max ->
  start_time r = Ok (ms * ns_per_ms + (- (ms * ns_per_ms)) mod ns_per_s).
Proof.
  intros Hc Hlo Hhi. apply start_time_ms; auto; rewrite Hc; reflexivity.
Qed.

(** A missing cell and the least integer give [NaT]. *)
Lemma start_time_missing (r : row) :
  missing (cell r "ts") = true -> start_time r = Ok NaT.
Proof.
  intros Hm. unfold start_time, to_datetime_ms. rewrite Hm. reflexivity.
Qed.

Lemma start_time_least (r : row) :
  epoch_ms (cell r "ts") = Some NaT -> start_time r = Ok NaT.
Proof.
  intros Hc. unfold start_time, to_datetime_ms. rewrite Hc.
  destruct (missing (cell r "ts")); reflexivity.
Qed.

Lemma ceil_second_ms (ms : Z) :
  ms * ns_per_ms + (- (ms * ns_per_ms)) mod ns_per_s =
  (ms + (- ms) mod 1000) / 1000 * ns_per_s.
Proof.
  unfold ns_per_ms, ns_per_s.
  replace (- (ms * 1000000)) with ((- ms) * 1000000) by lia.
  change 1000000000 with (1000 * 1000000).
  rewrite Z.mul_mod_distr_r by lia.
  assert (H : (ms + (- ms) mod 1000) mod 1000 = 0).
  { rewrite Zplus_mod_idemp_r. replace (ms + - ms) with 0 by lia. reflexivity. }
  apply Z.div_exact in H; [|lia].
  lia.
Qed.

Lemma ceil_second_bounds (ms : Z) :
  let s := (ms + (- ms) mod 1000) / 1000 in
  ms <= 1000 * s < ms + 1000.
Proof.
  intros s; subst s.
  assert (H : (ms + (- ms) mod 1000) mod 1000 = 0).
  { rewrite Zplus_mod_idemp_r. replace (ms + - ms) with 0 by lia. reflexivity. }
  apply Z.div_exact in H; [|lia].
  pose proof (Z.mod_pos_bound (- ms) 1000 ltac:(lia)). lia.
Qed.

(** ** The time frame *)

Lemma rmap_as_datetime (stamps : list Z) :
  rmap as_datetime (map VTimestamp stamps) = Ok stamps.
Proof.
  induction stamps as [|n ns IH]; simpl; [reflexivity|].
  rewrite IH; reflexivity.
Qed.

Lemma setitem_empty (cols : list string) (dts : list (string * dtype))
    (c : string) (d : dtype) (f : Z -> value) (stamps : list Z) :
  setitem (mkDataFrame cols dts []) c d (map f stamps) =
    Ok (mkDataFrame (add_column c cols) ((c, d) :: dts)
          (map (fun x => set_cell c (f x) []) stamps)).
Proof. unfold setitem; simpl. rewrite map_map; reflexivity. Qed.

Lemma setitem_map (cols : list string) (dts : list (string * dtype))
    (c : string) (d : dtype) (f : Z -> value) (g : Z -> row)
    (stamps : list Z) :
  existsb (String.eqb c) cols = true ->
  setitem (mkDataFrame cols dts (map g stamps)) c d (map f stamps) =
    Ok (mkDataFrame cols ((c, d) :: dts)
          (map (fun x => set_cell c (f x) (g x)) stamps)).
Proof.
  intros Hc. rewrite setitem_same_length by (simpl; rewrite !length_map; auto).
  simpl. rewrite (add_column_present _ _ Hc), combine_map_map, map_map.
  reflexivity.
Qed.

Lemma fill_columns_cons (c : string) (f : Z -> value) (g : Z -> row)
    (dts : list (string * dtype)) (stamps : list Z)
    (series : list (list value)) (i : nat) :
  nth_error time_columns i = Some c ->
  fill_columns (map f stamps :: series) i
    (mkDataFrame time_columns dts (map g stamps)) =
  fill_columns series (S i)
    (mkDataFrame time_columns ((c, infer_dtype (map f stamps)) :: dts)
       (map (fun x => set_cell c (f x) (g x)) stamps)).
Proof.
  intros Hc. cbn [fill_columns columns]. rewrite Hc.
  cbv beta iota. rewrite setitem_map; [reflexivity|].
  apply existsb_exists. exists c. split; [|apply String.eqb_refl].
  eapply nth_error_In; eauto.
Qed.

Lemma fill_columns_first (f : Z -> value) (stamps : list Z)
    (series : list (list value)) :
  fill_columns (map f stamps :: series) 0 (mkDataFrame time_columns [] []) =
  fill_columns series 1
    (mkDataFrame time_columns [("start_time", infer_dtype (map f stamps))]
       (map (fun x => set_cell "start_time" (f x) []) stamps)).
Proof.
  cbn [fill_columns columns].
  change (nth_error time_columns 0) with (Some "start_time").
  cbv beta iota. rewrite setitem_empty. reflexivity.
Qed.

(** The accessors that give objects are left alone by [astype]. *)
Lemma astype_dt_time (d : dtype) (ns : Z) : astype d (dt_time ns) = dt_time ns.
Proof. unfold dt_time. destruct (is_NaT ns), d; reflexivity. Qed.

Lemma astype_dt_day_name (d : dtype) (ns : Z) :
  astype d (dt_day_name ns) = dt_day_name ns.
Proof. unfold dt_day_name. destruct (is_NaT ns), d; reflexivity. Qed.

Lemma astype_object (v : value) : astype object v = v.
Proof. reflexivity. Qed.

Lemma astype_int64 (v : value) : astype int64 v = v.
Proof. reflexivity. Qed.

Lemma map_astype_object (vs : list value) : map (astype object) vs = vs.
Proof. induction vs; simpl; congruence. Qed.

Lemma map_astype_int64 (vs : list value) : map (astype int64) vs = vs.
Proof. induction vs; simpl; congruence. Qed.

(** The dtypes of the first two columns of [time_df] when it has rows. *)
Lemma infer_dtype_dt_time (n : Z) (stamps : list Z) :
  numeric (infer_dtype (map dt_time (n :: stamps))) = false.
Proof.
  unfold infer_dtype. cbn [map forallb].
  assert (E : is_int (dt_time n) = false /\ is_float (dt_time n) = false).
  { unfold dt_time. destruct (is_NaT n); auto. }
  destruct E as [-> ->]. cbn [andb].
  destruct (is_timestamp _ && _); reflexivity.
Qed.

Lemma dt_hour_cases (ns : Z) :
  (is_NaT ns = true /\ dt_hour ns = VNone) \/
  (is_NaT ns = false /\ exists h, dt_hour ns = VInt h).
Proof. unfold dt_hour. destruct (is_NaT ns); eauto. Qed.

Lemma infer_dtype_dt_hour (n : Z) (stamps : list Z) :
  numeric (infer_dtype (dt_int_series dt_hour (n :: stamps))) = true.
Proof.
  unfold dt_int_series.
  destruct (existsb is_NaT (n :: stamps)) eqn:Enat.
  - (* floats and NaN *)
    assert (F : forallb is_float
                  (map (fun ns => astype float64 (dt_hour ns)) (n :: stamps))
                = true).
    { apply forallb_forall. intros v Hv. apply in_map_iff in Hv.
      destruct Hv as (ns & <- & _).
      destruct (dt_hour_cases ns) as [[_ ->] | [_ (h & ->)]]; reflexivity. }
    unfold infer_dtype. cbn [map] in *. rewrite F.
    destruct (forallb is_int _); reflexivity.
  - (* integers *)
    assert (F : forallb is_int
                  (map (fun ns => astype int64 (dt_hour ns)) (n :: stamps))
                = true).
    { apply forallb_forall. intros v Hv. apply in_map_iff in Hv.
      destruct Hv as (ns & <- & Hns).
      destruct (dt_hour_cases ns) as [[Hn _] | [_ (h & ->)]]; [|reflexivity].
      exfalso. assert (existsb is_NaT (n :: stamps) = true); [|congruence].
      apply existsb_exists. eauto. }
    unfold infer_dtype. cbn [map] in *. rewrite F. reflexivity.
Qed.

Lemma common_dtype_mixed (d1 d2 : dtype) (ds : list dtype) :
  numeric d1 = false -> numeric d2 = true ->
  common_dtype (d1 :: d2 :: ds) = object.
Proof.
  intros H1 H2. unfold common_dtype. cbn [forallb].
  destruct d1; try discriminate; destruct d2; try discriminate; reflexivity.
Qed.

Lemma infer_datetimelike_length (vs : list value) :
  List.length (infer_datetimelike vs) = List.length vs.
Proof.
  unfold infer_datetimelike. destruct (_ && _); [apply length_map|reflexivity].
Qed.

Lemma row_series_length (d : dtype) (vs : list value) :
  List.length (row_series d vs) = List.length vs.
Proof. destruct d; simpl; auto using infer_datetimelike_length. Qed.

Lemma map_snd_combine {A B : Type} (l : list A) (l' : list B) :
  List.length l = List.length l' -> map snd (combine l l') = l'.
Proof.
  revert l'. induction l as [|x l IH]; intros [|y l'] H; simpl in *;
    try discriminate; [reflexivity|].
  f_equal. apply IH. congruence.
Qed.

(** What [iterrows] hands out, row by row: the cells of the row brought to
    the dtype of the frame and made into a series. *)
Lemma series_values_iterrows (df : DataFrame) :
  map series_values (iterrows df) =
  map (fun r => row_series (frame_dtype df)
                  (map (astype (frame_dtype df)) (row_values (columns df) r)))
      (rows df).
Proof.
  unfold iterrows, values. rewrite !map_map. apply map_ext. intros r.
  unfold series_values. apply map_snd_combine.
  rewrite row_series_length, length_map. unfold row_values.
  rewrite length_map. reflexivity.
Qed.

Lemma iterrows_length (df : DataFrame) :
  List.length (iterrows df) = List.length (rows df).
Proof. unfold iterrows, values. rewrite !length_map. reflexivity. Qed.

Lemma build_time_df_rows (df : DataFrame) (stamps : list Z) :
  has_column df "ts" = true ->
  map (fun r => cell r "ts") (rows df) = map VTimestamp stamps ->
  exists time_df,
    build_time_df df = Ok time_df /\
    columns time_df = time_columns /\
    List.length (rows time_df) = List.length stamps /\
    map series_values (iterrows time_df) = time_rows stamps.
Proof.
  intros Hts Hcells.
  unfold build_time_df, series_list, getitem.
  rewrite Hts. cbn [rbind]. rewrite Hcells, rmap_as_datetime. cbn [rbind].
  unfold dt_int_series.
  set (d := if existsb is_NaT stamps then float64 else int64).
  rewrite fill_columns_first.
  rewrite (fill_columns_cons "hour") by reflexivity.
  rewrite (fill_columns_cons "day") by reflexivity.
  rewrite (fill_columns_cons "week") by reflexivity.
  rewrite (fill_columns_cons "month") by reflexivity.
  rewrite (fill_columns_cons "year") by reflexivity.
  rewrite (fill_columns_cons "weekday") by reflexivity.
  cbn [fill_columns].
  eexists; split; [reflexivity|]. cbn [columns rows].
  split; [reflexivity|]. split; [apply length_map|].
  rewrite series_values_iterrows. cbn [rows columns].
  match goal with
  | |- context [frame_dtype ?tdf] => set (fd := frame_dtype tdf)
  end.
  unfold time_rows. fold d. rewrite map_map.
  destruct stamps as [|n stamps]; [reflexivity|].
  assert (Efd : fd = object).
  { subst fd. unfold frame_dtype. cbn [columns].
    change (map _ time_columns) with
      [infer_dtype (map dt_time (n :: stamps));
       infer_dtype (dt_int_series dt_hour (n :: stamps));
       infer_dtype (dt_int_series dt_day (n :: stamps));
       infer_dtype (dt_int_series dt_week (n :: stamps));
       infer_dtype (dt_int_series dt_month (n :: stamps));
       infer_dtype (dt_int_series dt_year (n :: stamps));
       infer_dtype (map dt_day_name (n :: stamps))].
    apply common_dtype_mixed;
      [apply infer_dtype_dt_time|apply infer_dtype_dt_hour]. }
  rewrite Efd. apply map_ext. intros ns. cbn [row_series].
  rewrite map_astype_object. f_equal.
  unfold time_data. cbn [map].
  rewrite astype_dt_time, astype_dt_day_name. reflexivity.
Qed.

(** A row with a cell that is neither a timestamp nor missing stays as it
    is. *)
Lemma infer_datetimelike_other (v : value) (vs : list value) :
  is_timestamp v || missing v = false ->
  infer_datetimelike (v :: vs) = v :: vs.
Proof.
  intros H. unfold infer_datetimelike. cbn [forallb]. rewrite H. reflexivity.
Qed.

(** The rows of a file without a [NaT], and the row of a [NaT]. *)
Lemma infer_datetimelike_time_data (d : dtype) (ns : Z) :
  is_NaT ns = false ->
  infer_datetimelike (map (astype d) (time_data ns)) =
  map (astype d) (time_data ns).
Proof.
  intros Hn. unfold time_data. cbn [map]. rewrite astype_dt_time.
  apply infer_datetimelike_other. unfold dt_time. rewrite Hn. reflexivity.
Qed.

Lemma time_rows_without_NaT (stamps : list Z) :
  existsb is_NaT stamps = false -> time_rows stamps = map time_data stamps.
Proof.
  intros H. unfold time_rows. rewrite H. apply map_ext_in. intros ns Hns.
  rewrite infer_datetimelike_time_data, map_astype_int64; [reflexivity|].
  destruct (is_NaT ns) eqn:E; [|reflexivity].
  assert (existsb is_NaT stamps = true); [|congruence].
  apply existsb_exists. eauto.
Qed.

Lemma time_row_of_NaT (d : dtype) :
  infer_datetimelike (map (astype d) (time_data NaT)) = nat_row.
Proof. destruct d; reflexivity. Qed.

Lemma is_NaT_true (ns : Z) : is_NaT ns = true <-> ns = NaT.
Proof. unfold is_NaT. apply Z.eqb_eq. Qed.

Lemma time_rows_length (stamps : list Z) :
  List.length (time_rows stamps) = List.length stamps.
Proof. unfold time_rows. apply length_map. Qed.

(** The time row of an instant starts with its time of day. *)
Lemma time_rows_hd (stamps : list Z) (ns : Z) :
  In ns stamps ->
  exists t, In t (time_rows stamps) /\ hd_error t = Some (dt_time ns).
Proof.
  intros Hin. unfold time_rows.
  set (d := if existsb is_NaT stamps then float64 else int64).
  exists (infer_datetimelike (map (astype d) (time_data ns))).
  split;
    [apply (in_map (fun ns => infer_datetimelike (map (astype d) (time_data ns))));
     exact Hin|].
  destruct (is_NaT ns) eqn:E.
  - apply is_NaT_true in E. subst ns. rewrite time_row_of_NaT. reflexivity.
  - rewrite infer_datetimelike_time_data by exact E.
    unfold time_data. cbn [map hd_error]. rewrite astype_dt_time.
    reflexivity.
Qed.

(** ** Dropping duplicates *)

Lemma seen_before_true k seen : seen_before k seen = true <-> In k seen.
Proof.
  unfold seen_before; destruct (in_dec values_eq_dec k seen); split; auto.
  discriminate.
Qed.

Lemma seen_before_false k seen : seen_before k seen = false <-> ~ In k seen.
Proof.
  unfold seen_before; destruct (in_dec values_eq_dec k seen); split; auto.
  - discriminate.
  - intros H; contradiction.
Qed.

Lemma keep_first_cons seen k ks :
  keep_first seen (k :: ks) =
  if seen_before k seen then keep_first (k :: seen) ks
  else k :: keep_first (k :: seen) ks.
Proof. unfold keep_first; simpl. destruct (seen_before k seen); reflexivity. Qed.

Lemma keep_in ks : forall seen k,
  In k (keep_first seen ks) <-> In k ks /\ ~ In k seen.
Proof.
  induction ks as [|x ks IH]; intros seen k; [simpl; tauto|].
  rewrite keep_first_cons.
  destruct (seen_before x seen) eqn:E; simpl; rewrite IH; simpl.
  - apply seen_before_true in E. split.
    + intros [H1 H2]; split; [tauto|]. intros H; apply H2; auto.
    + intros [[->|H1] H2]; [contradiction|]. split; [exact H1|].
      intros [->|H]; contradiction.
  - apply seen_before_false in E. split.
    + intros [->|[H1 H2]]; [tauto|]. split; [tauto|].
      intros H; apply H2; auto.
    + intros [[->|H1] H2]; [tauto|].
      destruct (values_eq_dec x k) as [->|Hne]; [tauto|].
      right; split; [exact H1|]. intros [H|H]; contradiction.
Qed.

Lemma keep_nodup ks : forall seen, NoDup (keep_first seen ks).
Proof.
  induction ks as [|x ks IH]; intros seen; [constructor|].
  rewrite keep_first_cons.
  destruct (seen_before x seen); [apply IH|].
  constructor; [|apply IH].
  rewrite keep_in. intros [_ H]; apply H; left; reflexivity.
Qed.

Lemma keep_subsequence ks : forall seen, subsequence (keep_first seen ks) ks.
Proof.
  induction ks as [|x ks IH]; intros seen; [constructor|].
  rewrite keep_first_cons.
  destruct (seen_before x seen); constructor; apply IH.
Qed.

Lemma keep_app l1 : forall seen l2,
  keep_first seen (l1 ++ l2) =
  keep_first seen l1 ++ keep_first (rev l1 ++ seen) l2.
Proof.
  induction l1 as [|x l1 IH]; intros seen l2; [reflexivity|].
  simpl app. rewrite !keep_first_cons, IH, <- app_assoc. simpl.
  destruct (seen_before x seen); reflexivity.
Qed.

(** The copy that is kept is the first one. *)
Lemma keep_first_occurrence l1 k l2 :
  ~ In k l1 ->
  exists k1 k2,
    keep_first [] (l1 ++ k :: l2) = k1 ++ k :: k2 /\
    subsequence k1 l1 /\ subsequence k2 l2.
Proof.
  intros Hk. rewrite keep_app, keep_first_cons.
  replace (seen_before k (rev l1 ++ [])) with false.
  - eexists _, _. split; [reflexivity|].
    split; apply keep_subsequence.
  - symmetry; apply seen_before_false.
    rewrite app_nil_r, <- in_rev. exact Hk.
Qed.

Lemma cell_getitems_row (r : row) (cs : list string) (c : string) :
  In c cs -> cell (map (fun c => (c, cell r c)) cs) c = cell r c.
Proof.
  induction cs as [|c0 cs IH]; simpl; [tauto|].
  intros H. destruct (String.eqb c0 c) eqn:E.
  - apply String.eqb_eq in E; subst; reflexivity.
  - destruct H as [->|H]; [rewrite String.eqb_refl in E; discriminate|auto].
Qed.

Lemma row_values_getitems_row (r : row) (cs : list string) :
  row_values cs (map (fun c => (c, cell r c)) cs) = row_values cs r.
Proof.
  unfold row_values. apply map_ext_in. intros c Hc.
  apply cell_getitems_row; exact Hc.
Qed.

Lemma getitems_ok (df : DataFrame) (cs : list string) :
  forallb (has_column df) cs = true ->
  getitems df cs =
    Ok (mkDataFrame cs (dtypes df)
          (map (fun r => map (fun c => (c, cell r c)) cs) (rows df))).
Proof.
  intros H. unfold getitems.
  destruct (find _ cs) as [c|] eqn:E; [|reflexivity].
  apply find_some in E. destruct E as [Hin Hc].
  rewrite forallb_forall in H. rewrite (H _ Hin) in Hc. discriminate.
Qed.

Lemma getitems_missing (df : DataFrame) (cs : list string) :
  forallb (has_column df) cs = false ->
  exists c, getitems df cs = Err (KeyError c).
Proof.
  intros H. unfold getitems.
  destruct (find _ cs) as [c|] eqn:E; [eexists; reflexivity|].
  exfalso. assert (forallb (has_column df) cs = true); [|congruence].
  apply forallb_forall. intros c Hc.
  pose proof (find_none _ _ E _ Hc) as Hn. simpl in Hn.
  destruct (has_column df c); [reflexivity|discriminate].
Qed.

Lemma getitems_missing_in (df : DataFrame) (cs : list string) :
  forallb (has_column df) cs = false ->
  exists c,
    In c cs /\ has_column df c = false /\ getitems df cs = Err (KeyError c).
Proof.
  intros H. unfold getitems.
  destruct (find _ cs) as [c|] eqn:E.
  - apply find_some in E. destruct E as [Hin Hc].
    exists c. split; [exact Hin|]. split; [|reflexivity].
    destruct (has_column df c); [discriminate|reflexivity].
  - exfalso. assert (forallb (has_column df) cs = true); [|congruence].
    apply forallb_forall. intros c Hc.
    pose proof (find_none _ _ E _ Hc) as Hn. simpl in Hn.
    destruct (has_column df c); [reflexivity|discriminate].
Qed.

Lemma build_user_df_rows (df : DataFrame) :
  forallb (has_column df) user_columns = true ->
  exists user_df,
    build_user_df df = Ok user_df /\
    columns user_df = user_columns /\
    dtypes user_df = dtypes df /\
    map (row_values user_columns) (rows user_df) =
      keep_first [] (map (row_values user_columns) (rows df)).
Proof.
  intros H. unfold build_user_df. rewrite (getitems_ok _ _ H). cbn [rbind].
  eexists; split; [reflexivity|]. split; [reflexivity|].
  split; [reflexivity|].
  unfold drop_duplicates; cbn [columns rows].
  rewrite map_select_mask, map_map.
  assert (E : map (fun r => row_values user_columns
                     (map (fun c => (c, cell r c)) user_columns)) (rows df)
              = map (row_values user_columns) (rows df)).
  { apply map_ext. intros r. apply row_values_getitems_row. }
  rewrite E. reflexivity.
Qed.

(** ** Runs on a cursor *)

Lemma bind_inv {A B : Type} (m : M A) (k : A -> M B) cur res cur' :
  bind m k cur = (res, cur') ->
  (exists a cur1, m cur = (Ok a, cur1) /\ k a cur1 = (res, cur')) \/
  (exists e, m cur = (Err e, cur') /\ res = Err e).
Proof.
  unfold bind. destruct (m cur) as [[a|e] cur1]; intros H.
  - left; eauto.
  - right; injection H as <- <-; eauto.
Qed.

Lemma lift_inv {A : Type} (r : result A) cur res cur' :
  lift r cur = (res, cur') -> r = res /\ cur' = cur.
Proof. unfold lift; intros H; injection H as <- <-; auto. Qed.

Ltac bind_inv H :=
  let a := fresh "a" in
  let c := fresh "cur" in
  let e := fresh "e" in
  let H1 := fresh "Hm" in
  apply bind_inv in H;
  destruct H as [(a & c & H1 & H) | (e & H1 & H)].

Ltac lift_inv H :=
  let Hr := fresh "Hr" in
  apply lift_inv in H; destruct H as [Hr H]; subst.

(** The rows [iterrows] hands out, cell by cell: each cell of a row goes
    through one function of the row. *)
Lemma cell_combine_map (f : value -> value) (r : row) (cols : list string)
    (c : string) :
  In c cols -> cell (combine cols (map f (map (cell r) cols))) c = f (cell r c).
Proof.
  induction cols as [|c0 cols IH]; simpl; [tauto|].
  intros H. destruct (String.eqb c0 c) eqn:E.
  - apply String.eqb_eq in E. subst. reflexivity.
  - destruct H as [->|H]; [rewrite String.eqb_refl in E; discriminate|auto].
Qed.

Lemma row_series_map (d : dtype) (vs : list value) :
  exists g,
    row_series d vs = map g vs /\
    (forall v, is_timestamp v = true -> g v = v) /\
    ((d <> object \/
      exists v, In v vs /\ is_timestamp v || missing v = false) ->
     forall v, g v = v).
Proof.
  assert (Hid : exists g : value -> value,
            vs = map g vs /\
            (forall v, is_timestamp v = true -> g v = v) /\
            ((d <> object \/
              exists v, In v vs /\ is_timestamp v || missing v = false) ->
             forall v, g v = v)).
  { exists (fun v => v). rewrite map_id. auto. }
  destruct d; try exact Hid. cbn [row_series]. unfold infer_datetimelike.
  destruct (forallb _ vs) eqn:Eall; [|exact Hid].
  destruct (existsb is_timestamp vs); [|exact Hid]. cbn [andb].
  exists (fun v => if missing v then VTimestamp NaT else v).
  split; [reflexivity|]. split.
  - intros v Hv. destruct v; try discriminate. reflexivity.
  - intros [Hd | (v & Hv & Hn)]; [contradiction Hd; reflexivity|].
    rewrite forallb_forall in Eall. rewrite (Eall v Hv) in Hn. discriminate.
Qed.

Lemma astype_timestamp (d : dtype) (v : value) :
  is_timestamp v = true -> astype d v = v.
Proof. destruct v; try discriminate. destruct d; reflexivity. Qed.

Lemma astype_not_float (d : dtype) (v : value) :
  d <> float64 -> astype d v = v.
Proof. destruct d; try reflexivity. intros H. contradiction H. reflexivity. Qed.

Lemma iterrows_map (df : DataFrame) :
  iterrows df =
  map (fun r => combine (columns df)
                  (row_series (frame_dtype df)
                     (map (astype (frame_dtype df))
                        (row_values (columns df) r))))
      (rows df).
Proof. unfold iterrows, values. rewrite map_map. reflexivity. Qed.

(** A row of [iterrows] keeps the timestamps of the frame's row; it keeps
    all its cells when the frame is not an array of floats and the row holds
    a cell that is neither a timestamp nor missing. *)
Lemma iterrows_row (df : DataFrame) (r : row) :
  let r' := combine (columns df)
              (row_series (frame_dtype df)
                 (map (astype (frame_dtype df)) (row_values (columns df) r)))
  in
  (forall c, In c (columns df) -> is_timestamp (cell r c) = true ->
             cell r' c = cell r c) /\
  (frame_dtype df <> float64 ->
   (exists c, In c (columns df) /\
              is_timestamp (cell r c) || missing (cell r c) = false) ->
   forall c, In c (columns df) -> cell r' c = cell r c).
Proof.
  cbv zeta.
  destruct (row_series_map (frame_dtype df)
              (map (astype (frame_dtype df)) (row_values (columns df) r)))
    as (g & -> & Hts & Hid).
  unfold row_values. rewrite (map_map (astype (frame_dtype df)) g).
  split.
  - intros c Hc Ht. rewrite cell_combine_map by exact Hc.
    rewrite astype_timestamp by exact Ht. apply Hts. exact Ht.
  - intros Hd (c0 & Hc0 & Hn) c Hc. rewrite cell_combine_map by exact Hc.
    rewrite astype_not_float by exact Hd. apply Hid. right.
    exists (cell r c0). split.
    + unfold row_values. rewrite map_map. apply in_map_iff.
      exists c0. split; [|exact Hc0]. apply astype_not_float. exact Hd.
    + exact Hn.
Qed.

Section Runs.

Variable read_json : string -> result DataFrame.
Variable sink : list call -> query -> list value -> response.

Lemma execute_calls q args cur :
  calls (snd (execute sink q args cur)) = calls cur ++ [(q, args)].
Proof.
  unfold execute. destruct (sink (calls cur) q args); reflexivity.
Qed.

Lemma execute_inv q args cur res cur' :
  execute sink q args cur = (res, cur') ->
  calls cur' = calls cur ++ [(q, args)] /\
  ((res = Ok tt /\ exists rs, sink (calls cur) q args = Rows rs /\
                              pending cur' = rs) \/
   (exists e, res = Err e /\ sink (calls cur) q args = Raise e)).
Proof.
  unfold execute. destruct (sink (calls cur) q args) as [e|rs];
    intros H; injection H as <- <-; simpl; split; eauto.
Qed.

(** *** Propagation of what the database raises *)

Lemma raises_last_nil {A : Type} hist (res : result A) :
  raises_last sink hist [] res.
Proof. intros [|? ?] q args post e H; discriminate H. Qed.

Lemma propagating_ret {A : Type} (a : A) : propagating sink (ret a).
Proof.
  intros cur res cur' H. injection H as <- <-.
  exists []. rewrite app_nil_r. split; [reflexivity|apply raises_last_nil].
Qed.

Lemma propagating_lift {A : Type} (r : result A) : propagating sink (lift r).
Proof.
  intros cur res cur' H. injection H as <- <-.
  exists []. rewrite app_nil_r. split; [reflexivity|apply raises_last_nil].
Qed.

Lemma propagating_fetchone : propagating sink fetchone.
Proof.
  intros cur res cur' H. unfold fetchone in H.
  exists []. rewrite app_nil_r. split; [|apply raises_last_nil].
  destruct (pending cur); injection H as <- <-; reflexivity.
Qed.

Lemma propagating_execute q args : propagating sink (execute sink q args).
Proof.
  intros cur res cur' H. apply execute_inv in H. destruct H as [Hc Hres].
  exists [(q, args)]. split; [exact Hc|].
  intros pre q' args' post e Hsplit Hraise.
  destruct pre as [|c pre]; simpl in Hsplit.
  - injection Hsplit as <- <- <-. rewrite app_nil_r in Hraise.
    split; [reflexivity|].
    destruct Hres as [(_ & rs & Hrs & _) | (e' & -> & He')]; congruence.
  - injection Hsplit as _ Hsplit. destruct pre; discriminate Hsplit.
Qed.

Lemma propagating_bind {A B : Type} (m : M A) (k : A -> M B) :
  propagating sink m ->
  (forall a, propagating sink (k a)) ->
  propagating sink (bind m k).
Proof.
  intros Hm Hk cur res cur' H. bind_inv H.
  - destruct (Hm _ _ _ Hm0) as (new1 & Hc1 & Hr1).
    destruct (Hk _ _ _ _ H) as (new2 & Hc2 & Hr2).
    exists (new1 ++ new2). rewrite Hc2, Hc1, app_assoc. split; [reflexivity|].
    intros pre q args post e Hsplit Hraise.
    symmetry in Hsplit. apply app_eq_app in Hsplit.
    destruct Hsplit as (l & [[Hpre Hnew2] | [Hnew1 Hpost]]).
    + (* the call belongs to the continuation *)
      subst pre. rewrite app_assoc, <- Hc1 in Hraise.
      eapply Hr2; eauto.
    + (* the call belongs to [m], which returned *)
      destruct l as [|c l]; simpl in Hpost.
      * rewrite app_nil_r in Hnew1. subst new1 new2.
        rewrite <- Hc1 in Hraise. apply (Hr2 [] q args post e).
        -- reflexivity.
        -- rewrite app_nil_r; exact Hraise.
      * injection Hpost as <- Hpost.
        destruct (Hr1 pre q args l e Hnew1 Hraise) as [_ Habs].
        discriminate Habs.
  - subst res. destruct (Hm _ _ _ Hm0) as (new1 & Hc1 & Hr1).
    exists new1. split; [exact Hc1|].
    intros pre q args post e' Hsplit Hraise.
    destruct (Hr1 pre q args post e' Hsplit Hraise) as [Hp He].
    split; [exact Hp|]. congruence.
Qed.

Lemma propagating_for_each {A : Type} (xs : list A) (body : A -> M unit) :
  (forall x, propagating sink (body x)) ->
  propagating sink (for_each xs body).
Proof.
  intros Hbody. induction xs as [|x xs IH]; simpl.
  - apply propagating_ret.
  - apply propagating_bind; auto.
Qed.

Ltac propagate :=
  repeat first
    [ apply propagating_bind | apply propagating_for_each
    | apply propagating_execute | apply propagating_lift
    | apply propagating_fetchone | apply propagating_ret
    | match goal with |- forall _, _ => intro end ].

Lemma propagating_songplay_step cols r :
  propagating sink (songplay_step sink cols r).
Proof. unfold songplay_step. propagate. Qed.

Lemma propagating_load_filtered df : propagating sink (load_filtered sink df).
Proof.
  unfold load_filtered. propagate.
Qed.

Lemma propagating_process_log_file filepath :
  propagating sink (process_log_file read_json sink filepath).
Proof.
  unfold process_log_file. propagate.
Qed.

Lemma propagating_process_song_file filepath :
  propagating sink (process_song_file read_json sink filepath).
Proof. unfold process_song_file. propagate. Qed.

(** *** The calls a run makes *)

Lemma fetchone_inv cur res cur' :
  fetchone cur = (res, cur') ->
  res = Ok (hd_error (pending cur)) /\ calls cur' = calls cur.
Proof.
  unfold fetchone. destruct (pending cur); intros H; injection H as <- <-;
    auto.
Qed.

Lemma getattr_inv cols r name v :
  getattr cols r name = Ok v -> v = cell r name.
Proof.
  unfold getattr. destruct (existsb _ cols); intros H; [|discriminate].
  injection H as <-; reflexivity.
Qed.

Ltac run_inv :=
  repeat match goal with
  | H : bind _ _ _ = _ |- _ => bind_inv H
  | H : lift _ _ = _ |- _ => lift_inv H
  | H : fetchone _ = _ |- _ =>
      apply fetchone_inv in H; destruct H as [? ?]
  | H : execute _ _ _ _ = _ |- _ =>
      apply execute_inv in H; destruct H as [? _]
  | H : getattr _ _ _ = Ok _ |- _ => apply getattr_inv in H
  end.

(** A loop of inserts hands over its rows in order, up to the one the
    database refuses. *)
Lemma for_each_execute_inv {A : Type} q (f : A -> list value) xs :
  forall cur res cur',
  for_each xs (fun x => execute sink q (f x)) cur = (res, cur') ->
  exists done rest,
    xs = done ++ rest /\
    calls cur' = calls cur ++ map (fun x => (q, f x)) done /\
    (res = Ok tt -> rest = []).
Proof.
  induction xs as [|x xs IH]; intros cur res cur' H; simpl in H.
  - injection H as <- <-. exists [], []. simpl. rewrite app_nil_r. auto.
  - bind_inv H.
    + apply execute_inv in Hm. destruct Hm as [Hc _].
      destruct (IH _ _ _ H) as (done & rest & -> & Hc' & Hok).
      exists (x :: done), rest. simpl. rewrite Hc', Hc, <- app_assoc.
      auto.
    + apply execute_inv in Hm. destruct Hm as [Hc _]. subst res.
      exists [x], xs. simpl. split; [reflexivity|]. split; [exact Hc|].
      discriminate.
Qed.

Lemma songplay_step_calls cols r cur res cur' :
  songplay_step sink cols r cur = (res, cur') ->
  exists new, calls cur' = calls cur ++ new /\ Forall (songplay_call r) new.
Proof.
  unfold songplay_step. intros H. run_inv.
  all: repeat match goal with
       | E : calls _ = _ |- _ => rewrite E; clear E
       end.
  all: rewrite <- ?app_assoc.
  all: try (exists []; rewrite app_nil_r; split; [reflexivity|constructor]).
  all: eexists; split; [reflexivity|].
  all: repeat (apply Forall_cons || apply Forall_nil).
  all: first [ left; reflexivity
             | right; split; [reflexivity|]; subst; simpl; eauto ].
Qed.

Lemma for_each_songplay_calls cols rs :
  forall cur res cur',
  for_each rs (songplay_step sink cols) cur = (res, cur') ->
  exists new,
    calls cur' = calls cur ++ new /\
    Forall (fun c => exists r, In r rs /\ songplay_call r c) new.
Proof.
  induction rs as [|r rs IH]; intros cur res cur' H; simpl in H.
  - injection H as <- <-. exists []. rewrite app_nil_r. auto.
  - bind_inv H.
    + apply songplay_step_calls in Hm. destruct Hm as (n1 & Hc1 & F1).
      destruct (IH _ _ _ H) as (n2 & Hc2 & F2).
      exists (n1 ++ n2). rewrite Hc2, Hc1, app_assoc. split; [reflexivity|].
      apply Forall_app. split.
      * eapply Forall_impl; [|exact F1]. intros c Hc. exists r; simpl; auto.
      * eapply Forall_impl; [|exact F2]. intros c (r' & Hr & Hc).
        exists r'; simpl; auto.
    + apply songplay_step_calls in Hm. destruct Hm as (n1 & Hc1 & F1).
      exists n1. split; [exact Hc1|].
      eapply Forall_impl; [|exact F1]. intros c Hc. exists r; simpl; auto.
Qed.

Lemma emitted_app q (a b : list call) :
  emitted q (a ++ b) = emitted q a ++ emitted q b.
Proof. unfold emitted. rewrite filter_app, map_app. reflexivity. Qed.

Lemma emitted_same q {A : Type} (f : A -> list value) (xs : list A) :
  emitted q (map (fun x => (q, f x)) xs) = map f xs.
Proof.
  unfold emitted. induction xs as [|x xs IH]; simpl; [reflexivity|].
  replace (query_eqb q q) with true by (destruct q; reflexivity).
  simpl. rewrite IH. reflexivity.
Qed.

Lemma emitted_none q (cs : list call) :
  Forall (fun c => query_eqb (fst c) q = false) cs -> emitted q cs = [].
Proof.
  unfold emitted. induction 1 as [|c cs Hc _ IH]; simpl; [reflexivity|].
  rewrite Hc. exact IH.
Qed.

Lemma in_emitted q (cs : list call) (args : list value) :
  In args (emitted q cs) -> In (q, args) cs.
Proof.
  unfold emitted. rewrite in_map_iff. intros ([q' a] & <- & H).
  apply filter_In in H. destruct H as [H Hq]. simpl in *.
  destruct q', q; try discriminate; exact H.
Qed.

(** The rows of the converted frame carry their derived instant. *)
Lemma converted_rows (df df1 : DataFrame) :
  convert_ts df = Ok df1 ->
  exists stamps,
    Forall2 (fun r ns => start_time r = Ok ns) (rows df) stamps /\
    map (fun r => cell r "ts") (rows df1) = map VTimestamp stamps.
Proof.
  intros H. apply convert_ts_rows in H. destruct H as (_ & _ & H).
  induction H as [|r r' rs rs' (ns & Hns & ->) _ (stamps & IH1 & IH2)].
  - exists []. split; constructor.
  - exists (ns :: stamps). split; [constructor; auto|].
    cbn [rows map]. rewrite cell_set_cell_same, IH2. reflexivity.
Qed.

(** A loop of inserts that the database takes goes through all its
    rows. *)
Lemma for_each_execute_ok {A : Type} q (f : A -> list value) xs :
  (forall hist args, exists rs, sink hist q args = Rows rs) ->
  forall cur,
  exists cur',
    for_each xs (fun x => execute sink q (f x)) cur = (Ok tt, cur') /\
    calls cur' = calls cur ++ map (fun x => (q, f x)) xs.
Proof.
  intros Hq. induction xs as [|x xs IH]; intros cur; simpl.
  - exists cur. rewrite app_nil_r. split; reflexivity.
  - unfold bind, execute at 1.
    destruct (Hq (calls cur) (f x)) as (rs & ->).
    destruct (IH (mkCursor (calls cur ++ [(q, f x)]) rs)) as (cur' & -> & E).
    exists cur'. split; [reflexivity|].
    rewrite E. cbn [calls]. rewrite <- app_assoc. reflexivity.
Qed.

(** The shape of a run of [load_filtered]: the time rows in the order of
    the frame, then the user rows, then the lookups and facts; a later
    part is only reached when the parts before it went through. *)
Lemma load_filtered_inv df cur res cur' :
  load_filtered sink df cur = (res, cur') ->
  (exists e, convert_ts df = Err e /\ res = Err e /\ cur' = cur) \/
  (exists df1 stamps tdone trest ucalls scalls,
     convert_ts df = Ok df1 /\
     Forall2 (fun r ns => start_time r = Ok ns) (rows df) stamps /\
     map (fun r => cell r "ts") (rows df1) = map VTimestamp stamps /\
     time_rows stamps = tdone ++ trest /\
     calls cur' =
       calls cur ++
       map (fun t => (time_table_insert, t)) tdone ++
       ucalls ++ scalls /\
     (ucalls ++ scalls <> [] -> trest = []) /\
     (res = Ok tt -> trest = []) /\
     ((forall hist args, exists rs,
         sink hist time_table_insert args = Rows rs) -> trest = []) /\
     Forall (fun c => fst c = user_table_insert) ucalls /\
     Forall (fun c => exists r, In r (iterrows df1) /\ songplay_call r c)
            scalls).
Proof.
  unfold load_filtered. intros H.
  bind_inv H; lift_inv Hm; [|left; eauto].
  right. rename a into df1.
  assert (Hts : has_column df1 "ts" = true).
  { destruct (convert_ts_rows _ _ Hr) as (Hts & Hcols & _).
    unfold has_column in *. rewrite Hcols. exact Hts. }
  destruct (converted_rows _ _ Hr) as (stamps & Hstamps & Hcells).
  destruct (build_time_df_rows _ _ Hts Hcells)
    as (tdf & Htdf & Htc & _ & Htr).
  rewrite Htdf in H.
  bind_inv H; lift_inv Hm; [|discriminate].
  match goal with E : Ok _ = Ok _ |- _ => injection E as <- end.
  assert (Hshape : forall done rest,
            iterrows tdf = done ++ rest ->
            time_rows stamps =
              map series_values done ++ map series_values rest).
  { intros done rest E. rewrite <- Htr, E, map_app. reflexivity. }
  assert (Hcalls : forall done : list row,
            map (fun row => (time_table_insert, series_values row)) done =
            map (fun t => (time_table_insert, t)) (map series_values done)).
  { intros done. rewrite map_map. reflexivity. }
  apply bind_inv in H.
  destruct H as [([] & cur1 & Htime & H) | (e & Htime & Hres)].
  - (* the time rows went through *)
    apply for_each_execute_inv in Htime.
    destruct Htime as (done & rest & Erows & Hc1 & Hok1).
    specialize (Hok1 eq_refl). subst rest.
    pose proof (Hshape _ _ Erows) as Est. cbn [map] in Est.
    rewrite Hcalls in Hc1. clear Hshape.
    apply bind_inv in H.
    destruct H as [(user_df & cur2 & Hu & H) | (e & Hu & Hres)];
      apply lift_inv in Hu; destruct Hu as [Hu ->].
    + apply bind_inv in H.
      destruct H as [([] & cur3 & Husers & H) | (e & Husers & Hres)];
        apply for_each_execute_inv in Husers;
        destruct Husers as (udone & urest & _ & Hc2 & _).
      * apply for_each_songplay_calls in H.
        destruct H as (scalls & Hc3 & Hs).
        exists df1, stamps, (map series_values done), [],
          (map (fun x => (user_table_insert, series_values x)) udone), scalls.
        repeat split; auto.
        -- rewrite Hc3, Hc2, Hc1, <- !app_assoc. reflexivity.
        -- rewrite Forall_map. apply Forall_forall. reflexivity.
      * exists df1, stamps, (map series_values done), [],
          (map (fun x => (user_table_insert, series_values x)) udone), [].
        repeat split; auto.
        -- rewrite Hc2, Hc1, app_nil_r, <- !app_assoc. reflexivity.
        -- rewrite Forall_map. apply Forall_forall. reflexivity.
    + exists df1, stamps, (map series_values done), [], [], [].
      repeat split; auto. rewrite Hc1, !app_nil_r. reflexivity.
  - (* the database refused a time row *)
    pose proof Htime as Htime0.
    apply for_each_execute_inv in Htime.
    destruct Htime as (done & rest & Erows & Hc1 & _).
    pose proof (Hshape _ _ Erows) as Est.
    rewrite Hcalls in Hc1.
    exists df1, stamps, (map series_values done), (map series_values rest),
      [], [].
    repeat split; auto.
    + rewrite Hc1, !app_nil_r. reflexivity.
    + intros Habs; contradiction Habs; reflexivity.
    + subst res. discriminate.
    + intros Hacc.
      destruct (for_each_execute_ok time_table_insert series_values
                  (iterrows tdf) Hacc cur) as (c' & Eok & _).
      rewrite Eok in Htime0. discriminate.
Qed.

End Runs.

(** * The components *)

(** ** EventFilter *)

(** C3.  On a frame of activity events (a frame with a [page] column) the
    filter returns the frame of exactly the rows whose [page] is
    "NextSong", in the order they had: a subsequence of the input.  What
    [process_log_file] does after the filter is a function of that frame
    alone. *)
Theorem event_filter_keeps_next_song
    (read_json : string -> result DataFrame)
    (sink : list call -> query -> list value -> response)
    (df : DataFrame) :
  has_column df "page" = true ->
  exists df',
    filter_next_song df = Ok df' /\
    columns df' = columns df /\
    rows df' = filter (fun r => eq_str "NextSong" (cell r "page")) (rows df) /\
    subsequence (rows df') (rows df) /\
    (forall r, In r (rows df') <->
               In r (rows df) /\ cell r "page" = VStr "NextSong") /\
    (forall filepath cur,
       read_json filepath = Ok df ->
       process_log_file read_json sink filepath cur =
       load_filtered sink df' cur).
Proof.
  intros Hpage. eexists. split; [apply filter_next_song_ok; exact Hpage|].
  cbn [columns rows].
  split; [reflexivity|]. split; [reflexivity|].
  split; [apply subsequence_filter|]. split.
  - intros r. rewrite filter_In, eq_str_true. reflexivity.
  - intros filepath cur Hread. unfold process_log_file, bind, lift.
    rewrite Hread, (filter_next_song_ok _ Hpage). reflexivity.
Qed.

Lemma event_filter_keeps_next_song_witness :
  exists df',
    filter_next_song sample_log = Ok df' /\
    columns df' = columns sample_log /\
    rows df' = filter (fun r => eq_str "NextSong" (cell r "page"))
                 (rows sample_log) /\
    subsequence (rows df') (rows sample_log) /\
    (forall r, In r (rows df') <->
               In r (rows sample_log) /\ cell r "page" = VStr "NextSong") /\
    (forall filepath cur,
       sample_read_json filepath = Ok sample_log ->
       process_log_file sample_read_json one_match_sink filepath cur =
       load_filtered one_match_sink df' cur).
Proof.
  apply (event_filter_keeps_next_song sample_read_json one_match_sink
           sample_log).
  reflexivity.
Defined.

Example sample_log_filtered : filter_next_song sample_log = Ok sample_filtered.
Proof. reflexivity. Qed.

(** ** UserDimensionBuilder *)

(** C4.  On a frame that has the five user columns, [user_df] holds the
    five cells of the rows of the frame with the repeated ones taken out:
    no row twice, every extracted row once, in the order of the frame, and
    of equal rows the first one is the one that stays.  Rows that differ,
    be it only in [level], both stay. *)
Theorem user_rows_deduplicated (df : DataFrame) :
  forallb (has_column df) user_columns = true ->
  exists user_df,
    build_user_df df = Ok user_df /\
    columns user_df = user_columns /\
    let extracted := map user_data (rows df) in
    let kept := map (row_values (columns user_df)) (rows user_df) in
    NoDup kept /\
    (forall u, In u kept <-> In u extracted) /\
    subsequence kept extracted /\
    (forall l1 u l2,
       extracted = l1 ++ u :: l2 -> ~ In u l1 ->
       exists k1 k2,
         kept = k1 ++ u :: k2 /\ subsequence k1 l1 /\ subsequence k2 l2) /\
    (forall r1 r2,
       In r1 (rows df) -> In r2 (rows df) ->
       cell r1 "userId" = cell r2 "userId" ->
       cell r1 "level" <> cell r2 "level" ->
       In (user_data r1) kept /\ In (user_data r2) kept /\
       user_data r1 <> user_data r2).
Proof.
  intros Hcols.
  destruct (build_user_df_rows df Hcols) as (user_df & Hb & Hc & _ & Hrows).
  exists user_df. split; [exact Hb|]. split; [exact Hc|].
  cbn zeta. rewrite Hc, Hrows. cbn zeta.
  change (map (row_values user_columns) (rows df))
    with (map user_data (rows df)).
  set (extracted := map user_data (rows df)).
  assert (Hin : forall u,
            In u (keep_first [] extracted) <-> In u extracted).
  { intros u. rewrite keep_in. simpl. tauto. }
  split; [apply keep_nodup|]. split; [exact Hin|].
  split; [apply keep_subsequence|]. split.
  - intros l1 u l2 -> Hu. apply keep_first_occurrence. exact Hu.
  - intros r1 r2 H1 H2 _ Hlevel. repeat split.
    + apply Hin. unfold extracted. apply in_map. exact H1.
    + apply Hin. unfold extracted. apply in_map. exact H2.
    + unfold user_data. intros E. injection E as _ _ _ _ E. contradiction.
Qed.

Lemma user_rows_deduplicated_witness :
  forallb (has_column sample_log) user_columns = true /\
  exists user_df,
    build_user_df sample_log = Ok user_df /\
    map (row_values (columns user_df)) (rows user_df) =
      [[VInt 15; VStr "Lily"; VStr "Koch"; VStr "F"; VStr "free"];
       [VInt 15; VStr "Lily"; VStr "Koch"; VStr "F"; VStr "paid"]].
Proof.
  split; [reflexivity|].
  destruct (user_rows_deduplicated sample_log eq_refl)
    as (user_df & Hb & _).
  exists user_df. split; [exact Hb|].
  vm_compute in Hb. injection Hb as <-. reflexivity.
Defined.

(** ** The derived start time *)

Lemma float_integer_not_nan (bits z : Z) :
  float_integer bits = Some z -> float_is_nan bits = false.
Proof.
  unfold float_integer, float_is_nan. cbv zeta.
  destruct (float_exponent bits =? 2047); [discriminate|reflexivity].
Qed.

Lemma epoch_ms_not_missing (v : value) (ms : Z) :
  epoch_ms v = Some ms -> missing v = false.
Proof.
  destruct v; simpl; try discriminate; [reflexivity|].
  apply float_integer_not_nan.
Qed.

(** The instant of a cell in range, and of a missing one. *)
Lemma ts_in_range_start_time (r : row) :
  ts_in_range (cell r "ts") = true ->
  exists ms,
    epoch_ms (cell r "ts") = Some ms /\
    start_time r = Ok (ceil_ns ms) /\
    Timestamp_min <= ceil_ns ms <= Timestamp_max.
Proof.
  unfold ts_in_range.
  destruct (epoch_ms (cell r "ts")) as [ms|] eqn:E; [|discriminate].
  intros H. apply andb_prop in H. destruct H as [H _].
  apply andb_prop in H. destruct H as [Hlo Hhi].
  apply Z.leb_le in Hlo, Hhi.
  pose proof (Z.mod_pos_bound (- (ms * ns_per_ms)) ns_per_s eq_refl) as Hm.
  assert (Hc : Timestamp_min <= ceil_ns ms <= Timestamp_max).
  { unfold ceil_ns, ns_per_s in *. lia. }
  exists ms. split; [reflexivity|]. split; [|exact Hc].
  apply start_time_ms; [eapply epoch_ms_not_missing; eauto|exact E| |];
    tauto.
Qed.

Lemma ts_missing_start_time (r : row) :
  ts_missing (cell r "ts") = true -> start_time r = Ok NaT.
Proof.
  unfold ts_missing. intros H.
  destruct (cell r "ts") as [|ms| | | |] eqn:E;
    try (apply start_time_missing; rewrite E; exact H).
  apply is_NaT_true in H. subst ms. apply start_time_least.
  rewrite E. reflexivity.
Qed.

Lemma whole_ms_or_missing_start_time (r : row) :
  whole_ms_or_missing r = true -> exists ns, start_time r = Ok ns.
Proof.
  unfold whole_ms_or_missing. intros H. apply orb_prop in H.
  destruct H as [H | H].
  - destruct (ts_in_range_start_time r H) as (ms & _ & E & _). eauto.
  - rewrite (ts_missing_start_time r H). eauto.
Qed.

Lemma Forall_whole_ms_start_times (rs : list row) :
  (forall r, In r rs -> whole_ms_or_missing r = true) ->
  exists stamps, Forall2 (fun r ns => start_time r = Ok ns) rs stamps.
Proof.
  induction rs as [|r rs IH]; intros H.
  - exists []. constructor.
  - destruct (whole_ms_or_missing_start_time r) as (ns & Hns);
      [apply H; left; reflexivity|].
    destruct IH as (stamps & IH); [intros r' Hr'; apply H; right; exact Hr'|].
    exists (ns :: stamps). constructor; auto.
Qed.




(** The two instants of the specification, and a missing timestamp. *)
Example start_time_on_the_second :
  start_time [("ts", VInt 1541990258000)] = Ok 1541990258000000000.
Proof. reflexivity. Qed.

Example start_time_past_the_second :
  start_time [("ts", VInt 1541990258500)] = Ok 1541990259000000000.
Proof. reflexivity. Qed.

Example start_time_of_a_float :
  start_time [("ts", VFloat 4789138796364234752)] = Ok 1541990258000000000.
Proof. reflexivity. Qed.

Example start_time_of_nothing : start_time [("ts", VNone)] = Ok NaT.
Proof. reflexivity. Qed.

(** ** TimeDimensionBuilder *)

Lemma Forall2_start_time_unique (rs : list row) (s1 s2 : list Z) :
  Forall2 (fun r ns => start_time r = Ok ns) rs s1 ->
  Forall2 (fun r ns => start_time r = Ok ns) rs s2 ->
  s1 = s2.
Proof.
  intros H1. revert s2.
  induction H1 as [|r ns rs nss Hr _ IH]; intros s2 H2;
    inversion H2; subst; [reflexivity|].
  f_equal; [congruence|auto].
Qed.

Lemma emitted_time_rows (tdone : list (list value)) (ucalls scalls : list call)
    (R : row -> Prop) :
  Forall (fun c => fst c = user_table_insert) ucalls ->
  Forall (fun c => exists r, R r /\ songplay_call r c) scalls ->
  emitted time_table_insert
    (map (fun t => (time_table_insert, t)) tdone ++ ucalls ++ scalls) = tdone.
Proof.
  intros Hu Hs.
  rewrite !emitted_app, (emitted_same time_table_insert (fun t => t)).
  rewrite map_id, (emitted_none _ ucalls), (emitted_none _ scalls), !app_nil_r;
    [reflexivity| |].
  - eapply Forall_impl; [|exact Hs].
    intros c (r & _ & [Hq | [Hq _]]); rewrite Hq; reflexivity.
  - eapply Forall_impl; [|exact Hu]. intros c Hq. rewrite Hq. reflexivity.
Qed.

(** C5.  On a frame whose [ts] cells are whole numbers of milliseconds in
    range, or missing, [time_df] is built with one row per row of the
    filtered frame, and [iterrows] hands them out in the same order, one
    for each instant: rows with equal timestamps are not merged.  In any
    run of [load_filtered] the rows handed to [time_table_insert] are the
    first of these rows, in order; they are all of them, as many as there
    are events, as soon as the run returns, or gets to any other statement,
    or the database takes every time row. *)
Theorem time_rows_one_per_event
    (sink : list call -> query -> list value -> response)
    (df : DataFrame) :
  has_column df "ts" = true ->
  (forall r, In r (rows df) -> whole_ms_or_missing r = true) ->
  exists df1 time_df stamps,
    convert_ts df = Ok df1 /\
    build_time_df df1 = Ok time_df /\
    Forall2 (fun r ns => start_time r = Ok ns) (rows df) stamps /\
    List.length (rows time_df) = List.length (rows df) /\
    map series_values (iterrows time_df) = time_rows stamps /\
    List.length (time_rows stamps) = List.length (rows df) /\
    (forall cur res cur',
       load_filtered sink df cur = (res, cur') ->
       exists new rest,
         calls cur' = calls cur ++ new /\
         time_rows stamps = emitted time_table_insert new ++ rest /\
         (res = Ok tt -> rest = []) /\
         ((exists c, In c new /\ fst c <> time_table_insert) -> rest = []) /\
         ((forall hist args, exists rs,
             sink hist time_table_insert args = Rows rs) -> rest = [])).
Proof.
  intros Hts Hall.
  destruct (Forall_whole_ms_start_times _ Hall) as (stamps & Hst).
  pose proof (convert_ts_total df stamps Hts Hst) as Hconv.
  set (df1 := mkDataFrame _ _ _) in Hconv.
  assert (Hts1 : has_column df1 "ts" = true) by exact Hts.
  destruct (converted_rows _ _ Hconv) as (stamps' & Hst' & Hcells).
  pose proof (Forall2_start_time_unique _ _ _ Hst' Hst) as ->.
  destruct (build_time_df_rows _ _ Hts1 Hcells)
    as (tdf & Htdf & Htc & Htl & Htr).
  assert (Hlen : List.length stamps = List.length (rows df)).
  { symmetry. eapply Forall2_length_eq; eauto. }
  exists df1, tdf, stamps. split; [exact Hconv|]. split; [exact Htdf|].
  split; [exact Hst|]. split; [congruence|]. split; [exact Htr|].
  split; [rewrite time_rows_length; exact Hlen|].
  intros cur res cur' Hrun. apply load_filtered_inv in Hrun.
  destruct Hrun as [(e & Habs & _) | Hrun]; [congruence|].
  destruct Hrun as (df1' & stamps' & tdone & trest & ucalls & scalls &
                    _ & Hst2 & _ & Est & Hcalls & Hnext & Hok & Hacc & Hu & Hs).
  pose proof (Forall2_start_time_unique _ _ _ Hst2 Hst) as ->.
  exists (map (fun t => (time_table_insert, t)) tdone ++ ucalls ++ scalls),
         trest.
  split; [exact Hcalls|].
  pose proof (emitted_time_rows tdone ucalls scalls _ Hu Hs) as Et.
  unfold call in Et |- *. rewrite Et.
  split; [exact Est|]. split; [exact Hok|]. split; [|exact Hacc].
  intros (c & Hc & Hq). apply Hnext.
  apply in_app_or in Hc. destruct Hc as [Hc | Hc].
  - apply in_map_iff in Hc. destruct Hc as (t & <- & _).
    contradiction Hq. reflexivity.
  - intros E. rewrite E in Hc. contradiction.
Qed.

Lemma time_rows_one_per_event_witness :
  exists df1 time_df stamps,
    convert_ts sample_filtered = Ok df1 /\
    build_time_df df1 = Ok time_df /\
    Forall2 (fun r ns => start_time r = Ok ns) (rows sample_filtered) stamps /\
    List.length (rows time_df) = List.length (rows sample_filtered) /\
    map series_values (iterrows time_df) = time_rows stamps /\
    List.length (time_rows stamps) = List.length (rows sample_filtered) /\
    (forall cur res cur',
       load_filtered one_match_sink sample_filtered cur = (res, cur') ->
       exists new rest,
         calls cur' = calls cur ++ new /\
         time_rows stamps = emitted time_table_insert new ++ rest /\
         (res = Ok tt -> rest = []) /\
         ((exists c, In c new /\ fst c <> time_table_insert) -> rest = []) /\
         ((forall hist args, exists rs,
             one_match_sink hist time_table_insert args = Rows rs) ->
          rest = [])).
Proof.
  apply (time_rows_one_per_event one_match_sink sample_filtered);
    [reflexivity|].
  intros r [<- | [<- | [<- | []]]]; reflexivity.
Defined.

(** Two events of the sample log share a timestamp and each gets its time
    row. *)
Example sample_log_time_rows :
  emitted time_table_insert
    (calls (snd (process_log_file sample_read_json one_match_sink
                   "data/log_data/events.json" fresh_cursor))) =
  [[VTime 2 37 38 0; VInt 2; VInt 12; VInt 46; VInt 11; VInt 2018;
    VStr "Monday"];
   [VTime 2 37 39 0; VInt 2; VInt 12; VInt 46; VInt 11; VInt 2018;
    VStr "Monday"];
   [VTime 2 37 39 0; VInt 2; VInt 12; VInt 46; VInt 11; VInt 2018;
    VStr "Monday"]].
Proof. vm_compute. reflexivity. Qed.

(** An event without [ts] gets its time row as well, a row of [NaT], and
    the fields of the other rows of the file are floats;
    4611686018427387904 encodes 2.0. *)
Example missing_ts_time_rows :
  emitted time_table_insert
    (calls (snd (process_log_file (fun _ => Ok log_with_missing_ts)
                   one_match_sink "data/log_data/events.json"
                   fresh_cursor))) =
  [nat_row;
   [VTime 2 37 38 0; VFloat 4611686018427387904; VFloat 4622945017495814144;
    VFloat 4631670741773844480; VFloat 4622382067542392832;
    VFloat 4656590073305759744; VStr "Monday"]].
Proof. vm_compute. reflexivity. Qed.

(** ** Facts and time rows *)

(** The facts of a run start with the instants of its events. *)
Lemma iterrows_ts (df1 : DataFrame) (stamps : list Z) (r : row) :
  has_column df1 "ts" = true ->
  map (fun r => cell r "ts") (rows df1) = map VTimestamp stamps ->
  In r (iterrows df1) ->
  exists ns, In ns stamps /\ cell r "ts" = VTimestamp ns.
Proof.
  intros Hts Hcells Hr. rewrite iterrows_map in Hr.
  apply in_map_iff in Hr. destruct Hr as (r1 & <- & Hr1).
  assert (Hin : In (cell r1 "ts") (map VTimestamp stamps)).
  { rewrite <- Hcells. apply (in_map (fun r => cell r "ts")). exact Hr1. }
  apply in_map_iff in Hin. destruct Hin as (ns & Hns & Hin).
  exists ns. split; [exact Hin|].
  destruct (iterrows_row df1 r1) as [Hkeep _]. rewrite Hkeep.
  - symmetry. exact Hns.
  - unfold has_column in Hts. apply existsb_exists in Hts.
    destruct Hts as (c & Hc & E). apply String.eqb_eq in E. subst c.
    exact Hc.
  - rewrite <- Hns. reflexivity.
Qed.




(** ** SongplayResolver *)

Lemma getattr_present (cols : list string) (r : row) (name : string) :
  In name cols -> getattr cols r name = Ok (cell r name).
Proof.
  intros H. unfold getattr.
  replace (existsb (String.eqb name) cols) with true; [reflexivity|].
  symmetry. apply existsb_exists. exists name.
  split; [exact H|apply String.eqb_refl].
Qed.

(** C1, as the program has it.  For a row of the filtered frame the loop
    looks up (song, artist, length) and then hands over a fact made of the
    row's [ts], [userId], [level], the two ids, and the row's [sessionId],
    [location] and [userAgent].  The ids are those of the first row the
    lookup returns when it returns any, and both [None] when it returns
    none. *)
Theorem songplay_ids_from_first_match
    (sink : list call -> query -> list value -> response)
    (cols : list string) (r : row) (cur : Cursor)
    (rs : list (list value)) (songid artistid : value) :
  Forall (fun name => In name cols) songplay_attrs ->
  sink (calls cur) song_select
       [cell r "song"; cell r "artist"; cell r "length"] = Rows rs ->
  (rs = [] /\ songid = VNone /\ artistid = VNone) \/
  (exists rest, rs = [songid; artistid] :: rest) ->
  calls (snd (songplay_step sink cols r cur)) =
    calls cur ++
    [(song_select, [cell r "song"; cell r "artist"; cell r "length"]);
     (songplay_table_insert,
      [cell r "ts"; cell r "userId"; cell r "level"; songid; artistid;
       cell r "sessionId"; cell r "location"; cell r "userAgent"])].
Proof.
  intros Hattrs Hsink Hrs.
  assert (Hget : forall name, In name songplay_attrs ->
                              getattr cols r name = Ok (cell r name)).
  { intros name Hname. rewrite Forall_forall in Hattrs.
    apply getattr_present. auto. }
  pose proof (Hget "song" ltac:(simpl; tauto)) as Hsong.
  pose proof (Hget "artist" ltac:(simpl; tauto)) as Hartist.
  pose proof (Hget "length" ltac:(simpl; tauto)) as Hlength.
  pose proof (Hget "ts" ltac:(simpl; tauto)) as Hts.
  pose proof (Hget "userId" ltac:(simpl; tauto)) as HuserId.
  pose proof (Hget "level" ltac:(simpl; tauto)) as Hlevel.
  pose proof (Hget "sessionId" ltac:(simpl; tauto)) as HsessionId.
  pose proof (Hget "location" ltac:(simpl; tauto)) as Hlocation.
  pose proof (Hget "userAgent" ltac:(simpl; tauto)) as HuserAgent.
  unfold songplay_step, bind, lift.
  rewrite Hsong, Hartist, Hlength.
  unfold execute at 1. rewrite Hsink. cbn [calls pending].
  unfold fetchone. cbn [pending calls].
  destruct Hrs as [(-> & -> & ->) | (rest & ->)]; cbn [unpack_results fst snd];
    rewrite Hts, HuserId, Hlevel, HsessionId, Hlocation, HuserAgent;
    rewrite execute_calls; cbn [calls]; rewrite <- app_assoc; reflexivity.
Qed.

Lemma songplay_ids_from_first_match_witness :
  emitted songplay_table_insert
    (calls (snd (songplay_step one_match_sink log_columns
                   (set_cell "ts" (VTimestamp 1541990258000000000)
                      (log_row "NextSong" 1541990258000 "free"
                         "Setanta matins"))
                   fresh_cursor))) =
  [[VTimestamp 1541990258000000000; VInt 15; VStr "free"; VStr "SOZCTXZ12AB0182364";
    VStr "AR5KOSW1187FB35FF4"; VInt 818; VStr "Chicago"; VStr "Mozilla/5.0"]].
Proof.
  rewrite (songplay_ids_from_first_match one_match_sink log_columns
             (set_cell "ts" (VTimestamp 1541990258000000000)
                (log_row "NextSong" 1541990258000 "free" "Setanta matins"))
             fresh_cursor
             [[VStr "SOZCTXZ12AB0182364"; VStr "AR5KOSW1187FB35FF4"]]
             (VStr "SOZCTXZ12AB0182364") (VStr "AR5KOSW1187FB35FF4")).
  - vm_compute. reflexivity.
  - repeat (apply Forall_cons; [simpl; tauto|]). apply Forall_nil.
  - vm_compute. reflexivity.
  - right. exists []. reflexivity.
Defined.

(** C1 as the specification words it ([None] ids for an ambiguous lookup)
    fails: with two songs answering to the first event of the sample log,
    the fact carries the ids of the first of them. *)
Lemma ambiguous_lookup_binds_first_match :
  two_match_sink [] song_select setanta_lookup =
    Rows [[VStr "SOZCTXZ12AB0182364"; VStr "AR5KOSW1187FB35FF4"];
          [VStr "SOAAAAA12AB0180000"; VStr "AR5KOSW1187FB35FF4"]] /\
  exists fact,
    hd_error (emitted songplay_table_insert
                (calls (snd (process_log_file sample_read_json two_match_sink
                               "data/log_data/events.json" fresh_cursor)))) =
      Some fact /\
    nth_error fact 3 = Some (VStr "SOZCTXZ12AB0182364") /\
    nth_error fact 4 = Some (VStr "AR5KOSW1187FB35FF4") /\
    nth_error fact 3 <> Some VNone /\
    nth_error fact 4 <> Some VNone.
Proof.
  split; [reflexivity|].
  eexists. split; [vm_compute; reflexivity|].
  repeat split; discriminate.
Qed.

(** ** SongDimensionExtractor *)

Lemma dtype_of_getitems (df : DataFrame) (cs : list string) (rs : list row)
    (c : string) :
  dtype_of (mkDataFrame cs (dtypes df) rs) c = dtype_of df c.
Proof. reflexivity. Qed.

Lemma values0_getitems (df : DataFrame) (cs : list string) (r : row)
    (rest : list row) :
  forallb (has_column df) cs = true ->
  rows df = r :: rest ->
  rbind (getitems df cs) values0 =
  Ok (map (astype (record_dtype df cs)) (row_values cs r)).
Proof.
  intros Hcs Hrows. rewrite (getitems_ok _ _ Hcs). cbn [rbind].
  unfold values0, values, frame_dtype. cbn [rows columns]. rewrite Hrows.
  cbn [map]. rewrite row_values_getitems_row. reflexivity.
Qed.

Lemma common_dtype_object (ds : list dtype) :
  In object ds -> common_dtype ds = object.
Proof.
  intros H. unfold common_dtype.
  assert (F : forall p : dtype -> bool, p object = false ->
                                        forallb p ds = false).
  { intros p Hp. destruct (forallb p ds) eqn:E; [|reflexivity].
    rewrite forallb_forall in E. rewrite (E _ H) in Hp. discriminate. }
  rewrite !F; reflexivity.
Qed.

Lemma record_dtype_object (df : DataFrame) (cs : list string) (c : string) :
  In c cs -> dtype_of df c = object -> record_dtype df cs = object.
Proof.
  intros Hc Hd. apply common_dtype_object. rewrite <- Hd.
  apply in_map. exact Hc.
Qed.

Lemma map_astype_not_float (d : dtype) (vs : list value) :
  d <> float64 -> map (astype d) vs = vs.
Proof.
  intros Hd. rewrite <- (map_id vs) at 2. apply map_ext.
  intros v. apply astype_not_float. exact Hd.
Qed.

(** The inserts of a run on a frame with a first row and both sets of
    columns. *)
Lemma process_song_file_calls
    (read_json : string -> result DataFrame)
    (sink : list call -> query -> list value -> response)
    (filepath : string) (df : DataFrame) (song artist : list value)
    (cur cur' : Cursor) (res : result unit) :
  read_json filepath = Ok df ->
  rbind (getitems df song_columns) values0 = Ok song ->
  rbind (getitems df artist_columns) values0 = Ok artist ->
  process_song_file read_json sink filepath cur = (res, cur') ->
  (res = Ok tt ->
   calls cur' = calls cur ++ [(song_table_insert, song);
                              (artist_table_insert, artist)]) /\
  (forall e, res = Err e ->
   sink (calls cur) song_table_insert song = Raise e /\
   calls cur' = calls cur ++ [(song_table_insert, song)] \/
   sink (calls cur ++ [(song_table_insert, song)])
        artist_table_insert artist = Raise e /\
   calls cur' = calls cur ++ [(song_table_insert, song);
                              (artist_table_insert, artist)]).
Proof.
  intros Hread Es Ea. unfold process_song_file, bind, lift.
  rewrite Hread, Es. unfold execute at 1.
  destruct (sink (calls cur) song_table_insert song) as [e|rs] eqn:E1.
  - intros H; injection H as <- <-. split; [discriminate|].
    intros e' He'. injection He' as <-. left. auto.
  - rewrite Ea. unfold execute. cbn [calls].
    destruct (sink _ artist_table_insert artist) as [e|rs'] eqn:E2;
      intros H; injection H as <- <-; cbn [calls]; rewrite <- app_assoc.
    + split; [discriminate|]. intros e' He'. injection He' as <-.
      right. auto.
    + split; [reflexivity|]. intros e' He'. discriminate.
Qed.




(** C10, as the program has it.  A song file whose frame has no row makes
    [process_song_file] fail before anything is handed to the database.
    The frame read from a file without records has no columns either, and
    the failure is the [KeyError] of the column selection, on a column of
    the song record; [values[0]] is not reached.  The [IndexError] of
    [values[0]] is what a frame with the song columns and no row gives. *)
Theorem song_file_without_record_fails
    (read_json : string -> result DataFrame)
    (sink : list call -> query -> list value -> response)
    (filepath : string) (df : DataFrame) (cur : Cursor) :
  read_json filepath = Ok df ->
  rows df = [] ->
  exists e,
    process_song_file read_json sink filepath cur = (Err e, cur) /\
    (forallb (has_column df) song_columns = false ->
     exists c, In c song_columns /\ has_column df c = false /\
               getitems df song_columns = Err (KeyError c) /\
               e = KeyError c) /\
    (columns df = [] -> e = KeyError "song_id") /\
    (forallb (has_column df) song_columns = true -> e = IndexError).
Proof.
  intros Hread Hrows. unfold process_song_file, bind, lift. rewrite Hread.
  destruct (forallb (has_column df) song_columns) eqn:Hs.
  - rewrite (getitems_ok _ _ Hs). cbn [rbind]. unfold values0, values.
    cbn [rows]. rewrite Hrows. cbn [map].
    exists IndexError. split; [reflexivity|]. split; [discriminate|].
    split; [|reflexivity].
    intros Hc. unfold has_column in Hs. rewrite Hc in Hs. discriminate.
  - destruct (getitems_missing_in _ _ Hs) as (c & Hin & Hc & E).
    rewrite E. cbn [rbind].
    exists (KeyError c). split; [reflexivity|].
    split; [intros _; exists c; auto|]. split; [|discriminate].
    intros Hcols. unfold getitems, has_column in E. rewrite Hcols in E.
    cbn in E. congruence.
Qed.

Lemma song_file_without_record_fails_witness :
  process_song_file sample_read_json one_match_sink
    "data/song_data/empty.json" fresh_cursor =
  (Err (KeyError "song_id"), fresh_cursor).
Proof.
  destruct (song_file_without_record_fails sample_read_json one_match_sink
              "data/song_data/empty.json" (mkDataFrame [] [] []) fresh_cursor
              eq_refl eq_refl) as (e & He & _).
  vm_compute in He. injection He as <-. reflexivity.
Defined.

(** C10 as the specification words it (the failure being the first-record
    access out of bounds) fails for the file without records: its frame has
    no columns, the selection of the song columns raises [KeyError], and
    [values[0]], which would raise [IndexError], is never evaluated. *)
Lemma empty_song_file_fails_at_the_selection :
  sample_read_json "data/song_data/empty.json" = Ok (mkDataFrame [] [] []) /\
  getitems (mkDataFrame [] [] []) song_columns = Err (KeyError "song_id") /\
  process_song_file sample_read_json one_match_sink
    "data/song_data/empty.json" fresh_cursor =
  (Err (KeyError "song_id"), fresh_cursor) /\
  fst (process_song_file sample_read_json one_match_sink
         "data/song_data/empty.json" fresh_cursor) <> Err IndexError.
Proof.
  split; [reflexivity|]. split; [reflexivity|].
  split; [reflexivity|]. discriminate.
Qed.

(** ** A lookup that raises *)

Lemma for_each_app {A : Type} (l1 l2 : list A) (body : A -> M unit) cur :
  for_each (l1 ++ l2) body cur =
  match for_each l1 body cur with
  | (Ok _, cur1) => for_each l2 body cur1
  | (Err e, cur1) => (Err e, cur1)
  end.
Proof.
  revert cur. induction l1 as [|x l1 IH]; intros cur; simpl; [reflexivity|].
  unfold bind. destruct (body x cur) as [[[]|e] cur1]; [apply IH|reflexivity].
Qed.

Lemma songplay_step_lookup_raises
    (sink : list call -> query -> list value -> response)
    (cols : list string) (r : row) (cur : Cursor) (e : exn) :
  Forall (fun name => In name cols) songplay_attrs ->
  sink (calls cur) song_select
       [cell r "song"; cell r "artist"; cell r "length"] = Raise e ->
  songplay_step sink cols r cur =
  (Err e,
   mkCursor
     (calls cur ++
      [(song_select, [cell r "song"; cell r "artist"; cell r "length"])])
     []).
Proof.
  intros Hattrs Hsink. rewrite Forall_forall in Hattrs.
  assert (Hget : forall name, In name songplay_attrs ->
                              getattr cols r name = Ok (cell r name)).
  { intros name Hname. apply getattr_present. auto. }
  unfold songplay_step, bind, lift.
  rewrite (Hget "song"), (Hget "artist"), (Hget "length")
    by (simpl; tauto).
  unfold execute. rewrite Hsink. reflexivity.
Qed.

(** C8.  In a run of [process_log_file], a lookup that the database answers
    by raising is the last call of the run and what it raised is the
    outcome of the run: no call follows it, so no fact is handed over for
    the event of that lookup or for a later one, and in particular none
    with [None] ids in place of the failed lookup.  In the loop itself:
    when the rows before [r] went through and the lookup for [r] raises
    [e], the loop over all the rows ends with [e] right after that
    lookup. *)
Theorem lookup_failure_aborts_file
    (read_json : string -> result DataFrame)
    (sink : list call -> query -> list value -> response)
    (filepath : string) (cur cur' : Cursor) (res : result unit) :
  process_log_file read_json sink filepath cur = (res, cur') ->
  (exists new,
     calls cur' = calls cur ++ new /\
     forall pre args post e,
       new = pre ++ (song_select, args) :: post ->
       sink (calls cur ++ pre) song_select args = Raise e ->
       res = Err e /\ post = [] /\
       emitted songplay_table_insert new =
       emitted songplay_table_insert pre) /\
  (forall cols before r after c0 c1 e,
     Forall (fun name => In name cols) songplay_attrs ->
     for_each before (songplay_step sink cols) c0 = (Ok tt, c1) ->
     sink (calls c1) song_select
          [cell r "song"; cell r "artist"; cell r "length"] = Raise e ->
     for_each (before ++ r :: after) (songplay_step sink cols) c0 =
     (Err e,
      mkCursor
        (calls c1 ++
         [(song_select, [cell r "song"; cell r "artist"; cell r "length"])])
        [])).
Proof.
  intros Hrun. split.
  - destruct (propagating_process_log_file read_json sink filepath _ _ _ Hrun)
      as (new & Hcalls & Hlast).
    exists new. split; [exact Hcalls|].
    intros pre args post e Hsplit Hraise.
    destruct (Hlast _ _ _ _ _ Hsplit Hraise) as [-> ->].
    split; [reflexivity|]. split; [reflexivity|].
    subst new. rewrite emitted_app. unfold emitted at 2. simpl.
    rewrite app_nil_r. reflexivity.
  - intros cols before r after c0 c1 e Hattrs Hbefore Hraise.
    rewrite for_each_app, Hbefore. simpl. unfold bind.
    rewrite (songplay_step_lookup_raises _ _ _ _ _ Hattrs Hraise).
    reflexivity.
Qed.

Lemma lookup_failure_aborts_file_witness :
  fst failing_run = Err (DatabaseError "connection lost") /\
  emitted songplay_table_insert (calls (snd failing_run)) =
    [[VTimestamp 1541990258000000000; VInt 15; VStr "free";
      VStr "SOZCTXZ12AB0182364"; VStr "AR5KOSW1187FB35FF4"; VInt 818;
      VStr "Chicago"; VStr "Mozilla/5.0"]] /\
  exists new,
    calls (snd failing_run) = calls fresh_cursor ++ new /\
    forall pre args post e,
      new = pre ++ (song_select, args) :: post ->
      failing_sink (calls fresh_cursor ++ pre) song_select args = Raise e ->
      fst failing_run = Err e /\ post = [] /\
      emitted songplay_table_insert new = emitted songplay_table_insert pre.
Proof.
  split; [vm_compute; reflexivity|]. split; [vm_compute; reflexivity|].
  apply (lookup_failure_aborts_file sample_read_json failing_sink
           "data/log_data/events.json" fresh_cursor (snd failing_run)
           (fst failing_run)).
  apply surjective_pairing.
Defined.

(** * The rest of the program *)

(** ** Which statements a file function issues *)

Section Statements.

Variable read_json : string -> result DataFrame.
Variable sink : list call -> query -> list value -> response.

Lemma makes_only_lift {A : Type} P (r : result A) : makes_only P (lift r).
Proof.
  intros cur res cur' H. injection H as <- <-.
  exists []. rewrite app_nil_r. auto.
Qed.

Lemma makes_only_ret {A : Type} P (a : A) : makes_only P (ret a).
Proof.
  intros cur res cur' H. injection H as <- <-.
  exists []. rewrite app_nil_r. auto.
Qed.

Lemma makes_only_fetchone P : makes_only P fetchone.
Proof.
  intros cur res cur' H. apply fetchone_inv in H. destruct H as [_ H].
  exists []. rewrite app_nil_r. auto.
Qed.

Lemma makes_only_execute (P : call -> Prop) q args :
  P (q, args) -> makes_only P (execute sink q args).
Proof.
  intros HP cur res cur' H. apply execute_inv in H. destruct H as [H _].
  exists [(q, args)]. auto.
Qed.

Lemma makes_only_bind {A B : Type} P (m : M A) (k : A -> M B) :
  makes_only P m -> (forall a, makes_only P (k a)) ->
  makes_only P (bind m k).
Proof.
  intros Hm Hk cur res cur' H. apply bind_inv in H.
  destruct H as [(a & c1 & H1 & H2) | (e & H1 & _)].
  - destruct (Hm _ _ _ H1) as (n1 & E1 & F1).
    destruct (Hk _ _ _ _ H2) as (n2 & E2 & F2).
    exists (n1 ++ n2). rewrite E2, E1, app_assoc. split; [reflexivity|].
    apply Forall_app; auto.
  - exact (Hm _ _ _ H1).
Qed.

Lemma makes_only_for_each {A : Type} P (xs : list A) (body : A -> M unit) :
  (forall x, makes_only P (body x)) -> makes_only P (for_each xs body).
Proof.
  intros Hb. induction xs as [|x xs IH]; simpl.
  - apply makes_only_ret.
  - apply makes_only_bind; auto.
Qed.

Ltac makes_only :=
  repeat first
    [ apply makes_only_bind | apply makes_only_for_each
    | apply makes_only_lift | apply makes_only_fetchone
    | apply makes_only_ret
    | apply makes_only_execute; unfold song_file_call, log_file_call;
      simpl; tauto
    | match goal with |- forall _, _ => intro end ].

Lemma process_song_file_statements filepath :
  makes_only song_file_call (process_song_file read_json sink filepath).
Proof. unfold process_song_file. makes_only. Qed.

Lemma process_log_file_statements filepath :
  makes_only log_file_call (process_log_file read_json sink filepath).
Proof. unfold process_log_file, load_filtered, songplay_step. makes_only. Qed.

End Statements.

(** X1.  Whatever the file and the database, [process_song_file] issues at
    most two statements: nothing, or the song insert alone, or the song
    insert followed by the artist insert; an artist is never inserted
    without its song before it, and a run that returns has issued
    both. *)
Theorem song_file_at_most_two_statements
    (read_json : string -> result DataFrame)
    (sink : list call -> query -> list value -> response)
    (filepath : string) (cur cur' : Cursor) (res : result unit) :
  process_song_file read_json sink filepath cur = (res, cur') ->
  exists new,
    calls cur' = calls cur ++ new /\
    (new = [] \/
     (exists song, new = [(song_table_insert, song)]) \/
     (exists song artist,
        new = [(song_table_insert, song); (artist_table_insert, artist)])) /\
    (res = Ok tt -> List.length new = 2%nat).
Proof.
  unfold process_song_file. intros H.
  apply bind_inv in H.
  destruct H as [(df & c1 & H1 & H) | (e & H1 & ->)];
    apply lift_inv in H1; destruct H1 as [_ ->];
    [|exists []; rewrite app_nil_r; intuition discriminate].
  apply bind_inv in H.
  destruct H as [(song & c2 & H1 & H) | (e & H1 & ->)];
    apply lift_inv in H1; destruct H1 as [_ ->];
    [|exists []; rewrite app_nil_r; intuition discriminate].
  apply bind_inv in H.
  destruct H as [([] & c3 & H1 & H) | (e & H1 & ->)];
    apply execute_inv in H1; destruct H1 as [E1 _];
    [|exists [(song_table_insert, song)]; split; [exact E1|];
      split; [eauto|discriminate]].
  apply bind_inv in H.
  destruct H as [(artist & c4 & H1 & H) | (e & H1 & ->)];
    apply lift_inv in H1; destruct H1 as [_ ->];
    [|exists [(song_table_insert, song)]; split; [exact E1|];
      split; [eauto|discriminate]].
  apply execute_inv in H. destruct H as [E2 _].
  exists [(song_table_insert, song); (artist_table_insert, artist)].
  split; [rewrite E2, E1, <- app_assoc; reflexivity|].
  split; [eauto|reflexivity].
Qed.

Lemma song_file_at_most_two_statements_witness :
  exists new,
    calls (snd (process_song_file sample_read_json one_match_sink
                  "data/song_data/songs.json" fresh_cursor)) =
      calls fresh_cursor ++ new /\
    (new = [] \/
     (exists song, new = [(song_table_insert, song)]) \/
     (exists song artist,
        new = [(song_table_insert, song); (artist_table_insert, artist)])) /\
    (fst (process_song_file sample_read_json one_match_sink
            "data/song_data/songs.json" fresh_cursor) = Ok tt ->
     List.length new = 2%nat).
Proof.
  apply (song_file_at_most_two_statements sample_read_json one_match_sink
           "data/song_data/songs.json" fresh_cursor).
  apply surjective_pairing.
Defined.

(** X2.  The statements of a run of [process_log_file] come in three
    blocks: the time inserts, then the user inserts, then the lookups and
    songplay inserts.  The song and artist tables are never written. *)
Theorem log_file_statement_order
    (read_json : string -> result DataFrame)
    (sink : list call -> query -> list value -> response)
    (filepath : string) (cur cur' : Cursor) (res : result unit) :
  process_log_file read_json sink filepath cur = (res, cur') ->
  exists times users plays,
    calls cur' = calls cur ++ times ++ users ++ plays /\
    Forall (fun c => fst c = time_table_insert) times /\
    Forall (fun c => fst c = user_table_insert) users /\
    Forall (fun c => fst c = song_select \/ fst c = songplay_table_insert)
           plays.
Proof.
  unfold process_log_file. intros H.
  assert (Hnone : exists times users plays : list call,
            calls cur = calls cur ++ times ++ users ++ plays /\
            Forall (fun c => fst c = time_table_insert) times /\
            Forall (fun c => fst c = user_table_insert) users /\
            Forall (fun c => fst c = song_select \/
                             fst c = songplay_table_insert) plays).
  { exists [], [], []. rewrite app_nil_r. repeat split; auto. }
  apply bind_inv in H.
  destruct H as [(df0 & c1 & H1 & H) | (e & H1 & _)];
    apply lift_inv in H1; destruct H1 as [_ ->]; [|exact Hnone].
  apply bind_inv in H.
  destruct H as [(df & c2 & H1 & H) | (e & H1 & _)];
    apply lift_inv in H1; destruct H1 as [_ ->]; [|exact Hnone].
  apply load_filtered_inv in H.
  destruct H as [(e & _ & _ & ->) | H]; [exact Hnone|]. clear Hnone.
  destruct H as (df1 & stamps & tdone & trest & ucalls & scalls &
                 Hconv & _ & _ & _ & Hcalls & _ & _ & _ & Hu & Hs).
  exists (map (fun t => (time_table_insert, t)) tdone), ucalls, scalls.
  split; [exact Hcalls|].
  split; [apply Forall_map, Forall_forall; reflexivity|].
  split; [exact Hu|].
  eapply Forall_impl; [|exact Hs].
  intros c (r & _ & [Hq | [Hq _]]); auto.
Qed.

Lemma log_file_statement_order_witness :
  exists times users plays,
    calls (snd sample_run) = calls fresh_cursor ++ times ++ users ++ plays /\
    Forall (fun c => fst c = time_table_insert) times /\
    Forall (fun c => fst c = user_table_insert) users /\
    Forall (fun c => fst c = song_select \/ fst c = songplay_table_insert)
           plays.
Proof.
  apply (log_file_statement_order sample_read_json one_match_sink
           "data/log_data/events.json" fresh_cursor (snd sample_run)
           (fst sample_run)).
  apply surjective_pairing.
Defined.

(** X3.  Nothing in either file function catches what the database
    raises: whichever statement it refuses, insert or lookup, is the last
    one the function issues, and what was raised is what the function
    raises. *)
Theorem database_error_ends_file
    (read_json : string -> result DataFrame)
    (sink : list call -> query -> list value -> response)
    (func : string -> M unit) (filepath : string)
    (cur cur' : Cursor) (res : result unit) :
  func = process_song_file read_json sink \/
  func = process_log_file read_json sink ->
  func filepath cur = (res, cur') ->
  exists new,
    calls cur' = calls cur ++ new /\
    forall pre q args post e,
      new = pre ++ (q, args) :: post ->
      sink (calls cur ++ pre) q args = Raise e ->
      res = Err e /\ post = [].
Proof.
  intros [-> | ->] Hrun.
  - destruct (propagating_process_song_file read_json sink filepath _ _ _ Hrun)
      as (new & Hcalls & Hlast).
    exists new. split; [exact Hcalls|].
    intros pre q args post e Hsplit Hraise.
    destruct (Hlast _ _ _ _ _ Hsplit Hraise); auto.
  - destruct (propagating_process_log_file read_json sink filepath _ _ _ Hrun)
      as (new & Hcalls & Hlast).
    exists new. split; [exact Hcalls|].
    intros pre q args post e Hsplit Hraise.
    destruct (Hlast _ _ _ _ _ Hsplit Hraise); auto.
Qed.

Lemma database_error_ends_file_witness :
  fst refused_artist_run = Err (DatabaseError "duplicate key") /\
  exists new,
    calls (snd refused_artist_run) = calls fresh_cursor ++ new /\
    forall pre q args post e,
      new = pre ++ (q, args) :: post ->
      artist_refusing_sink (calls fresh_cursor ++ pre) q args = Raise e ->
      fst refused_artist_run = Err e /\ post = [].
Proof.
  split; [vm_compute; reflexivity|].
  apply (database_error_ends_file sample_read_json artist_refusing_sink
           (process_song_file sample_read_json artist_refusing_sink)
           "data/song_data/songs.json" fresh_cursor (snd refused_artist_run)
           (fst refused_artist_run)).
  - left. reflexivity.
  - apply surjective_pairing.
Defined.

(** ** Missing columns *)

(** X4.  A song file whose frame lacks a column of the song record fails
    with [KeyError] on that column before any statement.  When only a
    column of the artist record is lacking, the song has already been
    inserted by the time the [KeyError] is raised: the song is handed to
    the database without its artist. *)
Theorem song_file_missing_column
    (read_json : string -> result DataFrame)
    (sink : list call -> query -> list value -> response)
    (filepath : string) (df : DataFrame) (cur : Cursor) :
  read_json filepath = Ok df ->
  (forallb (has_column df) song_columns = false ->
   exists c,
     In c song_columns /\ has_column df c = false /\
     process_song_file read_json sink filepath cur = (Err (KeyError c), cur)) /\
  (forall r rest rs,
     rows df = r :: rest ->
     forallb (has_column df) song_columns = true ->
     forallb (has_column df) artist_columns = false ->
     sink (calls cur) song_table_insert (song_record df r) = Rows rs ->
     exists c,
       In c artist_columns /\ has_column df c = false /\
       process_song_file read_json sink filepath cur =
       (Err (KeyError c),
        mkCursor (calls cur ++ [(song_table_insert, song_record df r)]) rs)).
Proof.
  intros Hread. split.
  - intros Hs. destruct (getitems_missing_in _ _ Hs) as (c & Hin & Hc & E).
    exists c. split; [exact Hin|]. split; [exact Hc|].
    unfold process_song_file, bind, lift. rewrite Hread, E. reflexivity.
  - intros r rest rs Hrows Hs Ha Hsink.
    destruct (getitems_missing_in _ _ Ha) as (c & Hin & Hc & E).
    exists c. split; [exact Hin|]. split; [exact Hc|].
    pose proof (values0_getitems df song_columns r rest Hs Hrows) as Es.
    change (map (astype (record_dtype df song_columns))
              (row_values song_columns r))
      with (song_record df r) in Es.
    unfold process_song_file, bind, lift. rewrite Hread, Es.
    unfold execute. rewrite Hsink, E. reflexivity.
Qed.

Lemma song_file_missing_column_witness :
  song_record songs_without_coordinates
    (sample_song_row "SOZCTXZ12AB0182364" "Setanta matins") =
  [VStr "SOZCTXZ12AB0182364"; VStr "Setanta matins";
   VStr "AR5KOSW1187FB35FF4"; VInt 0; VFloat 4643450117705464545] /\
  exists c,
    In c artist_columns /\
    has_column songs_without_coordinates c = false /\
    process_song_file (fun _ => Ok songs_without_coordinates) one_match_sink
      "data/song_data/songs.json" fresh_cursor =
    (Err (KeyError c),
     mkCursor
       (calls fresh_cursor ++
        [(song_table_insert,
          song_record songs_without_coordinates
            (sample_song_row "SOZCTXZ12AB0182364" "Setanta matins"))])
       []).
Proof.
  split; [reflexivity|].
  apply (proj2 (song_file_missing_column
                  (fun _ => Ok songs_without_coordinates) one_match_sink
                  "data/song_data/songs.json" songs_without_coordinates
                  fresh_cursor eq_refl)
           (sample_song_row "SOZCTXZ12AB0182364" "Setanta matins") [] []);
    reflexivity.
Defined.

Section LogFileEdges.

Variable read_json : string -> result DataFrame.
Variable sink : list call -> query -> list value -> response.

Lemma convert_ts_all_rows (df df1 : DataFrame) (r : row) :
  convert_ts df = Ok df1 -> In r (rows df) ->
  exists ns, start_time r = Ok ns.
Proof.
  intros H Hin. apply convert_ts_rows in H. destruct H as (_ & _ & H).
  induction H as [|x x' l l' (ns & Hns & _) _ IH]; [contradiction|].
  destruct Hin as [<- | Hin]; eauto.
Qed.

End LogFileEdges.

(** X5.  A log file whose frame has no [page] column, as the frame of a
    file without lines has none, fails with [KeyError] on "page"; one with
    [page] but without [ts] fails with [KeyError] on "ts".  In both cases
    no statement is issued. *)
Theorem log_file_missing_page_or_ts
    (read_json : string -> result DataFrame)
    (sink : list call -> query -> list value -> response)
    (filepath : string) (df : DataFrame) (cur : Cursor) :
  read_json filepath = Ok df ->
  (has_column df "page" = false ->
   process_log_file read_json sink filepath cur =
   (Err (KeyError "page"), cur)) /\
  (has_column df "page" = true -> has_column df "ts" = false ->
   process_log_file read_json sink filepath cur =
   (Err (KeyError "ts"), cur)).
Proof.
  intros Hread. split.
  - intros Hp. unfold process_log_file, bind, lift, filter_next_song, getitem.
    rewrite Hread, Hp. reflexivity.
  - intros Hp Ht. unfold process_log_file, bind, lift.
    rewrite Hread, (filter_next_song_ok _ Hp).
    unfold load_filtered, bind, lift, convert_ts, getitem, has_column.
    cbn [columns]. unfold has_column in Ht. rewrite Ht. reflexivity.
Qed.

Lemma log_file_missing_page_or_ts_witness :
  process_log_file sample_read_json one_match_sink
    "data/song_data/empty.json" fresh_cursor =
  (Err (KeyError "page"), fresh_cursor).
Proof.
  apply (proj1 (log_file_missing_page_or_ts sample_read_json one_match_sink
                  "data/song_data/empty.json" (mkDataFrame [] [] [])
                  fresh_cursor eq_refl)).
  reflexivity.
Defined.

Lemma rmap_err {A B : Type} (f : A -> result B) (l : list A) (e : exn) :
  rmap f l = Err e -> exists x, In x l /\ f x = Err e.
Proof.
  induction l as [|x l IH]; simpl; [discriminate|].
  destruct (f x) as [y|e'] eqn:Ex; simpl.
  - destruct (rmap f l) as [ys|e'] eqn:El; simpl; [discriminate|].
    intros H. injection H as <-. destruct (IH eq_refl) as (x' & Hin & Hx').
    eauto.
  - intros H. injection H as <-. eauto.
Qed.

Lemma rmap_fails {A B : Type} (f : A -> result B) (l : list A) (x : A)
    (e0 : exn) :
  In x l -> f x = Err e0 -> exists e, rmap f l = Err e.
Proof.
  intros Hin Hx. destruct (rmap f l) as [ys|e] eqn:E; [|eauto].
  exfalso. apply rmap_ok in E. clear - Hin Hx E.
  induction E as [|a b l l' Hab _ IH]; [contradiction|].
  destruct Hin as [<- | Hin]; [congruence|auto].
Qed.

Lemma to_datetime_ms_out_of_range (ms : Z) :
  ms <> NaT ->
  ms * ns_per_ms < Timestamp_min \/ Timestamp_max < ms * ns_per_ms ->
  to_datetime_ms (VInt ms) = Err OutOfBoundsDatetime.
Proof.
  intros Hn Hout. unfold to_datetime_ms, is_NaT. cbn [missing epoch_ms].
  replace (ms =? NaT) with false by (symmetry; apply Z.eqb_neq; exact Hn).
  cbv zeta.
  destruct (Timestamp_min <=? ms * ns_per_ms) eqn:E1; [|reflexivity].
  destruct (ms * ns_per_ms <=? Timestamp_max) eqn:E2; [|reflexivity].
  apply Z.leb_le in E1, E2. lia.
Qed.

Lemma to_datetime_ms_int_error (v : value) (e : exn) :
  is_int v = true \/ v = VNone ->
  to_datetime_ms v = Err e -> e = OutOfBoundsDatetime.
Proof.
  intros [Hv | ->]; [|discriminate].
  destruct v; try discriminate. unfold to_datetime_ms.
  cbn [missing epoch_ms]. destruct (is_NaT z); [discriminate|]. cbv zeta.
  destruct (_ && _); [discriminate|]. intros H. injection H as <-.
  reflexivity.
Qed.

(** X6.  The timestamps of a file are converted before anything is
    inserted: when the [ts] of a single "NextSong" event is an integer
    number of milliseconds beyond the range of timestamps (and not the
    least 64-bit integer, which is [NaT]), the run fails and no row of the
    file reaches the database, not even of the events before that one.
    When the [ts] of the other events are integers or missing, the failure
    is [OutOfBoundsDatetime]. *)
Theorem log_file_bad_timestamp_loads_nothing
    (read_json : string -> result DataFrame)
    (sink : list call -> query -> list value -> response)
    (filepath : string) (df : DataFrame) (cur : Cursor) (r : row) (ms : Z) :
  read_json filepath = Ok df ->
  has_column df "page" = true ->
  In r (rows df) ->
  cell r "page" = VStr "NextSong" ->
  cell r "ts" = VInt ms ->
  ms <> NaT ->
  ms * ns_per_ms < Timestamp_min \/ Timestamp_max < ms * ns_per_ms ->
  (exists e,
     process_log_file read_json sink filepath cur = (Err e, cur)) /\
  (has_column df "ts" = true ->
   (forall r', In r' (rows df) -> cell r' "page" = VStr "NextSong" ->
               is_int (cell r' "ts") = true \/ cell r' "ts" = VNone) ->
   process_log_file read_json sink filepath cur =
   (Err OutOfBoundsDatetime, cur)).
Proof.
  intros Hread Hp Hin Hpage Hcell Hn Hout.
  pose proof (to_datetime_ms_out_of_range ms Hn Hout) as Hbad.
  unfold process_log_file, bind, lift.
  rewrite Hread, (filter_next_song_ok _ Hp).
  unfold load_filtered, bind, lift.
  set (df' := mkDataFrame _ _ _).
  assert (Hr : In r (rows df')).
  { cbn [rows df']. apply filter_In. split; [exact Hin|].
    apply eq_str_true. exact Hpage. }
  assert (Hfail : exists e, convert_ts df' = Err e).
  { destruct (convert_ts df') as [df1|e] eqn:Hconv; [|eauto].
    exfalso. destruct (convert_ts_all_rows _ _ r Hconv Hr) as (ns & Hns).
    unfold start_time in Hns. rewrite Hcell, Hbad in Hns. discriminate. }
  destruct Hfail as (e & Hfail). rewrite Hfail.
  split; [eauto|].
  intros Hts Hints. f_equal. f_equal.
  unfold convert_ts, getitem in Hfail.
  replace (has_column df' "ts") with true in Hfail by (symmetry; exact Hts).
  cbn [rbind] in Hfail.
  destruct (rmap to_datetime_ms _) as [dts|e1] eqn:E1.
  - exfalso. apply rmap_ok in E1.
    assert (Hc : In (cell r "ts") (map (fun r => cell r "ts") (rows df')))
      by (apply (in_map (fun r => cell r "ts")); exact Hr).
    clear - E1 Hc Hcell Hbad. rewrite Hcell in Hc.
    induction E1 as [|a b l l' Hab _ IH]; [contradiction|].
    destruct Hc as [-> | Hc]; [congruence|auto].
  - cbn [rbind] in Hfail. injection Hfail as <-.
    apply rmap_err in E1. destruct E1 as (v & Hv & Ev).
    apply in_map_iff in Hv. destruct Hv as (r' & <- & Hr').
    cbn [rows df'] in Hr'. apply filter_In in Hr'.
    destruct Hr' as [Hr'in Hr'page]. apply eq_str_true in Hr'page.
    eapply to_datetime_ms_int_error; [|exact Ev]. auto.
Qed.

Lemma log_file_bad_timestamp_loads_nothing_witness :
  (exists e,
     process_log_file (fun _ => Ok log_beyond_range) one_match_sink
       "data/log_data/events.json" fresh_cursor = (Err e, fresh_cursor)) /\
  (has_column log_beyond_range "ts" = true ->
   (forall r', In r' (rows log_beyond_range) ->
               cell r' "page" = VStr "NextSong" ->
               is_int (cell r' "ts") = true \/ cell r' "ts" = VNone) ->
   process_log_file (fun _ => Ok log_beyond_range) one_match_sink
     "data/log_data/events.json" fresh_cursor =
   (Err OutOfBoundsDatetime, fresh_cursor)).
Proof.
  apply (log_file_bad_timestamp_loads_nothing
           (fun _ => Ok log_beyond_range) one_match_sink
           "data/log_data/events.json" log_beyond_range fresh_cursor
           (log_row "NextSong" 9223372036855 "free" "Intro")
           9223372036855).
  - reflexivity.
  - reflexivity.
  - right. left. reflexivity.
  - reflexivity.
  - reflexivity.
  - discriminate.
  - right. reflexivity.
Defined.

(** ** Runs that go through *)

Section Loading.

Variable read_json : string -> result DataFrame.
Variable sink : list call -> query -> list value -> response.

Lemma songplay_step_inv cols r cur res cur' :
  songplay_step sink cols r cur = (res, cur') ->
  exists new,
    calls cur' = calls cur ++ new /\
    (new = [] \/ new = [(song_select, lookup_args r)] \/
     exists songid artistid, new = play_block (r, (songid, artistid))) /\
    (res = Ok tt ->
     exists songid artistid, new = play_block (r, (songid, artistid))).
Proof.
  unfold songplay_step. intros H.
  repeat match goal with
  | H : bind _ _ _ = _ |- _ =>
      let a := fresh "a" in let c := fresh "c" in
      let e := fresh "e" in let H1 := fresh "Hm" in
      apply bind_inv in H;
      destruct H as [(a & c & H1 & H) | (e & H1 & H)]
  | H : lift _ _ = _ |- _ =>
      apply lift_inv in H; destruct H as [? ?]; subst
  | H : fetchone _ = _ |- _ =>
      apply fetchone_inv in H; destruct H as [? ?]
  | H : execute _ _ _ _ = _ |- _ =>
      apply execute_inv in H; destruct H as [? _]
  | H : getattr _ _ _ = Ok _ |- _ => apply getattr_inv in H
  end.
  all: repeat match goal with
       | E : calls _ = _ |- _ => rewrite E; clear E
       end.
  all: rewrite <- ?app_assoc.
  all: subst.
  all: try (exists []; rewrite app_nil_r; split; [reflexivity|];
            split; [auto|discriminate]).
  all: try (eexists; split; [reflexivity|];
            split; [right; left; reflexivity|discriminate]).
  eexists; split; [reflexivity|]. unfold play_block, songplay_data, lookup_args.
  cbn [fst snd app]. split; [right; right|]; eauto.
Qed.

Lemma for_each_songplay_ok_inv cols rs :
  forall cur cur',
  for_each rs (songplay_step sink cols) cur = (Ok tt, cur') ->
  exists ids,
    List.length ids = List.length rs /\
    calls cur' = calls cur ++ flat_map play_block (combine rs ids).
Proof.
  induction rs as [|r rs IH]; intros cur cur' H; simpl in H.
  - injection H as <-. exists []. simpl. rewrite app_nil_r. auto.
  - apply bind_inv in H.
    destruct H as [([] & c1 & H1 & H) | (e & _ & Habs)]; [|discriminate].
    apply songplay_step_inv in H1.
    destruct H1 as (new & E1 & _ & Hok).
    destruct (Hok eq_refl) as (songid & artistid & ->).
    destruct (IH _ _ H) as (ids & Hlen & E2).
    exists ((songid, artistid) :: ids). split; [simpl; congruence|].
    rewrite E2, E1, <- app_assoc. reflexivity.
Qed.

Lemma stamped_user_data r ns : user_data (stamped r ns) = user_data r.
Proof. reflexivity. Qed.

Lemma stamped_lookup_args r ns : lookup_args (stamped r ns) = lookup_args r.
Proof. reflexivity. Qed.

Lemma converted_rows_stamped (df df1 : DataFrame) :
  convert_ts df = Ok df1 ->
  exists stamps,
    Forall2 (fun r ns => start_time r = Ok ns) (rows df) stamps /\
    rows df1 = map (fun p => stamped (fst p) (snd p)) (combine (rows df) stamps) /\
    columns df1 = columns df.
Proof.
  intros H. apply convert_ts_rows in H. destruct H as (_ & Hc & H).
  assert (E : exists stamps,
            Forall2 (fun r ns => start_time r = Ok ns) (rows df) stamps /\
            rows df1 =
              map (fun p => stamped (fst p) (snd p)) (combine (rows df) stamps)).
  { induction H as [|r r' rs rs' (ns & Hns & ->) _ (stamps & IH1 & IH2)].
    - exists []. split; constructor.
    - exists (ns :: stamps). split; [constructor; auto|].
      simpl. rewrite IH2. reflexivity. }
  destruct E as (stamps & E1 & E2). eauto.
Qed.

Lemma build_user_df_inv (df user_df : DataFrame) :
  build_user_df df = Ok user_df ->
  forallb (has_column df) user_columns = true.
Proof.
  unfold build_user_df. intros H.
  destruct (forallb (has_column df) user_columns) eqn:E; [reflexivity|].
  destruct (getitems_missing _ _ E) as (c & Ec). rewrite Ec in H.
  discriminate.
Qed.

Lemma record_dtype_converted (df df1 : DataFrame) :
  convert_ts df = Ok df1 ->
  record_dtype df1 user_columns = record_dtype df user_columns.
Proof.
  intros H. apply convert_ts_dtypes in H.
  unfold record_dtype, dtype_of. rewrite H. reflexivity.
Qed.

(** A frame with a column of timestamps is no array of numbers. *)
Lemma frame_dtype_converted (df df1 : DataFrame) :
  convert_ts df = Ok df1 -> frame_dtype df1 <> float64.
Proof.
  intros H. pose proof (convert_ts_dtypes _ _ H) as Hd.
  destruct (convert_ts_rows _ _ H) as (Hts & Hcols & _).
  assert (Hin : In datetime64 (map (dtype_of df1) (columns df1))).
  { unfold has_column in Hts. apply existsb_exists in Hts.
    destruct Hts as (c & Hc & E). apply String.eqb_eq in E. subst c.
    apply in_map_iff. exists "ts". split; [|rewrite Hcols; exact Hc].
    unfold dtype_of. rewrite Hd. reflexivity. }
  unfold frame_dtype, common_dtype.
  assert (F : forall p : dtype -> bool, p datetime64 = false ->
                forallb p (map (dtype_of df1) (columns df1)) = false).
  { intros p Hp. destruct (forallb p _) eqn:E; [|reflexivity].
    rewrite forallb_forall in E. rewrite (E _ Hin) in Hp. discriminate. }
  rewrite !F by reflexivity. destruct (forallb _ _); discriminate.
Qed.

(** A pass of the songplay loop that goes through has found its nine
    attributes. *)
Lemma songplay_step_attrs cols r cur cur' :
  songplay_step sink cols r cur = (Ok tt, cur') ->
  Forall (fun name => In name cols) songplay_attrs.
Proof.
  unfold songplay_step. intros H.
  assert (Hget : forall name v, getattr cols r name = Ok v -> In name cols).
  { intros name v. unfold getattr.
    destruct (existsb (String.eqb name) cols) eqn:E; [|discriminate].
    intros _. apply existsb_exists in E. destruct E as (c & Hc & E).
    apply String.eqb_eq in E. subst c. exact Hc. }
  repeat match goal with
  | H : bind _ _ _ = (Ok tt, _) |- _ =>
      let a := fresh "a" in let c := fresh "c" in
      let H1 := fresh "Hm" in
      apply bind_inv in H;
      destruct H as [(a & c & H1 & H) | (? & _ & ?)]; [|discriminate]
  | H : lift (getattr _ _ _) _ = _ |- _ =>
      apply lift_inv in H; destruct H as [H _]; apply Hget in H
  end.
  repeat (apply Forall_cons; [assumption|]). apply Forall_nil.
Qed.

(** The calls of a run of [load_filtered] that goes through. *)
Lemma load_filtered_ok_inv df cur cur' :
  load_filtered sink df cur = (Ok tt, cur') ->
  exists df1 stamps ids,
    convert_ts df = Ok df1 /\
    Forall2 (fun r ns => start_time r = Ok ns) (rows df) stamps /\
    rows df1 =
      map (fun p => stamped (fst p) (snd p)) (combine (rows df) stamps) /\
    List.length ids = List.length (rows df) /\
    (rows df = [] \/ Forall (fun name => In name (columns df)) songplay_attrs)
    /\
    calls cur' =
      calls cur ++
      map (fun t => (time_table_insert, t)) (time_rows stamps) ++
      map (fun u => (user_table_insert, u))
          (map (as_series (record_dtype df user_columns))
               (keep_first [] (map user_data (rows df)))) ++
      flat_map play_block (combine (iterrows df1) ids).
Proof.
  unfold load_filtered. intros H.
  apply bind_inv in H.
  destruct H as [(df1 & c1 & H1 & H) | (e & _ & Habs)]; [|discriminate].
  apply lift_inv in H1. destruct H1 as [Hconv ->].
  destruct (converted_rows_stamped _ _ Hconv) as (stamps & Hst & Hrows & Hcols).
  assert (Hts : has_column df1 "ts" = true).
  { destruct (convert_ts_rows _ _ Hconv) as (Hts & Hc & _).
    unfold has_column in *. rewrite Hc. exact Hts. }
  assert (Hcells : map (fun r => cell r "ts") (rows df1) = map VTimestamp stamps).
  { rewrite Hrows. clear - Hst.
    induction Hst as [|r ns rs nss _ _ IH]; [reflexivity|].
    simpl. rewrite IH. reflexivity. }
  destruct (build_time_df_rows _ _ Hts Hcells)
    as (tdf & Htdf & Htc & _ & Htr).
  rewrite Htdf in H.
  apply bind_inv in H.
  destruct H as [(tdf' & c2 & H1 & H) | (e & _ & Habs)]; [|discriminate].
  apply lift_inv in H1. destruct H1 as [E ->]. injection E as <-.
  apply bind_inv in H.
  destruct H as [([] & c3 & Ht & H) | (e & _ & Habs)]; [|discriminate].
  apply for_each_execute_inv in Ht.
  destruct Ht as (done & rest & Erows & Ec3 & Hrest).
  specialize (Hrest eq_refl). subst rest. rewrite app_nil_r in Erows.
  subst done.
  apply bind_inv in H.
  destruct H as [(user_df & c4 & H1 & H) | (e & _ & Habs)]; [|discriminate].
  apply lift_inv in H1. destruct H1 as [Hu ->].
  pose proof (build_user_df_inv _ _ Hu) as Hucols.
  destruct (build_user_df_rows _ Hucols) as (udf & Hu' & Huc & Hud & Hur).
  rewrite Hu in Hu'. injection Hu' as <-.
  apply bind_inv in H.
  destruct H as [([] & c5 & Hus & H) | (e & _ & Habs)]; [|discriminate].
  apply for_each_execute_inv in Hus.
  destruct Hus as (done & rest & Erows & Ec5 & Hrest).
  specialize (Hrest eq_refl). subst rest. rewrite app_nil_r in Erows.
  subst done.
  assert (Hattrs : rows df = [] \/
                   Forall (fun name => In name (columns df)) songplay_attrs).
  { destruct (iterrows df1) as [|r1 rs1] eqn:Eit.
    - left. apply length_zero_iff_nil.
      rewrite (Forall2_length_eq _ _ _ Hst).
      replace (List.length stamps) with (List.length (rows df1)).
      + rewrite <- iterrows_length, Eit. reflexivity.
      + rewrite Hrows, length_map, length_combine,
          <- (Forall2_length_eq _ _ _ Hst). apply Nat.min_id.
    - right. simpl in H. apply bind_inv in H.
      destruct H as [([] & c6 & H1 & _) | (e & _ & Habs)]; [|discriminate].
      rewrite <- Hcols. eapply songplay_step_attrs; eauto. }
  apply for_each_songplay_ok_inv in H.
  destruct H as (ids & Hlen & Ecur').
  exists df1, stamps, ids. split; [exact Hconv|]. split; [exact Hst|].
  split; [exact Hrows|]. split; [|split; [exact Hattrs|]].
  - rewrite Hlen, iterrows_length, Hrows, length_map, length_combine.
    rewrite <- (Forall2_length_eq _ _ _ Hst). apply Nat.min_id.
  - rewrite Ecur', Ec5, Ec3, <- !app_assoc. f_equal.
    f_equal; [|f_equal].
    + rewrite <- (map_map series_values (fun v => (time_table_insert, v))).
      rewrite Htr. reflexivity.
    + rewrite <- (map_map series_values (fun v => (user_table_insert, v))).
      f_equal. rewrite series_values_iterrows.
      assert (Efd : frame_dtype user_df = record_dtype df user_columns).
      { unfold frame_dtype. rewrite Huc.
        rewrite <- (record_dtype_converted _ _ Hconv).
        unfold record_dtype, dtype_of. rewrite Hud. reflexivity. }
      rewrite Efd, Huc.
      rewrite <- (map_map (row_values user_columns)
                    (as_series (record_dtype df user_columns))).
      rewrite Hur. f_equal. f_equal.
      change (row_values user_columns) with user_data.
      rewrite Hrows, map_map. clear - Hst.
      induction Hst as [|r ns rs nss _ _ IH]; [reflexivity|].
      simpl. rewrite IH. reflexivity.
Qed.

(** The rows the songplay loop goes through, for a frame of "NextSong"
    events: their cells are those of the events, with the instant as
    [ts]. *)
Lemma iterrows_of_events (df df1 : DataFrame) (stamps : list Z) :
  convert_ts df = Ok df1 ->
  rows df1 = map (fun p => stamped (fst p) (snd p)) (combine (rows df) stamps) ->
  In "page" (columns df) ->
  (forall r, In r (rows df) -> cell r "page" = VStr "NextSong") ->
  Forall2 (fun r1 r' => forall c, In c (columns df) -> cell r' c = cell r1 c)
          (rows df1) (iterrows df1).
Proof.
  intros Hconv Hrows Hpage Hevents.
  pose proof (frame_dtype_converted _ _ Hconv) as Hfd.
  destruct (convert_ts_rows _ _ Hconv) as (_ & Hcols & _).
  assert (Hall : forall r1, In r1 (rows df1) ->
                            cell r1 "page" = VStr "NextSong").
  { intros r1 Hr1. rewrite Hrows in Hr1. apply in_map_iff in Hr1.
    destruct Hr1 as ([r ns] & <- & Hp). apply in_combine_l in Hp.
    cbn [fst snd]. unfold stamped.
    rewrite cell_set_cell_other by discriminate. apply Hevents. exact Hp. }
  rewrite iterrows_map. clear Hrows.
  induction (rows df1) as [|r1 rs IH]; [constructor|].
  cbn [map]. constructor; [|apply IH; intros r Hr; apply Hall; right; exact Hr].
  intros c Hc. destruct (iterrows_row df1 r1) as [_ Hkeep].
  apply Hkeep; [exact Hfd| |rewrite Hcols; exact Hc].
  exists "page". split; [rewrite Hcols; exact Hpage|].
  rewrite (Hall r1) by (left; reflexivity). reflexivity.
Qed.

Lemma play_block_cells (r r' : row) (ids : value * value) :
  (forall c, In c songplay_attrs -> cell r' c = cell r c) ->
  play_block (r', ids) = play_block (r, ids).
Proof.
  intros H. unfold play_block, lookup_args, songplay_data. cbn [fst snd].
  rewrite !H by (simpl; tauto). reflexivity.
Qed.

Lemma play_blocks_cells (rs rs' : list row) (P : string -> Prop) :
  (forall c, In c songplay_attrs -> P c) ->
  Forall2 (fun r r' => forall c, P c -> cell r' c = cell r c) rs rs' ->
  forall ids,
  flat_map play_block (combine rs' ids) = flat_map play_block (combine rs ids).
Proof.
  intros HP H. induction H as [|r r' rs rs' Hr _ IH]; intros ids;
    [reflexivity|].
  destruct ids as [|id ids]; [reflexivity|].
  cbn [combine flat_map]. rewrite IH. f_equal.
  apply play_block_cells. intros c Hc. apply Hr, HP, Hc.
Qed.

Lemma emitted_select_blocks ps :
  emitted song_select (flat_map play_block ps) =
  map (fun p => lookup_args (fst p)) ps.
Proof.
  induction ps as [|p ps IH]; [reflexivity|].
  simpl. unfold emitted in *. simpl. f_equal. exact IH.
Qed.

Lemma emitted_fact_blocks ps :
  emitted songplay_table_insert (flat_map play_block ps) =
  map (fun p => songplay_data (fst p) (fst (snd p)) (snd (snd p))) ps.
Proof.
  induction ps as [|p ps IH]; [reflexivity|].
  simpl. unfold emitted in *. simpl. f_equal. exact IH.
Qed.

Lemma map_fst_combine {A B : Type} (l : list A) (l' : list B) :
  List.length l' = List.length l -> map fst (combine l l') = l.
Proof.
  revert l'. induction l as [|x l IH]; intros [|y l'] H; simpl in *;
    try discriminate; [reflexivity|].
  f_equal. apply IH. congruence.
Qed.

Lemma process_log_file_ok_inv filepath df0 cur cur' :
  read_json filepath = Ok df0 ->
  process_log_file read_json sink filepath cur = (Ok tt, cur') ->
  has_column df0 "page" = true /\
  load_filtered sink
    (mkDataFrame (columns df0) (dtypes df0) (filter is_next_song (rows df0)))
    cur =
  (Ok tt, cur').
Proof.
  intros Hread H. unfold process_log_file, bind, lift in H.
  rewrite Hread in H.
  destruct (has_column df0 "page") eqn:Hp.
  - rewrite (filter_next_song_ok _ Hp) in H. auto.
  - unfold filter_next_song, getitem in H. rewrite Hp in H. discriminate.
Qed.

End Loading.

Lemma subsequence_length {A : Type} (l1 l2 : list A) :
  subsequence l1 l2 -> (List.length l1 <= List.length l2)%nat.
Proof. induction 1; simpl; lia. Qed.

(** A row that holds an integer or a string is kept as it is. *)
Lemma infer_datetimelike_plain (vs : list value) :
  existsb (fun v => negb (is_timestamp v || missing v)) vs = true ->
  infer_datetimelike vs = vs.
Proof.
  intros H. apply existsb_exists in H. destruct H as (v & Hin & Hv).
  apply negb_true_iff in Hv. unfold infer_datetimelike.
  destruct (forallb (fun v => is_timestamp v || missing v) vs) eqn:E;
    [|reflexivity].
  rewrite forallb_forall in E. rewrite (E v Hin) in Hv. discriminate.
Qed.

Lemma as_series_given (d : dtype) (r : row) :
  names_its_user r = true ->
  as_series d (user_data r) = map (astype d) (user_data r).
Proof.
  unfold names_its_user. intros H.
  unfold as_series. destruct d; try reflexivity.
  rewrite map_astype_object. cbn [row_series].
  apply infer_datetimelike_plain, existsb_exists. unfold user_data.
  destruct (is_int (cell r "userId")) eqn:Eu.
  - exists (cell r "userId"). split; [left; reflexivity|].
    destruct (cell r "userId"); try discriminate Eu. reflexivity.
  - exists (cell r "level"). split; [simpl; tauto|].
    destruct (cell r "level"); cbn in H; try discriminate H. reflexivity.
Qed.

Lemma has_column_In (df : DataFrame) (c : string) :
  has_column df c = true -> In c (columns df).
Proof.
  unfold has_column. intros H. apply existsb_exists in H.
  destruct H as (c' & Hc & E). apply String.eqb_eq in E. subst c'. exact Hc.
Qed.

Lemma is_next_song_page (r : row) :
  is_next_song r = true -> cell r "page" = VStr "NextSong".
Proof.
  unfold is_next_song, eq_str. destruct (cell r "page"); try discriminate.
  intros H. apply String.eqb_eq in H. subst. reflexivity.
Qed.

Lemma time_calls_only (ts : list (list value)) (us : list (list value)) :
  Forall (fun c => fst c = time_table_insert \/ fst c = user_table_insert)
    (map (fun t => (time_table_insert, t)) ts ++
     map (fun u => (user_table_insert, u)) us).
Proof. apply Forall_app. split; apply Forall_map, Forall_forall; auto. Qed.

(** X7.  In a run of [process_log_file] that returns on a file whose
    "NextSong" events all have an integer as [userId] or "free" or "paid"
    as [level], the rows handed to the user insert are the user data of
    these events with every repetition after the first left out, each
    brought to the common dtype of the five user columns of the file.
    Unless these five columns are all numeric and one of them holds
    floats, the rows are the events' cells themselves: no row goes twice
    and every event's user data is among them.  There are at most as many
    rows as events. *)
Theorem completed_log_file_user_rows
    (read_json : string -> result DataFrame)
    (sink : list call -> query -> list value -> response)
    (filepath : string) (df0 : DataFrame) (cur cur' : Cursor) :
  read_json filepath = Ok df0 ->
  process_log_file read_json sink filepath cur = (Ok tt, cur') ->
  (forall r, In r (rows df0) -> is_next_song r = true ->
             names_its_user r = true) ->
  exists new,
    calls cur' = calls cur ++ new /\
    let events := filter is_next_song (rows df0) in
    let d := record_dtype df0 user_columns in
    let users := emitted user_table_insert new in
    users = map (map (astype d)) (keep_first [] (map user_data events)) /\
    (d <> float64 ->
     users = keep_first [] (map user_data events) /\
     NoDup users /\
     (forall u, In u users <-> In u (map user_data events))) /\
    (List.length users <= List.length events)%nat.
Proof.
  intros Hread Hrun Hgiven.
  destruct (process_log_file_ok_inv _ _ _ _ _ _ Hread Hrun) as [_ H].
  apply load_filtered_ok_inv in H. cbn [rows] in H.
  destruct H as (df1 & stamps & ids & _ & _ & _ & _ & _ & Hcalls).
  eexists. split; [exact Hcalls|]. cbv zeta.
  change (record_dtype
            (mkDataFrame (columns df0) (dtypes df0)
               (filter is_next_song (rows df0))) user_columns)
    with (record_dtype df0 user_columns).
  set (events := filter is_next_song (rows df0)).
  set (d := record_dtype df0 user_columns).
  assert (Hseries :
            map (as_series d) (keep_first [] (map user_data events)) =
            map (map (astype d)) (keep_first [] (map user_data events))).
  { apply map_ext_in. intros u Hu. apply keep_in in Hu.
    destruct Hu as [Hu _]. apply in_map_iff in Hu.
    destruct Hu as (r & <- & Hr). apply filter_In in Hr.
    apply as_series_given, Hgiven; tauto. }
  assert (E : emitted user_table_insert
                (map (fun t => (time_table_insert, t)) (time_rows stamps) ++
                 map (fun u => (user_table_insert, u))
                   (map (as_series d)
                      (keep_first [] (map user_data events))) ++
                 flat_map play_block (combine (iterrows df1) ids)) =
              map (map (astype d)) (keep_first [] (map user_data events))).
  { rewrite !emitted_app, (emitted_same user_table_insert (fun u => u)).
    rewrite map_id, emitted_none, emitted_none, app_nil_r; [exact Hseries| |].
    - clear. induction (combine _ ids) as [|p ps IH]; simpl;
        repeat constructor; auto.
    - apply Forall_map, Forall_forall. reflexivity. }
  rewrite E. split; [reflexivity|]. split.
  - intros Hd.
    assert (Eid : map (map (astype d)) (keep_first [] (map user_data events))
                  = keep_first [] (map user_data events)).
    { rewrite <- (map_id (keep_first [] (map user_data events))) at 2.
      apply map_ext. intros u. apply map_astype_not_float. exact Hd. }
    rewrite Eid. split; [reflexivity|]. split; [apply keep_nodup|].
    intros u. rewrite keep_in. simpl. tauto.
  - rewrite length_map, <- (length_map user_data events).
    apply subsequence_length, keep_subsequence.
Qed.

Lemma completed_log_file_user_rows_witness :
  exists new,
    calls (snd sample_run) = calls fresh_cursor ++ new /\
    let events := filter is_next_song (rows sample_log) in
    let d := record_dtype sample_log user_columns in
    let users := emitted user_table_insert new in
    users = map (map (astype d)) (keep_first [] (map user_data events)) /\
    (d <> float64 ->
     users = keep_first [] (map user_data events) /\
     NoDup users /\
     (forall u, In u users <-> In u (map user_data events))) /\
    (List.length users <= List.length events)%nat.
Proof.
  apply (completed_log_file_user_rows sample_read_json one_match_sink
           "data/log_data/events.json" sample_log fresh_cursor
           (snd sample_run)).
  - reflexivity.
  - vm_compute. reflexivity.
  - intros r Hr _. vm_compute in Hr.
    repeat (destruct Hr as [<- | Hr]; [reflexivity|]). destruct Hr.
Defined.

(** On a file whose five user columns are numeric, the user row of an
    event that has 15 as [userId], 1 as [level] and no names goes to the
    insert as the floats 15.0, NaN, NaN, NaN and 1.0. *)
Example numeric_user_row_is_coerced :
  exists cur',
    process_log_file (fun _ => Ok log_of_numeric_users) one_match_sink
      "data/log_data/events.json" fresh_cursor = (Ok tt, cur') /\
    emitted user_table_insert (calls cur') =
      [[VFloat 4624633867356078080; VNone; VNone; VNone;
        VFloat 4607182418800017408]].
Proof. eexists. split; vm_compute; reflexivity. Qed.



Section Success.

Variable read_json : string -> result DataFrame.
Variable sink : list call -> query -> list value -> response.

Lemma bind_ok {A B : Type} (m : M A) (k : A -> M B) cur a cur1 :
  m cur = (Ok a, cur1) -> bind m k cur = k a cur1.
Proof. intros H. unfold bind. rewrite H. reflexivity. Qed.

Lemma bind_err {A B : Type} (m : M A) (k : A -> M B) cur e cur1 :
  m cur = (Err e, cur1) -> bind m k cur = (Err e, cur1).
Proof. intros H. unfold bind. rewrite H. reflexivity. Qed.

Lemma accepting_unpack hist args :
  accepting sink ->
  exists rs songid artistid,
    sink hist song_select args = Rows rs /\
    unpack_results (hd_error rs) = Ok (songid, artistid).
Proof.
  intros Hacc. destruct (Hacc hist song_select args) as (rs & E & Hrows).
  specialize (Hrows eq_refl). exists rs.
  destruct Hrows as [|r rs' (songid & artistid & ->) _]; simpl; eauto.
Qed.

Lemma songplay_step_ok cols r cur :
  accepting sink ->
  Forall (fun name => In name cols) songplay_attrs ->
  exists cur' songid artistid,
    songplay_step sink cols r cur = (Ok tt, cur') /\
    calls cur' = calls cur ++ play_block (r, (songid, artistid)).
Proof.
  intros Hacc Hattrs. rewrite Forall_forall in Hattrs.
  assert (Hget : forall name, In name songplay_attrs ->
                              getattr cols r name = Ok (cell r name)).
  { intros name Hname. apply getattr_present. auto. }
  destruct (accepting_unpack (calls cur) (lookup_args r) Hacc)
    as (rs & songid & artistid & Hsel & Hun).
  destruct (Hacc (calls cur ++ [(song_select, lookup_args r)])
              songplay_table_insert (songplay_data r songid artistid))
    as (rs' & Hins & _).
  exists (mkCursor (calls cur ++ play_block (r, (songid, artistid))) rs'),
         songid, artistid.
  split; [|reflexivity].
  unfold songplay_step, bind, lift.
  rewrite (Hget "song"), (Hget "artist"), (Hget "length") by (simpl; tauto).
  unfold execute at 1. fold (lookup_args r). rewrite Hsel.
  unfold fetchone. cbn [pending calls].
  assert (Hfetch :
    (match rs with
     | [] => (Ok None, mkCursor (calls cur ++ [(song_select, lookup_args r)]) rs)
     | r0 :: rs0 =>
         (Ok (Some r0),
          mkCursor (calls cur ++ [(song_select, lookup_args r)]) rs0)
     end) =
    (Ok (hd_error rs),
     mkCursor (calls cur ++ [(song_select, lookup_args r)]) (tl rs))).
  { destruct rs; reflexivity. }
  rewrite Hfetch, Hun. cbn [fst snd].
  rewrite (Hget "ts"), (Hget "userId"), (Hget "level"), (Hget "sessionId"),
    (Hget "location"), (Hget "userAgent") by (simpl; tauto).
  unfold execute. cbn [calls]. fold (songplay_data r songid artistid).
  rewrite Hins. unfold play_block. cbn [fst snd].
  rewrite <- app_assoc. reflexivity.
Qed.

Lemma for_each_songplay_ok cols rs :
  accepting sink ->
  Forall (fun name => In name cols) songplay_attrs ->
  forall cur,
  exists cur', for_each rs (songplay_step sink cols) cur = (Ok tt, cur').
Proof.
  intros Hacc Hattrs. induction rs as [|r rs IH]; intros cur; simpl.
  - exists cur. reflexivity.
  - destruct (songplay_step_ok cols r cur Hacc Hattrs)
      as (c1 & a & b & E & _).
    rewrite (bind_ok _ _ _ _ _ E). apply IH.
Qed.

Lemma convertible_start_time (r : row) :
  convertible_ts r -> exists ns, start_time r = Ok ns /\ is_NaT ns = false.
Proof.
  intros (ms & Hc & Hlo & Hhi).
  pose proof (Z.mod_pos_bound (- (ms * ns_per_ms)) ns_per_s eq_refl) as Hm.
  eexists. split.
  - apply (start_time_int r ms Hc Hlo). unfold ns_per_s in *. lia.
  - unfold is_NaT, NaT. apply Z.eqb_neq. unfold Timestamp_min in Hlo. lia.
Qed.

Lemma Forall_start_times (rs : list row) :
  Forall convertible_ts rs ->
  exists stamps,
    Forall2 (fun r ns => start_time r = Ok ns) rs stamps /\
    existsb is_NaT stamps = false.
Proof.
  induction 1 as [|r rs Hr _ (stamps & IH & Hn)].
  - exists []. split; [constructor|reflexivity].
  - destruct (convertible_start_time r Hr) as (ns & Hns & Hnat).
    exists (ns :: stamps). split; [constructor; auto|].
    simpl. rewrite Hnat. exact Hn.
Qed.

End Success.

(** X9.  A log file loads completely when its frame has the columns the
    function reads, the [ts] of every "NextSong" event is an integer that
    fits a timestamp, and the database takes every statement and answers
    the lookups with rows of two columns.  Rows of other pages may hold
    anything. *)
Theorem well_formed_log_file_loads
    (read_json : string -> result DataFrame)
    (sink : list call -> query -> list value -> response)
    (filepath : string) (df0 : DataFrame) (cur : Cursor) :
  read_json filepath = Ok df0 ->
  Forall (fun c => has_column df0 c = true) log_file_columns ->
  (forall r, In r (rows df0) -> cell r "page" = VStr "NextSong" ->
             convertible_ts r) ->
  accepting sink ->
  exists cur',
    process_log_file read_json sink filepath cur = (Ok tt, cur').
Proof.
  intros Hread Hcols Hts Hacc.
  rewrite Forall_forall in Hcols.
  assert (Hp : has_column df0 "page" = true) by (apply Hcols; simpl; tauto).
  unfold process_log_file.
  rewrite (bind_ok _ _ _ _ _ (f_equal (fun r => (r, cur)) Hread)).
  rewrite (bind_ok _ _ _ _ _
             (f_equal (fun r => (r, cur)) (filter_next_song_ok _ Hp))).
  set (df := mkDataFrame (columns df0) _ _).
  assert (Hconv : Forall convertible_ts (rows df)).
  { apply Forall_forall. intros r Hr. cbn [rows df] in Hr.
    apply filter_In in Hr. destruct Hr as [Hin Hpage].
    apply Hts; [exact Hin|]. apply eq_str_true. exact Hpage. }
  destruct (Forall_start_times _ Hconv) as (stamps & Hst & _).
  assert (Htscol : has_column df "ts" = true).
  { apply (Hcols "ts"). simpl. tauto. }
  pose proof (convert_ts_total df stamps Htscol Hst) as Ec.
  set (df1 := mkDataFrame (columns df) _ _) in Ec.
  unfold load_filtered.
  rewrite (bind_ok _ _ _ _ _ (f_equal (fun r => (r, cur)) Ec)).
  destruct (converted_rows _ _ Ec) as (stamps' & _ & Hcells).
  destruct (build_time_df_rows df1 stamps' Htscol Hcells)
    as (tdf & Htdf & _).
  rewrite (bind_ok _ _ _ _ _ (f_equal (fun r => (r, cur)) Htdf)).
  destruct (for_each_execute_ok sink time_table_insert
              series_values (iterrows tdf)
              (fun hist args =>
                 let (rs, H) := Hacc hist time_table_insert args in
                 ex_intro _ rs (proj1 H)) cur) as (c1 & E1 & _).
  rewrite (bind_ok _ _ _ _ _ E1).
  assert (Hu : forallb (has_column df1) user_columns = true).
  { apply forallb_forall. intros c Hc. apply (Hcols c).
    unfold log_file_columns. right. apply in_or_app. left. exact Hc. }
  destruct (build_user_df_rows df1 Hu) as (udf & Hudf & _).
  rewrite (bind_ok _ _ _ _ _ (f_equal (fun r => (r, c1)) Hudf)).
  destruct (for_each_execute_ok sink user_table_insert
              series_values (iterrows udf)
              (fun hist args =>
                 let (rs, H) := Hacc hist user_table_insert args in
                 ex_intro _ rs (proj1 H)) c1) as (c2 & E2 & _).
  rewrite (bind_ok _ _ _ _ _ E2).
  apply for_each_songplay_ok; [exact Hacc|].
  apply Forall_forall. intros name Hname.
  assert (H : has_column df0 name = true).
  { apply Hcols. unfold log_file_columns. right. apply in_or_app.
    right. exact Hname. }
  unfold has_column in H. apply existsb_exists in H.
  destruct H as (c & Hin & Heq). apply String.eqb_eq in Heq. subst c.
  exact Hin.
Qed.

Lemma one_match_sink_accepting : accepting one_match_sink.
Proof.
  intros hist q args. destruct q; simpl;
    try (exists []; split; [reflexivity|discriminate]).
  destruct (values_eq_dec args setanta_lookup).
  - eexists. split; [reflexivity|]. intros _. repeat constructor. eauto.
  - exists []. split; [reflexivity|]. intros _. constructor.
Qed.

Lemma well_formed_log_file_loads_witness :
  exists cur',
    process_log_file sample_read_json one_match_sink
      "data/log_data/events.json" fresh_cursor = (Ok tt, cur').
Proof.
  apply (well_formed_log_file_loads sample_read_json one_match_sink
           "data/log_data/events.json" sample_log fresh_cursor).
  - reflexivity.
  - repeat (apply Forall_cons; [reflexivity|]). apply Forall_nil.
  - intros r [<- | [<- | [<- | [<- | []]]]] Hpage; try discriminate Hpage.
    + exists 1541990258000. repeat split; vm_compute; discriminate.
    + exists 1541990258500. repeat split; vm_compute; discriminate.
    + exists 1541990258500. repeat split; vm_compute; discriminate.
  - exact one_match_sink_accepting.
Defined.

(** X10.  A log file whose events convert but whose frame lacks one of the
    five user columns is loaded in part: with a database that takes the
    time inserts, every time row of the file is inserted, and then the run
    fails with [KeyError] on the missing column, before any user row,
    lookup or fact. *)
Theorem log_file_missing_user_column
    (read_json : string -> result DataFrame)
    (sink : list call -> query -> list value -> response)
    (filepath : string) (df0 : DataFrame) (cur : Cursor) :
  read_json filepath = Ok df0 ->
  has_column df0 "page" = true ->
  has_column df0 "ts" = true ->
  (forall r, In r (rows df0) -> cell r "page" = VStr "NextSong" ->
             convertible_ts r) ->
  forallb (has_column df0) user_columns = false ->
  (forall hist args, exists rs, sink hist time_table_insert args = Rows rs) ->
  exists c cur' stamps,
    In c user_columns /\ has_column df0 c = false /\
    process_log_file read_json sink filepath cur = (Err (KeyError c), cur') /\
    Forall2 (fun r ns => start_time r = Ok ns)
            (filter is_next_song (rows df0)) stamps /\
    calls cur' =
      calls cur ++ map (fun ns => (time_table_insert, time_data ns)) stamps.
Proof.
  intros Hread Hp Htscol Hts Hu Htime.
  unfold process_log_file.
  rewrite (bind_ok _ _ _ _ _ (f_equal (fun r => (r, cur)) Hread)).
  rewrite (bind_ok _ _ _ _ _
             (f_equal (fun r => (r, cur)) (filter_next_song_ok _ Hp))).
  fold is_next_song.
  set (df := mkDataFrame (columns df0) _ _).
  assert (Hconv : Forall convertible_ts (rows df)).
  { apply Forall_forall. intros r Hr. cbn [rows df] in Hr.
    apply filter_In in Hr. destruct Hr as [Hin Hpage].
    apply Hts; [exact Hin|]. apply eq_str_true. exact Hpage. }
  destruct (Forall_start_times _ Hconv) as (stamps & Hst & Hnat).
  pose proof (convert_ts_total df stamps Htscol Hst) as Ec.
  set (df1 := mkDataFrame (columns df) _ _) in Ec.
  unfold load_filtered.
  rewrite (bind_ok _ _ _ _ _ (f_equal (fun r => (r, cur)) Ec)).
  assert (Hcells : map (fun r => cell r "ts") (rows df1) = map VTimestamp stamps).
  { cbn [rows df1]. clear - Hst.
    induction Hst as [|r ns rs nss _ _ IH]; [reflexivity|].
    simpl. rewrite IH. reflexivity. }
  destruct (build_time_df_rows df1 stamps Htscol Hcells)
    as (tdf & Htdf & _ & _ & Htr).
  rewrite (bind_ok _ _ _ _ _ (f_equal (fun r => (r, cur)) Htdf)).
  destruct (for_each_execute_ok sink time_table_insert
              series_values (iterrows tdf) Htime cur)
    as (c1 & E1 & Ecalls).
  rewrite (bind_ok _ _ _ _ _ E1).
  destruct (getitems_missing_in df1 user_columns Hu) as (c & Hin & Hc & Eg).
  exists c, c1, stamps.
  split; [exact Hin|]. split; [exact Hc|]. split.
  - apply bind_err. unfold lift, build_user_df. rewrite Eg. reflexivity.
  - split; [exact Hst|]. rewrite Ecalls. f_equal.
    rewrite <- (map_map series_values (fun v => (time_table_insert, v))).
    rewrite Htr, (time_rows_without_NaT _ Hnat), map_map. reflexivity.
Qed.

Lemma log_file_missing_user_column_witness :
  exists c cur' stamps,
    In c user_columns /\ has_column log_without_names c = false /\
    process_log_file (fun _ => Ok log_without_names) one_match_sink
      "data/log_data/events.json" fresh_cursor = (Err (KeyError c), cur') /\
    Forall2 (fun r ns => start_time r = Ok ns)
            (filter is_next_song (rows log_without_names)) stamps /\
    calls cur' =
      calls fresh_cursor ++
      map (fun ns => (time_table_insert, time_data ns)) stamps.
Proof.
  apply (log_file_missing_user_column (fun _ => Ok log_without_names)
           one_match_sink "data/log_data/events.json" log_without_names
           fresh_cursor).
  - reflexivity.
  - reflexivity.
  - reflexivity.
  - intros r [<- | [<- | [<- | [<- | []]]]] Hpage; try discriminate Hpage.
    + exists 1541990258000. repeat split; vm_compute; discriminate.
    + exists 1541990258500. repeat split; vm_compute; discriminate.
    + exists 1541990258500. repeat split; vm_compute; discriminate.
  - reflexivity.
  - intros hist args. exists []. reflexivity.
Defined.

(** X11.  A log file without any "NextSong" event, whose frame has the
    [page], [ts] and user columns, is processed without a single statement
    and without error, whatever its other columns and cells. *)
Theorem log_file_without_plays_is_a_no_op
    (read_json : string -> result DataFrame)
    (sink : list call -> query -> list value -> response)
    (filepath : string) (df0 : DataFrame) (cur : Cursor) :
  read_json filepath = Ok df0 ->
  has_column df0 "page" = true ->
  has_column df0 "ts" = true ->
  forallb (has_column df0) user_columns = true ->
  (forall r, In r (rows df0) -> cell r "page" <> VStr "NextSong") ->
  process_log_file read_json sink filepath cur = (Ok tt, cur).
Proof.
  intros Hread Hp Hts Hu Hnone.
  assert (E : filter (fun r => eq_str "NextSong" (cell r "page")) (rows df0)
              = []).
  { induction (rows df0) as [|r rs IH]; [reflexivity|]. simpl.
    destruct (eq_str "NextSong" (cell r "page")) eqn:Er.
    - apply eq_str_true in Er. exfalso. apply (Hnone r); simpl; auto.
    - apply IH. intros r' Hr'. apply Hnone. simpl; auto. }
  assert (Hnil : forall df : DataFrame, rows df = [] -> iterrows df = []).
  { intros df Hdf. apply length_zero_iff_nil.
    rewrite iterrows_length, Hdf. reflexivity. }
  unfold process_log_file.
  rewrite (bind_ok _ _ _ _ _ (f_equal (fun r => (r, cur)) Hread)).
  rewrite (bind_ok _ _ _ _ _
             (f_equal (fun r => (r, cur)) (filter_next_song_ok _ Hp))).
  rewrite E. set (df := mkDataFrame (columns df0) (dtypes df0) []).
  pose proof (convert_ts_total df [] Hts (Forall2_nil _)) as Ec.
  change (map _ (combine (rows df) [])) with (@nil row) in Ec.
  set (df1 := mkDataFrame (columns df) _ []) in Ec.
  unfold load_filtered.
  rewrite (bind_ok _ _ _ _ _ (f_equal (fun r => (r, cur)) Ec)).
  destruct (build_time_df_rows df1 [] Hts eq_refl)
    as (tdf & Htdf & _ & Hlen & _).
  rewrite (bind_ok _ _ _ _ _ (f_equal (fun r => (r, cur)) Htdf)).
  rewrite (Hnil tdf) by (apply length_zero_iff_nil; exact Hlen).
  destruct (build_user_df_rows df1 Hu) as (udf & Hudf & _ & _ & Hur).
  apply map_eq_nil in Hur.
  unfold bind at 1. cbn [for_each ret].
  rewrite (bind_ok _ _ _ _ _ (f_equal (fun r => (r, cur)) Hudf)).
  rewrite (Hnil udf Hur), (Hnil df1 eq_refl). reflexivity.
Qed.

Lemma log_file_without_plays_is_a_no_op_witness :
  process_log_file (fun _ => Ok log_of_page_views) failing_sink
    "data/log_data/events.json" fresh_cursor = (Ok tt, fresh_cursor).
Proof.
  apply (log_file_without_plays_is_a_no_op (fun _ => Ok log_of_page_views)
           failing_sink "data/log_data/events.json" log_of_page_views
           fresh_cursor); try reflexivity.
  intros r [<- | [<- | []]]; discriminate.
Defined.

(** X12.  The first row of a lookup is unpacked into exactly two ids.  When
    it has one column or more than two, the loop raises [ValueError] right
    after the lookup and hands over no fact for the event; when it has no
    column at all it counts as no match and the fact gets [None] ids. *)
Theorem lookup_row_of_other_width
    (sink : list call -> query -> list value -> response)
    (cols : list string) (r : row) (cur : Cursor)
    (first : list value) (rest : list (list value)) :
  Forall (fun name => In name cols) songplay_attrs ->
  sink (calls cur) song_select (lookup_args r) = Rows (first :: rest) ->
  (List.length first <> 0%nat -> List.length first <> 2%nat ->
   songplay_step sink cols r cur =
   (Err ValueError,
    mkCursor (calls cur ++ [(song_select, lookup_args r)]) rest)) /\
  (first = [] ->
   calls (snd (songplay_step sink cols r cur)) =
   calls cur ++ play_block (r, (VNone, VNone))).
Proof.
  intros Hattrs Hsel. rewrite Forall_forall in Hattrs.
  assert (Hget : forall name, In name songplay_attrs ->
                              getattr cols r name = Ok (cell r name)).
  { intros name Hname. apply getattr_present. auto. }
  split.
  - intros H0 H2. unfold songplay_step, bind, lift.
    rewrite (Hget "song"), (Hget "artist"), (Hget "length") by (simpl; tauto).
    unfold execute at 1. fold (lookup_args r). rewrite Hsel.
    unfold fetchone. cbn [pending calls].
    destruct first as [|a [|b [|c first]]]; simpl in H0, H2;
      try contradiction; reflexivity.
  - intros ->. unfold songplay_step, bind, lift.
    rewrite (Hget "song"), (Hget "artist"), (Hget "length") by (simpl; tauto).
    unfold execute at 1. fold (lookup_args r). rewrite Hsel.
    unfold fetchone. cbn [pending calls unpack_results fst snd].
    rewrite (Hget "ts"), (Hget "userId"), (Hget "level"), (Hget "sessionId"),
      (Hget "location"), (Hget "userAgent") by (simpl; tauto).
    rewrite execute_calls. cbn [calls]. rewrite <- app_assoc. reflexivity.
Qed.

Lemma lookup_row_of_other_width_witness :
  songplay_step three_column_sink log_columns
    (log_row "NextSong" 1541990258000 "free" "Setanta matins") fresh_cursor =
  (Err ValueError,
   mkCursor
     (calls fresh_cursor ++
      [(song_select,
        lookup_args
          (log_row "NextSong" 1541990258000 "free" "Setanta matins"))])
     []).
Proof.
  apply (proj1 (lookup_row_of_other_width three_column_sink log_columns
                  (log_row "NextSong" 1541990258000 "free" "Setanta matins")
                  fresh_cursor [VStr "S"; VStr "A"; VInt 1] []
                  ltac:(repeat (apply Forall_cons; [simpl; tauto|]);
                        apply Forall_nil)
                  eq_refl)); discriminate.
Defined.

(** ** Directories of files *)

Lemma batch_bind_inv {A B : Type} (m : Batch A) (k : A -> Batch B) s res s' :
  batch_bind m k s = (res, s') ->
  (exists a s1, m s = (Ok a, s1) /\ k a s1 = (res, s')) \/
  (exists e, m s = (Err e, s') /\ res = Err e).
Proof.
  unfold batch_bind. destruct (m s) as [[a|e] s1]; intros H.
  - left; eauto.
  - right; injection H as <- <-; eauto.
Qed.

Lemma on_cursor_inv {A : Type} (m : M A) s res s' :
  on_cursor m s = (res, s') ->
  m (cursor s) = (res, cursor s') /\ events s' = events s.
Proof.
  unfold on_cursor. destruct (m (cursor s)) as [r c]. intros H.
  injection H as <- <-. auto.
Qed.

Lemma printed_app (a b : list io_event) :
  printed (a ++ b) = printed a ++ printed b.
Proof. unfold printed. apply flat_map_app. Qed.

Lemma commits_app (a b : list io_event) :
  commits (a ++ b) = commits a ++ commits b.
Proof. unfold commits. apply flat_map_app. Qed.

Section Files.

Variable os_walk : string -> list (string * list string * list string).
Variable glob_glob : string -> list string.
Variable os_path_abspath : string -> string.
Variable commit_raises : list call -> option exn.
Variable func : string -> M unit.
Variable num_files : nat.

Let file_body (item : nat * string) : Batch unit :=
  (on_cursor (func (snd item)) ;;
   conn_commit commit_raises ;;
   py_print (processed_message (fst item) num_files))%batch.

Lemma file_body_inv item s res s' :
  file_body item s = (res, s') ->
  (res = Ok tt /\
   func (snd item) (cursor s) = (Ok tt, cursor s') /\
   commit_raises (calls (cursor s')) = None /\
   events s' = events s ++
               file_events num_files
                 (fst item, List.length (calls (cursor s')))) \/
  (exists e, res = Err e /\ events s' = events s /\
     (func (snd item) (cursor s) = (Err e, cursor s') \/
      (func (snd item) (cursor s) = (Ok tt, cursor s') /\
       commit_raises (calls (cursor s')) = Some e))).
Proof.
  unfold file_body. intros H. apply batch_bind_inv in H.
  destruct H as [([] & s1 & H1 & H) | (e & H1 & ->)];
    apply on_cursor_inv in H1; destruct H1 as [Hf Hev];
    [|right; exists e; auto].
  apply batch_bind_inv in H.
  destruct H as [([] & s2 & H1 & H) | (e & H1 & ->)];
    unfold conn_commit in H1;
    destruct (commit_raises (calls (cursor s1))) as [e'|] eqn:Ec;
    try discriminate.
  - injection H1 as <-. unfold py_print in H. injection H as <- <-.
    left. cbn [cursor events]. rewrite Hev, <- app_assoc. auto.
  - injection H1 as <- <-. right. exists e'. rewrite Hf. auto.
Qed.

(** The loop over the files: those gone through, and where it stopped. *)
Lemma files_loop_inv files :
  forall i s res s',
  batch_for_each (enumerate i files) file_body s = (res, s') ->
  exists done rest counts c1,
    files = done ++ rest /\
    for_each done func (cursor s) = (Ok tt, c1) /\
    List.length counts = List.length done /\
    events s' = events s ++
      flat_map (file_events num_files)
        (combine (seq i (List.length done)) counts) /\
    (done <> [] -> last counts 0%nat = List.length (calls c1)) /\
    (res = Ok tt -> rest = [] /\ cursor s' = c1) /\
    (forall e, res = Err e ->
       exists f rest',
         rest = f :: rest' /\
         (func f c1 = (Err e, cursor s') \/
          (func f c1 = (Ok tt, cursor s') /\
           commit_raises (calls (cursor s')) = Some e))).
Proof.
  induction files as [|f files IH]; intros i s res s' H; simpl in H.
  - injection H as <- <-. exists [], [], [], (cursor s). simpl.
    rewrite app_nil_r. repeat split; auto.
    + intros Habs; contradiction Habs; reflexivity.
    + intros e Habs; discriminate.
  - apply batch_bind_inv in H.
    destruct H as [([] & s1 & H1 & H) | (e & H1 & ->)];
      apply file_body_inv in H1; cbn [fst snd] in H1.
    + destruct H1 as [(_ & Hf & Hc & Hev) | (e & Habs & _)];
        [|discriminate].
      destruct (IH _ _ _ _ H)
        as (done & rest & counts & c1 & -> & Hdone & Hlen & Hev' & Hlast &
            Hok & Herr).
      exists (f :: done), rest, (List.length (calls (cursor s1)) :: counts), c1.
      split; [reflexivity|]. split.
      { simpl. unfold bind. rewrite Hf. exact Hdone. }
      split; [simpl; congruence|]. split.
      { rewrite Hev', Hev, <- app_assoc. reflexivity. }
      split; [|auto].
      intros _. destruct done as [|d done].
      * destruct counts; [|discriminate]. simpl in Hdone.
        injection Hdone as <-. reflexivity.
      * destruct counts as [|c counts]; [discriminate|].
        change (last (c :: counts) 0%nat = List.length (calls c1)).
        apply Hlast. discriminate.
    + destruct H1 as [(Habs & _) | (e' & He & Hev & Hf)]; [discriminate|].
      injection He as <-.
      exists [], (f :: files), [], (cursor s). simpl.
      rewrite app_nil_r. repeat split; auto; try discriminate.
      * intros Habs; contradiction Habs; reflexivity.
      * intros e0 He0. injection He0 as <-. eauto.
Qed.

End Files.

Lemma printed_file_events n (ks counts : list nat) :
  List.length counts = List.length ks ->
  printed (flat_map (file_events n) (combine ks counts)) =
  map (fun i => processed_message i n) ks.
Proof.
  revert counts. induction ks as [|k ks IH]; intros [|c counts] H;
    simpl in *; try discriminate; [reflexivity|].
  unfold printed in *. simpl. f_equal. apply IH. congruence.
Qed.

Lemma commits_file_events n (ks counts : list nat) :
  List.length counts = List.length ks ->
  commits (flat_map (file_events n) (combine ks counts)) = counts.
Proof.
  revert counts. induction ks as [|k ks IH]; intros [|c counts] H;
    simpl in *; try discriminate; [reflexivity|].
  unfold commits in *. simpl. f_equal. apply IH. congruence.
Qed.

Lemma closed_not_in_file_events n (ps : list (nat * nat)) :
  ~ In Closed (flat_map (file_events n) ps).
Proof.
  induction ps as [|p ps IH]; simpl; [tauto|].
  intros [H | [H | H]]; [discriminate|discriminate|auto].
Qed.

(** X13.  When [process_data] returns, [func] has been run on every file
    gathered under the directory, once and in the order gathered, each
    run on the cursor as the run before left it.  It has printed the
    number of files and then one line "i/n files processed." per file, has
    committed once per file, and the last commit came after the last
    statement: nothing is left uncommitted. *)
Theorem process_data_completed
    (os_walk : string -> list (string * list string * list string))
    (glob_glob : string -> list string)
    (os_path_abspath : string -> string)
    (commit_raises : list call -> option exn)
    (filepath : string) (func : string -> M unit) (s s' : Session) :
  process_data os_walk glob_glob os_path_abspath commit_raises filepath func s
    = (Ok tt, s') ->
  let all_files := gather_files os_walk glob_glob os_path_abspath filepath in
  let num_files := List.length all_files in
  for_each all_files func (cursor s) = (Ok tt, cursor s') /\
  exists new,
    events s' = events s ++ new /\
    printed new =
      found_message num_files filepath ::
      map (fun i => processed_message i num_files) (seq 1 num_files) /\
    List.length (commits new) = num_files /\
    (all_files <> [] ->
     last (commits new) 0%nat = List.length (calls (cursor s'))) /\
    ~ In Closed new.
Proof.
  intros H all_files num_files. unfold process_data in H.
  fold all_files in H. fold num_files in H.
  apply batch_bind_inv in H.
  destruct H as [([] & s1 & H1 & H) | (e & _ & Habs)]; [|discriminate].
  unfold py_print in H1. injection H1 as <-.
  apply files_loop_inv in H. cbn [cursor events] in H.
  destruct H as (done & rest & counts & c1 & Efiles & Hdone & Hlen & Hev &
                 Hlast & Hok & _).
  destruct (Hok eq_refl) as [-> <-]. rewrite app_nil_r in Efiles.
  subst done. fold num_files in Hev, Hlen.
  split; [exact Hdone|].
  eexists. split; [rewrite Hev, <- app_assoc; reflexivity|].
  assert (Hlen' : List.length counts = List.length (seq 1 num_files))
    by (rewrite length_seq; exact Hlen).
  split; [|split; [|split]].
  - rewrite printed_app, printed_file_events by exact Hlen'. reflexivity.
  - rewrite commits_app, commits_file_events by exact Hlen'. exact Hlen.
  - rewrite commits_app, commits_file_events by exact Hlen'. exact Hlast.
  - intros Hin. apply in_app_or in Hin. destruct Hin as [[Hin | []] | Hin];
      [discriminate|]. exact (closed_not_in_file_events _ _ Hin).
Qed.

Lemma process_data_completed_witness :
  let s' := snd (disk_process_data "data/song_data"
                   (process_song_file disk_read_json one_match_sink)
                   fresh_session) in
  let all_files := gather_files disk_walk disk_glob disk_abspath
                     "data/song_data" in
  let num_files := List.length all_files in
  all_files = ["/home/workspace/data/song_data/A/songs.json"] /\
  for_each all_files (process_song_file disk_read_json one_match_sink)
    (cursor fresh_session) = (Ok tt, cursor s') /\
  exists new,
    events s' = events fresh_session ++ new /\
    printed new =
      found_message num_files "data/song_data" ::
      map (fun i => processed_message i num_files) (seq 1 num_files) /\
    List.length (commits new) = num_files /\
    (all_files <> [] ->
     last (commits new) 0%nat = List.length (calls (cursor s'))) /\
    ~ In Closed new.
Proof.
  cbv zeta. split; [reflexivity|].
  apply (process_data_completed disk_walk disk_glob disk_abspath never_raises
           "data/song_data"
           (process_song_file disk_read_json one_match_sink) fresh_session).
  vm_compute. reflexivity.
Defined.

(** X14.  When [process_data] raises, it does so at one file: the files
    before it have been processed, committed and reported, the file itself
    has raised in [func] or at its commit, and the files after it have not
    been touched.  The last commit covers the statements of the files
    before: what the failing file did on the cursor is not committed, and
    no progress line is printed for it. *)
Theorem process_data_stops_at_first_failure
    (os_walk : string -> list (string * list string * list string))
    (glob_glob : string -> list string)
    (os_path_abspath : string -> string)
    (commit_raises : list call -> option exn)
    (filepath : string) (func : string -> M unit) (s s' : Session)
    (e : exn) :
  process_data os_walk glob_glob os_path_abspath commit_raises filepath func s
    = (Err e, s') ->
  let all_files := gather_files os_walk glob_glob os_path_abspath filepath in
  let num_files := List.length all_files in
  exists done f rest c1 new,
    all_files = done ++ f :: rest /\
    for_each done func (cursor s) = (Ok tt, c1) /\
    (func f c1 = (Err e, cursor s') \/
     (func f c1 = (Ok tt, cursor s') /\
      commit_raises (calls (cursor s')) = Some e)) /\
    events s' = events s ++ new /\
    printed new =
      found_message num_files filepath ::
      map (fun i => processed_message i num_files)
          (seq 1 (List.length done)) /\
    List.length (commits new) = List.length done /\
    (done <> [] -> last (commits new) 0%nat = List.length (calls c1)) /\
    ~ In Closed new.
Proof.
  intros H all_files num_files. unfold process_data in H.
  fold all_files in H. fold num_files in H.
  apply batch_bind_inv in H.
  destruct H as [([] & s1 & H1 & H) | (e' & Habs & _)];
    [|unfold py_print in Habs; discriminate].
  unfold py_print in H1. injection H1 as <-.
  apply files_loop_inv in H. cbn [cursor events] in H.
  destruct H as (done & rest & counts & c1 & Efiles & Hdone & Hlen & Hev &
                 Hlast & _ & Herr).
  destruct (Herr e eq_refl) as (f & rest' & -> & Hf).
  exists done, f, rest', c1. eexists.
  split; [exact Efiles|]. split; [exact Hdone|]. split; [exact Hf|].
  split; [rewrite Hev, <- app_assoc; reflexivity|].
  assert (Hlen' : List.length counts = List.length (seq 1 (List.length done)))
    by (rewrite length_seq; exact Hlen).
  split; [|split; [|split]].
  - rewrite printed_app, printed_file_events by exact Hlen'. reflexivity.
  - rewrite commits_app, commits_file_events by exact Hlen'. exact Hlen.
  - rewrite commits_app, commits_file_events by exact Hlen'. exact Hlast.
  - intros Hin. apply in_app_or in Hin. destruct Hin as [[Hin | []] | Hin];
      [discriminate|]. exact (closed_not_in_file_events _ _ Hin).
Qed.

Lemma process_data_stops_at_first_failure_witness :
  let run := disk_process_data "data/log_data"
               (process_log_file disk_read_json failing_sink) fresh_session in
  let all_files := gather_files disk_walk disk_glob disk_abspath
                     "data/log_data" in
  let num_files := List.length all_files in
  fst run = Err (DatabaseError "connection lost") /\
  exists done f rest c1 new,
    all_files = done ++ f :: rest /\
    for_each done (process_log_file disk_read_json failing_sink)
      (cursor fresh_session) = (Ok tt, c1) /\
    (process_log_file disk_read_json failing_sink f c1 =
       (Err (DatabaseError "connection lost"), cursor (snd run)) \/
     (process_log_file disk_read_json failing_sink f c1 =
        (Ok tt, cursor (snd run)) /\
      never_raises (calls (cursor (snd run))) =
        Some (DatabaseError "connection lost"))) /\
    events (snd run) = events fresh_session ++ new /\
    printed new =
      found_message num_files "data/log_data" ::
      map (fun i => processed_message i num_files)
          (seq 1 (List.length done)) /\
    List.length (commits new) = List.length done /\
    (done <> [] -> last (commits new) 0%nat = List.length (calls c1)) /\
    ~ In Closed new.
Proof.
  cbv zeta. split; [vm_compute; reflexivity|].
  apply (process_data_stops_at_first_failure disk_walk disk_glob disk_abspath
           never_raises "data/log_data"
           (process_log_file disk_read_json failing_sink) fresh_session).
  vm_compute. reflexivity.
Defined.

(** ** The whole run *)

Section Whole.

Variable os_walk : string -> list (string * list string * list string).
Variable glob_glob : string -> list string.
Variable os_path_abspath : string -> string.
Variable commit_raises : list call -> option exn.

Lemma process_data_inv filepath func s res s' :
  process_data os_walk glob_glob os_path_abspath commit_raises filepath func s
    = (res, s') ->
  exists new done rest c1,
    events s' = events s ++ new /\ ~ In Closed new /\
    gather_files os_walk glob_glob os_path_abspath filepath = done ++ rest /\
    for_each done func (cursor s) = (Ok tt, c1) /\
    (res = Ok tt -> rest = [] /\ cursor s' = c1) /\
    (forall e, res = Err e ->
       exists f rest',
         rest = f :: rest' /\
         (func f c1 = (Err e, cursor s') \/
          (func f c1 = (Ok tt, cursor s') /\
           commit_raises (calls (cursor s')) = Some e))).
Proof.
  intros H. unfold process_data in H.
  apply batch_bind_inv in H.
  destruct H as [([] & s1 & H1 & H) | (e' & Habs & _)];
    [|unfold py_print in Habs; discriminate].
  unfold py_print in H1. injection H1 as <-.
  apply files_loop_inv in H. cbn [cursor events] in H.
  destruct H as (done & rest & counts & c1 & Efiles & Hdone & Hlen & Hev &
                 Hlast & Hok & Herr).
  eexists. exists done, rest, c1.
  split; [rewrite Hev, <- app_assoc; reflexivity|].
  split; [|auto].
  intros Hin. apply in_app_or in Hin. destruct Hin as [[Hin | []] | Hin];
    [discriminate|]. exact (closed_not_in_file_events _ _ Hin).
Qed.

Lemma process_data_makes_only (P : call -> Prop) filepath func s res s' :
  (forall f, makes_only P (func f)) ->
  process_data os_walk glob_glob os_path_abspath commit_raises filepath func s
    = (res, s') ->
  exists new, calls (cursor s') = calls (cursor s) ++ new /\ Forall P new.
Proof.
  intros HP H. apply process_data_inv in H.
  destruct H as (_ & done & rest & c1 & _ & _ & _ & Hdone & Hok & Herr).
  destruct (makes_only_for_each P done func HP _ _ _ Hdone) as (n1 & E1 & F1).
  destruct res as [[]|e].
  - destruct (Hok eq_refl) as [_ ->]. eauto.
  - destruct (Herr e eq_refl) as (f & rest' & _ & [Hf | [Hf _]]);
      destruct (HP f _ _ _ Hf) as (n2 & E2 & F2);
      exists (n1 ++ n2); rewrite E2, E1, app_assoc;
      (split; [reflexivity|apply Forall_app; auto]).
Qed.

End Whole.

(** X15.  [main] closes the connection exactly when everything before
    went through: after a run that returns, the closing is the last thing
    recorded; after a run that raises, whether at the connection, in a song
    file, in a log file or at a commit, the connection has not been
    closed. *)
Theorem main_closes_only_on_success
    (os_walk : string -> list (string * list string * list string))
    (glob_glob : string -> list string)
    (os_path_abspath : string -> string)
    (commit_raises : list call -> option exn)
    (connect_raises : string -> option exn)
    (read_json : string -> result DataFrame)
    (sink : list call -> query -> list value -> response)
    (res : result unit) (s : Session) :
  main os_walk glob_glob os_path_abspath commit_raises connect_raises
       read_json sink = (res, s) ->
  (res = Ok tt -> exists before, events s = before ++ [Closed] /\
                                 ~ In Closed before) /\
  (forall e, res = Err e -> ~ In Closed (events s)).
Proof.
  unfold main. destruct (connect_raises dsn) as [e0|].
  { intros H; injection H as <- <-. split; [discriminate|].
    intros e _ []. }
  intros H. apply batch_bind_inv in H.
  destruct H as [([] & s1 & H1 & H) | (e & H1 & ->)];
    apply process_data_inv in H1;
    destruct H1 as (n1 & _ & _ & _ & Ev1 & Hn1 & _).
  2: { split; [discriminate|]. intros e' _. rewrite Ev1. exact Hn1. }
  apply batch_bind_inv in H.
  destruct H as [([] & s2 & H2 & H) | (e & H2 & ->)];
    apply process_data_inv in H2;
    destruct H2 as (n2 & _ & _ & _ & Ev2 & Hn2 & _).
  2: { split; [discriminate|]. intros e' _. rewrite Ev2, Ev1.
       intros Hin. apply in_app_or in Hin. tauto. }
  unfold conn_close in H. injection H as <- <-. cbn [events].
  split; [|discriminate].
  intros _. exists (events s2). split; [reflexivity|].
  rewrite Ev2, Ev1. intros Hin. apply in_app_or in Hin. tauto.
Qed.

Lemma main_closes_only_on_success_witness :
  (fst disk_main = Ok tt ->
   exists before, events (snd disk_main) = before ++ [Closed] /\
                  ~ In Closed before) /\
  (forall e, fst disk_main = Err e -> ~ In Closed (events (snd disk_main))).
Proof.
  apply (main_closes_only_on_success disk_walk disk_glob disk_abspath
           never_raises never_raises disk_read_json one_match_sink
           (fst disk_main) (snd disk_main)).
  apply surjective_pairing.
Defined.

(** X16.  In a run of [main] every statement of the song files comes
    before every statement of the log files: the cursor has seen song and
    artist inserts first and only then time inserts, user inserts, lookups
    and facts.  When a log statement has been issued at all, every song
    file under data/song_data had been processed before it. *)
Theorem main_loads_songs_before_logs
    (os_walk : string -> list (string * list string * list string))
    (glob_glob : string -> list string)
    (os_path_abspath : string -> string)
    (commit_raises : list call -> option exn)
    (connect_raises : string -> option exn)
    (read_json : string -> result DataFrame)
    (sink : list call -> query -> list value -> response)
    (res : result unit) (s : Session) :
  main os_walk glob_glob os_path_abspath commit_raises connect_raises
       read_json sink = (res, s) ->
  exists songs logs,
    calls (cursor s) = songs ++ logs /\
    Forall song_file_call songs /\
    Forall log_file_call logs /\
    (logs <> [] ->
     exists c1,
       for_each
         (gather_files os_walk glob_glob os_path_abspath "data/song_data")
         (process_song_file read_json sink) (mkCursor [] []) = (Ok tt, c1) /\
       calls c1 = songs).
Proof.
  unfold main. destruct (connect_raises dsn) as [e0|].
  { intros H; injection H as <- <-. exists [], []. simpl.
    repeat split; auto. intros Habs; contradiction Habs; reflexivity. }
  intros H. apply batch_bind_inv in H.
  destruct H as [([] & s1 & H1 & H) | (e & H1 & ->)].
  2: { destruct (process_data_makes_only _ _ _ _ song_file_call _ _ _ _ _
                   (process_song_file_statements read_json sink) H1)
         as (songs & E & F).
       exists songs, []. cbn [cursor calls app] in E.
       rewrite E, app_nil_r. repeat split; auto.
       intros Habs; contradiction Habs; reflexivity. }
  pose proof H1 as H1'.
  destruct (process_data_makes_only _ _ _ _ song_file_call _ _ _ _ _
              (process_song_file_statements read_json sink) H1)
    as (songs & E1 & F1).
  cbn [cursor calls app] in E1.
  apply process_data_inv in H1'.
  destruct H1' as (_ & done & rest & c1 & _ & _ & Efiles & Hdone & Hok & _).
  destruct (Hok eq_refl) as [-> <-]. rewrite app_nil_r in Efiles.
  cbn [cursor] in Hdone. rewrite <- Efiles in Hdone.
  assert (Hlogs : forall s2 r2,
            process_data os_walk glob_glob os_path_abspath commit_raises
              "data/log_data" (process_log_file read_json sink) s1 = (r2, s2) ->
            exists logs,
              calls (cursor s2) = songs ++ logs /\ Forall log_file_call logs).
  { intros s2 r2 H2.
    destruct (process_data_makes_only _ _ _ _ log_file_call _ _ _ _ _
                (process_log_file_statements read_json sink) H2)
      as (logs & E2 & F2).
    exists logs. rewrite E2, E1. auto. }
  apply batch_bind_inv in H.
  destruct H as [([] & s2 & H2 & H) | (e & H2 & ->)];
    destruct (Hlogs _ _ H2) as (logs & E2 & F2).
  - unfold conn_close in H. injection H as <- <-. cbn [cursor].
    exists songs, logs. repeat split; eauto.
  - exists songs, logs. repeat split; eauto.
Qed.

Lemma main_loads_songs_before_logs_witness :
  exists songs logs,
    calls (cursor (snd failing_disk_main)) = songs ++ logs /\
    Forall song_file_call songs /\
    Forall log_file_call logs /\
    (logs <> [] ->
     exists c1,
       for_each
         (gather_files disk_walk disk_glob disk_abspath "data/song_data")
         (process_song_file disk_read_json failing_sink) (mkCursor [] []) =
       (Ok tt, c1) /\
       calls c1 = songs).
Proof.
  apply (main_loads_songs_before_logs disk_walk disk_glob disk_abspath
           never_raises never_raises disk_read_json failing_sink
           (fst failing_disk_main) (snd failing_disk_main)).
  apply surjective_pairing.
Defined.

(** ** The calendar fields *)

Ltac split_tests :=
  repeat match goal with
  | |- context [?a <? ?b] =>
      let E := fresh "E" in
      destruct (a <? b) eqn:E; [apply Z.ltb_lt in E|apply Z.ltb_ge in E]
  | |- context [?a <=? ?b] =>
      let E := fresh "E" in
      destruct (a <=? b) eqn:E; [apply Z.leb_le in E|apply Z.leb_gt in E]
  end.

Lemma civil_from_days_bounds (z : Z) :
  1 <= snd (fst (civil_from_days z)) <= 12 /\
  1 <= snd (civil_from_days z) <= 31.
Proof.
  unfold civil_from_days. cbv zeta. cbn [fst snd].
  destruct (_ <? 10) eqn:E; [apply Z.ltb_lt in E|apply Z.ltb_ge in E];
    Z.to_euclidean_division_equations; lia.
Qed.

Lemma days_from_civil_from_days (z : Z) :
  days_from_civil (fst (fst (civil_from_days z)))
    (snd (fst (civil_from_days z))) (snd (civil_from_days z)) = z.
Proof.
  unfold civil_from_days, days_from_civil. cbv zeta. cbn [fst snd].
  split_tests.
  all: Z.to_euclidean_division_equations; lia.
Qed.

Lemma day_of_year_bounds (t : Z) :
  0 <= t - days_from_civil (fst (fst (civil_from_days t))) 1 1 <= 365.
Proof.
  unfold civil_from_days, days_from_civil. cbv zeta. cbn [fst snd].
  change (1 <=? 2) with true. change (2 <? 1) with false. cbv iota.
  split_tests.
  all: Z.to_euclidean_division_equations; lia.
Qed.

Lemma dt_day_name_in (ns : Z) :
  is_NaT ns = false ->
  exists name, dt_day_name ns = VStr name /\ In name weekday_names.
Proof.
  intros Hn. unfold dt_day_name, weekday_index. rewrite Hn.
  pose proof (Z.mod_pos_bound (days_of ns + 3) 7 eq_refl) as Hw.
  set (w := (days_of ns + 3) mod 7) in *.
  assert (Hc : w = 0 \/ w = 1 \/ w = 2 \/ w = 3 \/ w = 4 \/ w = 5 \/ w = 6)
    by lia.
  eexists. split; [reflexivity|].
  destruct Hc as [-> | [-> | [-> | [-> | [-> | [-> | ->]]]]]]; simpl; tauto.
Qed.

Lemma to_datetime_ms_range (v : value) (n0 : Z) :
  to_datetime_ms v = Ok n0 ->
  n0 = NaT \/ Timestamp_min <= n0 <= Timestamp_max.
Proof.
  unfold to_datetime_ms.
  destruct (missing v); [intros H; injection H as <-; auto|].
  destruct (epoch_ms v) as [ms|]; [|destruct v; discriminate].
  destruct (is_NaT ms); [intros H; injection H as <-; auto|].
  cbv zeta.
  destruct ((Timestamp_min <=? ms * ns_per_ms) &&
            (ms * ns_per_ms <=? Timestamp_max)) eqn:E; [|discriminate].
  intros H; injection H as <-. apply andb_prop in E. destruct E as [E1 E2].
  apply Z.leb_le in E1, E2. right. lia.
Qed.

(** A converted timestamp is [NaT] or a whole second within the range. *)
Lemma start_time_whole_second (r : row) (ns : Z) :
  start_time r = Ok ns ->
  ns = NaT \/
  (ns mod ns_per_s = 0 /\ Timestamp_min <= ns <= Timestamp_max).
Proof.
  unfold start_time.
  destruct (to_datetime_ms (cell r "ts")) as [n0|] eqn:E0; cbn [rbind];
    [|discriminate].
  apply to_datetime_ms_range in E0.
  unfold dt_ceil_s. destruct (is_NaT n0) eqn:En;
    [intros H; injection H as <-; left; reflexivity|].
  cbv zeta.
  destruct (n0 + - n0 mod ns_per_s <=? Timestamp_max) eqn:E2;
    [|discriminate].
  intros H; injection H as <-. right. apply Z.leb_le in E2.
  destruct E0 as [-> | E0]; [discriminate En|].
  unfold ns_per_s in *. Z.to_euclidean_division_equations. lia.
Qed.

Lemma whole_second_not_NaT (ns : Z) :
  ns mod ns_per_s = 0 -> is_NaT ns = false.
Proof.
  intros Hs. unfold is_NaT. apply Z.eqb_neq. intros ->.
  vm_compute in Hs. discriminate.
Qed.

(** The fields of the time row of a whole second. *)
Lemma time_data_fields (ns : Z) :
  ns mod ns_per_s = 0 ->
  exists h mi sec d w mo y name,
    time_data ns =
      [VTime h mi sec 0; VInt h; VInt d; VInt w; VInt mo; VInt y;
       VStr name] /\
    0 <= h < 24 /\ 0 <= mi < 60 /\ 0 <= sec < 60 /\
    1 <= d <= 31 /\ 1 <= w <= 53 /\ 1 <= mo <= 12 /\
    In name weekday_names /\
    ns = instant_of y mo d h mi sec.
Proof.
  intros Hs. pose proof (whole_second_not_NaT ns Hs) as Hn.
  destruct (dt_day_name_in ns Hn) as (name & Ename & Hname).
  unfold time_data, dt_time, dt_hour, dt_day, dt_month, dt_year, dt_week.
  rewrite Ename, Hn.
  pose proof (civil_from_days_bounds (days_of ns)) as Hb.
  pose proof (days_from_civil_from_days (days_of ns)) as Hr.
  pose proof (day_of_year_bounds (days_of ns - weekday_index ns + 3)) as Hw.
  destruct (civil_from_days (days_of ns)) as [[y mo] d].
  destruct (civil_from_days (days_of ns - weekday_index ns + 3))
    as [[yw mw] dw].
  cbn [fst snd] in Hb, Hr, Hw.
  exists (ns_of_day ns / (3600 * ns_per_s)),
         (ns_of_day ns / (60 * ns_per_s) mod 60),
         (ns_of_day ns / ns_per_s mod 60),
         d, ((days_of ns - weekday_index ns + 3 - days_from_civil yw 1 1) / 7
             + 1), mo, y, name.
  assert (Hus : ns_of_day ns / 1000 mod 1000000 = 0).
  { unfold ns_of_day, ns_per_day, ns_per_s in *.
    Z.to_euclidean_division_equations. lia. }
  rewrite Hus. split; [reflexivity|].
  unfold instant_of. rewrite Hr.
  unfold ns_of_day, days_of, ns_per_day, ns_per_s in *.
  repeat split; try tauto; try (Z.to_euclidean_division_equations; lia).
Qed.

(** The year of an instant within the range of timestamps. *)
Lemma instant_of_year_bounds (ns y mo dd h mi sec : Z) :
  Timestamp_min <= ns <= Timestamp_max ->
  ns = instant_of y mo dd h mi sec ->
  1 <= mo <= 12 -> 1 <= dd <= 31 ->
  0 <= h < 24 -> 0 <= mi < 60 -> 0 <= sec < 60 ->
  0 <= y < 4096.
Proof.
  unfold instant_of, days_from_civil, Timestamp_min, Timestamp_max, ns_per_s.
  cbv zeta. intros Hr -> Hmo Hdd Hh Hmi Hsec. revert Hr.
  split_tests; intros Hr.
  all: Z.to_euclidean_division_equations; lia.
Qed.

(** The float of a number up to 4095, as the calendar fields are, is that
    number. *)
Lemma float_of_small_int (z : Z) :
  0 <= z < 4096 -> float_integer (float_of_int z) = Some z.
Proof.
  intros Hz.
  assert (Hall : forallb
                   (fun n => match float_integer (float_of_int (Z.of_nat n))
                             with
                             | Some z' => z' =? Z.of_nat n
                             | None => false
                             end) (seq 0 4096) = true)
    by (vm_compute; reflexivity).
  rewrite forallb_forall in Hall.
  specialize (Hall (Z.to_nat z)). rewrite Z2Nat.id in Hall by lia.
  destruct (float_integer (float_of_int z)) as [z'|].
  - f_equal. apply Z.eqb_eq. apply Hall. apply in_seq. lia.
  - discriminate Hall. apply in_seq. lia.
Qed.

(** An event that has its [ts] in range or lacks it is converted to [NaT]
    exactly when it lacks it. *)
Lemma start_time_NaT_iff (r : row) (ns : Z) :
  whole_ms_or_missing r = true ->
  start_time r = Ok ns ->
  is_NaT ns = ts_missing (cell r "ts").
Proof.
  intros Hw Hns. destruct (ts_missing (cell r "ts")) eqn:Em.
  - rewrite (ts_missing_start_time r Em) in Hns. injection Hns as <-.
    reflexivity.
  - unfold whole_ms_or_missing in Hw. rewrite Em, orb_false_r in Hw.
    destruct (ts_in_range_start_time r Hw) as (ms & _ & E & Hlo & _).
    rewrite E in Hns. injection Hns as <-.
    unfold is_NaT, NaT. apply Z.eqb_neq. unfold Timestamp_min in Hlo. lia.
Qed.

Lemma stamps_NaT (rs : list row) (stamps : list Z) :
  (forall r, In r rs -> whole_ms_or_missing r = true) ->
  Forall2 (fun r ns => start_time r = Ok ns) rs stamps ->
  existsb is_NaT stamps = existsb (fun r => ts_missing (cell r "ts")) rs.
Proof.
  intros Hw H. induction H as [|r ns rs nss Hr _ IH]; [reflexivity|].
  simpl. rewrite (start_time_NaT_iff r ns) by (auto; apply Hw; left; auto).
  rewrite IH; [reflexivity|]. intros r' Hr'. apply Hw. right. exact Hr'.
Qed.

Lemma existsb_In {A : Type} (p : A -> bool) (x : A) (l : list A) :
  In x l -> p x = true -> existsb p l = true.
Proof. intros Hin Hp. apply existsb_exists. eauto. Qed.

(** The row of an instant among the time rows of a file. *)
Lemma time_rows_row (stamps : list Z) (ns : Z) :
  In ns stamps ->
  let d := if existsb is_NaT stamps then float64 else int64 in
  (ns = NaT -> d = float64 /\ In nat_row (time_rows stamps)) /\
  (is_NaT ns = false ->
   In (map (astype d) (time_data ns)) (time_rows stamps)).
Proof.
  intros Hin d. split.
  - intros ->. split.
    + unfold d. rewrite (existsb_In is_NaT NaT stamps Hin eq_refl).
      reflexivity.
    + unfold time_rows. cbv zeta. rewrite <- (time_row_of_NaT d).
      apply (in_map (fun ns => infer_datetimelike
                                 (map (astype d) (time_data ns)))).
      exact Hin.
  - intros Hn. unfold time_rows. cbv zeta.
    rewrite <- (infer_datetimelike_time_data d ns Hn).
    apply (in_map (fun ns => infer_datetimelike
                               (map (astype d) (time_data ns)))).
    exact Hin.
Qed.

Lemma time_rows_in (stamps : list Z) (t : list value) :
  In t (time_rows stamps) ->
  let d := if existsb is_NaT stamps then float64 else int64 in
  exists ns,
    In ns stamps /\
    ((ns = NaT /\ d = float64 /\ t = nat_row) \/
     (is_NaT ns = false /\ t = map (astype d) (time_data ns))).
Proof.
  unfold time_rows. cbv zeta. intros Ht. apply in_map_iff in Ht.
  destruct Ht as (ns & <- & Hin). exists ns. split; [exact Hin|].
  destruct (is_NaT ns) eqn:En.
  - left. apply is_NaT_true in En. subst ns.
    rewrite (existsb_In is_NaT NaT stamps Hin eq_refl).
    split; [reflexivity|]. split; [reflexivity|]. apply time_row_of_NaT.
  - right. split; [reflexivity|]. apply infer_datetimelike_time_data.
    exact En.
Qed.

Lemma Forall2_In_r {A B : Type} (R : A -> B -> Prop) (l : list A)
    (l' : list B) (y : B) :
  Forall2 R l l' -> In y l' -> exists x, In x l /\ R x y.
Proof.
  induction 1 as [|a b l l' Hab _ IH]; intros []; subst.
  - exists a. split; [left; reflexivity|exact Hab].
  - destruct IH as (x & Hx & Hxy); [assumption|].
    exists x. split; [right; exact Hx|exact Hxy].
Qed.

(** The time rows and the facts of a run, by the instants they are made
    of. *)
Lemma log_file_rows_inv
    (read_json : string -> result DataFrame)
    (sink : list call -> query -> list value -> response)
    (filepath : string) (df0 : DataFrame) (cur cur' : Cursor)
    (res : result unit) :
  read_json filepath = Ok df0 ->
  process_log_file read_json sink filepath cur = (res, cur') ->
  exists new stamps tdone trest,
    calls cur' = calls cur ++ new /\
    emitted time_table_insert new = tdone /\
    (new = [] \/
     (Forall2 (fun r ns => start_time r = Ok ns)
        (filter is_next_song (rows df0)) stamps /\
      time_rows stamps = tdone ++ trest)) /\
    (forall fact, In fact (emitted songplay_table_insert new) ->
       trest = [] /\
       exists ns, In ns stamps /\ hd_error fact = Some (VTimestamp ns)).
Proof.
  intros Hread H. unfold process_log_file in H.
  assert (Hnone : exists (new : list call) (stamps : list Z)
                         (tdone trest : list (list value)),
            calls cur = calls cur ++ new /\
            emitted time_table_insert new = tdone /\
            (new = [] \/
             (Forall2 (fun r ns => start_time r = Ok ns)
                (filter is_next_song (rows df0)) stamps /\
              time_rows stamps = tdone ++ trest)) /\
            (forall fact, In fact (emitted songplay_table_insert new) ->
               trest = [] /\
               exists ns, In ns stamps /\
                          hd_error fact = Some (VTimestamp ns))).
  { exists [], [], [], []. rewrite app_nil_r. split; [reflexivity|].
    split; [reflexivity|]. split; [left; reflexivity|]. intros x []. }
  rewrite (bind_ok _ _ _ _ _ (f_equal (fun r => (r, cur)) Hread)) in H.
  destruct (has_column df0 "page") eqn:Hp.
  2: { unfold bind, lift, filter_next_song, getitem in H. rewrite Hp in H.
       cbn [rbind] in H. injection H as _ <-. exact Hnone. }
  rewrite (bind_ok _ _ _ _ _
             (f_equal (fun r => (r, cur)) (filter_next_song_ok _ Hp))) in H.
  fold is_next_song in H.
  apply load_filtered_inv in H.
  destruct H as [(e & _ & _ & ->) | H]; [exact Hnone|]. clear Hnone.
  cbn [rows] in H.
  destruct H as (df1 & stamps & tdone & trest & ucalls & scalls &
                 Hconv & Hstamps & Hcells & Est & Hcalls & Hrest & _ & _ &
                 Hu & Hs).
  assert (Hts : has_column df1 "ts" = true).
  { destruct (convert_ts_rows _ _ Hconv) as (Hts & Hcols & _).
    unfold has_column in *. rewrite Hcols. exact Hts. }
  exists (map (fun t => (time_table_insert, t)) tdone ++ ucalls ++ scalls),
         stamps, tdone, trest.
  split; [exact Hcalls|].
  pose proof (emitted_time_rows tdone ucalls scalls _ Hu Hs) as Et.
  unfold call in Et |- *. split; [exact Et|].
  split; [right; split; assumption|].
  intros fact Hfact.
  rewrite !emitted_app in Hfact.
  rewrite emitted_none, (emitted_none _ ucalls) in Hfact; simpl in Hfact.
  2: { eapply Forall_impl; [|exact Hu]. intros c Hq. rewrite Hq.
       reflexivity. }
  2: { apply Forall_map, Forall_forall. reflexivity. }
  apply in_emitted in Hfact.
  assert (Hne : ucalls ++ scalls <> []).
  { destruct scalls; [contradiction|]. destruct ucalls; discriminate. }
  split; [exact (Hrest Hne)|].
  rewrite Forall_forall in Hs.
  destruct (Hs _ Hfact) as (r & Hr & [Hq | [_ (rest & Hsnd)]]);
    [discriminate Hq|]. simpl in Hsnd. subst fact.
  destruct (iterrows_ts df1 stamps r Hts Hcells Hr) as (ns & Hin & ->).
  exists ns. auto.
Qed.





Example sample_instant_read_back :
  instant_of 2018 11 12 2 37 38 = 1541990258000000000.
Proof. reflexivity. Qed.

(** ** Song files that load *)

(** X19.  [process_song_file] returns exactly when the frame of the file
    has a first row and the columns of both records and the database takes
    the song record and then the artist record of that row, each being the
    cells of the row brought to the common dtype of its five columns; in
    every other case it raises. *)
Theorem song_file_loads_exactly_when
    (read_json : string -> result DataFrame)
    (sink : list call -> query -> list value -> response)
    (filepath : string) (df : DataFrame) (cur : Cursor) :
  read_json filepath = Ok df ->
  (exists cur',
     process_song_file read_json sink filepath cur = (Ok tt, cur')) <->
  (exists r rest rs rs',
     rows df = r :: rest /\
     forallb (has_column df) (song_columns ++ artist_columns) = true /\
     sink (calls cur) song_table_insert (song_record df r) = Rows rs /\
     sink (calls cur ++ [(song_table_insert, song_record df r)])
          artist_table_insert (artist_record df r) = Rows rs').
Proof.
  intros Hread. rewrite forallb_app. split.
  - intros (cur' & H). unfold process_song_file, bind, lift in H.
    rewrite Hread in H.
    destruct (forallb (has_column df) song_columns) eqn:Hs.
    2: { destruct (getitems_missing _ _ Hs) as (c & E). rewrite E in H.
         discriminate. }
    destruct (rows df) as [|r rest] eqn:Hrows.
    { rewrite (getitems_ok _ _ Hs) in H. cbn [rbind] in H.
      unfold values0, values in H. cbn [rows] in H. rewrite Hrows in H.
      discriminate. }
    pose proof (values0_getitems df song_columns r rest Hs Hrows) as Es.
    change (map (astype (record_dtype df song_columns))
              (row_values song_columns r))
      with (song_record df r) in Es.
    rewrite Es in H. unfold execute at 1 in H.
    destruct (sink (calls cur) song_table_insert (song_record df r))
      as [e|rs] eqn:E1; [discriminate|].
    destruct (forallb (has_column df) artist_columns) eqn:Ha.
    2: { destruct (getitems_missing _ _ Ha) as (c & E). rewrite E in H.
         discriminate. }
    pose proof (values0_getitems df artist_columns r rest Ha Hrows) as Ea.
    change (map (astype (record_dtype df artist_columns))
              (row_values artist_columns r))
      with (artist_record df r) in Ea.
    rewrite Ea in H. unfold execute in H. cbn [calls] in H.
    destruct (sink _ artist_table_insert (artist_record df r))
      as [e|rs'] eqn:E2; [discriminate|].
    exists r, rest, rs, rs'. auto.
  - intros (r & rest & rs & rs' & Hrows & Hcols & E1 & E2).
    apply andb_prop in Hcols. destruct Hcols as [Hs Ha].
    pose proof (values0_getitems df song_columns r rest Hs Hrows) as Es.
    pose proof (values0_getitems df artist_columns r rest Ha Hrows) as Ea.
    change (map (astype (record_dtype df song_columns))
              (row_values song_columns r))
      with (song_record df r) in Es.
    change (map (astype (record_dtype df artist_columns))
              (row_values artist_columns r))
      with (artist_record df r) in Ea.
    unfold process_song_file, bind, lift. rewrite Hread, Es.
    unfold execute at 1. rewrite E1, Ea. unfold execute. cbn [calls].
    rewrite E2. eauto.
Qed.

Lemma song_file_loads_exactly_when_witness :
  (exists cur',
     process_song_file sample_read_json one_match_sink
       "data/song_data/songs.json" fresh_cursor = (Ok tt, cur')) <->
  (exists r rest rs rs',
     rows sample_songs = r :: rest /\
     forallb (has_column sample_songs) (song_columns ++ artist_columns)
       = true /\
     one_match_sink (calls fresh_cursor) song_table_insert
       (song_record sample_songs r) = Rows rs /\
     one_match_sink
       (calls fresh_cursor ++
        [(song_table_insert, song_record sample_songs r)])
       artist_table_insert (artist_record sample_songs r) = Rows rs').
Proof.
  apply (song_file_loads_exactly_when sample_read_json one_match_sink
           "data/song_data/songs.json" sample_songs fresh_cursor).
  reflexivity.
Defined.
